(** * The vSphere provider of vm-operator: session and provider layer

    A shallow embedding of [pkg/vmprovider/providers/vsphere/session.go]
    (the [Session] type and, in the same file, the [VSphereVmProvider]
    facade) together with the properties of that layer.

    Conventions of the embedding:
    - a Go [error] result is [option error] ([None] is [nil]); a Go
      [(T, error)] result is [Result T];
    - every operation that leaves the package (govmomi finder, remote VM
      handle, content library, network providers, session manager) is a
      constructor of [Call]; a function of the source that performs such
      operations is a program of type [Prog], a finite tree of calls;
    - [run] executes a program against an arbitrary, possibly stateful,
      backend and records the calls in the order they are issued;
    - fixed-width integers are [Z] with the wrap-around written out;
      [float64] is the IEEE 754 binary64 of [SpecFloat]. *)

From Stdlib Require Import ZArith Lia SpecFloat.
From stdpp Require Import gmap strings list.

Local Open Scope Z_scope.

(** ** Machine numbers *)

Module Int.

(** Two's-complement wrap-around of a conversion to a [w]-bit signed
    integer. *)
Definition wrap (w : Z) (x : Z) : Z :=
  (x + 2 ^ (w - 1)) mod 2 ^ w - 2 ^ (w - 1).

Definition int32 (x : Z) : Z := wrap 32 x.
Definition int64 (x : Z) : Z := wrap 64 x.

Definition min_int64 : Z := - 2 ^ 63.
Definition max_int64 : Z := 2 ^ 63 - 1.

Definition in_int32 (x : Z) : Prop := - 2 ^ 31 <= x < 2 ^ 31.
Definition in_int64 (x : Z) : Prop := min_int64 <= x <= max_int64.

End Int.

Module Float64.

(** [float64] values are the binary64 numbers of the IEEE 754
    specification in [SpecFloat]: 53 bits of precision, [emax = 1024]. *)
Definition prec : Z := 53.
Definition emax : Z := 1024.

Definition t : Type := spec_float.

(** The conversion [float64(x)] of an integer: round to nearest, ties to
    even. *)
Definition of_int (x : Z) : t := binary_normalize prec emax x 0 false.

(** The quotient [x / y] of two [float64] values. *)
Definition div (x y : t) : t := SFdiv prec emax x y.

(** The integer [⌈m · 2^e⌉] for a mantissa [m] and an exponent [e]. *)
Definition ceil_scaled (m e : Z) : Z :=
  if 0 <=? e then m * 2 ^ e else - ((- m) / 2 ^ (- e)).

(** The integer nearest to [m · 2^e] in the direction of zero. *)
Definition trunc_scaled (m e : Z) : Z :=
  if 0 <=? e then m * 2 ^ e else Z.quot m (2 ^ (- e)).

(** [math.Ceil]: the least integer value not below [x]; infinities, NaN
    and zeros are returned unchanged. *)
Definition Ceil (x : t) : t :=
  match x with
  | S754_finite s m e =>
      let v := ceil_scaled (if s then Z.neg m else Z.pos m) e in
      if (v =? 0) then S754_zero s else binary_normalize prec emax v 0 s
  | _ => x
  end.

(** The conversion [int64(x)]: the fractional part is discarded. Out of
    the range of [int64], and on infinities and NaN, Go leaves the result
    to the implementation; the value taken here is the one of amd64,
    the least [int64]. *)
Definition to_int64 (x : t) : Z :=
  match x with
  | S754_zero _ => 0
  | S754_finite s m e =>
      let v := trunc_scaled (if s then Z.neg m else Z.pos m) e in
      if (Int.min_int64 <=? v) && (v <=? Int.max_int64) then v
      else Int.min_int64
  | _ => Int.min_int64
  end.

End Float64.

(** ** Resource quantities *)

(** [resource.Quantity], by what the file reads of it: [Value()], the
    amount as an [int64] (a fractional amount is rounded away from zero),
    and [IsZero()]. *)
Record Quantity := { Value : Z }.

Definition IsZero (q : Quantity) : bool := Value q =? 0.

Definition memoryQuantityToMb (q : Quantity) : Z :=
  Float64.to_int64
    (Float64.Ceil
       (Float64.div (Float64.of_int (Value q))
                    (Float64.of_int (1024 * 1024)))).

Definition cpuQuantityToMhz (q : Quantity) : Z :=
  Float64.to_int64
    (Float64.Ceil
       (Float64.div (Float64.of_int (Value q))
                    (Float64.of_int (1000 * 1000)))).

(** The quotient of the specification: the ceiling of [bytes / 2^20] over
    the integers. *)
Definition ceil_div (a b : Z) : Z := - ((- a) / b).

Definition mb_ceiling (q : Quantity) : Z := ceil_div (Value q) (2 ^ 20).

(** The [float64] of [1024*1024]: the mantissa 2^52 with the exponent -32. *)
Definition two_20 : Float64.t := S754_finite false 4503599627370496 (-32).

(** The integer of sign [s] ([true] is minus) and magnitude [p]. *)
Definition signed (s : bool) (p : positive) : Z :=
  if s then Z.neg p else Z.pos p.

(** ** Errors *)

(** The errors the layer sees and makes. The first four are the lookup
    errors of govmomi's [find] package, told apart by their dynamic type
    in [transformError]; [StatusNotFound] is [k8serror.NewNotFound];
    [Errorf] is [fmt.Errorf] and [errors.Errorf] with the format and its
    arguments kept apart; [Wrapf] is [errors.Wrap] and [errors.Wrapf];
    [Fault] is any other error of the backend. *)
Inductive error :=
| NotFoundError (kind path : string)
| DefaultNotFoundError (kind : string)
| MultipleFoundError (kind path : string)
| DefaultMultipleFoundError (kind : string)
| StatusNotFound (resource name : string)
| Errorf (format : string) (args : list string)
| Wrapf (cause : error) (format : string) (args : list string)
| Fault (msg : string).

Definition Result (A : Type) : Type := A + error.

Definition is_ok {A : Type} (r : Result A) : bool :=
  match r with inl _ => true | inr _ => false end.

(** ** The API objects ([v1alpha1]) *)

Record VirtualMachineNetworkInterface := {
  NetworkName : string;
  NetworkType : string;
}.

Record VirtualMachineMetadata := {
  Transport : string;
}.

Record VirtualMachineSpec := {
  ImageName : string;
  ClassName : string;
  PowerState : string;
  NetworkInterfaces : list VirtualMachineNetworkInterface;
  VmMetadata : option VirtualMachineMetadata;
}.

(** Modelled from the spec: the declaration of [VirtualMachineStatus] is
    not part of the sources at hand. The status record holds the lifecycle
    [Phase] and the fields observed on the backend: power state, unique
    identifier, internal reference string and network address. *)
Record VirtualMachineStatus := {
  Phase : string;
  StatusPowerState : string;
  BiosUuid : string;
  InternalId : string;
  VmIp : string;
}.

Record VirtualMachine := {
  Name : string;
  Namespace : string;
  Annotations : option (gmap string string);
  Spec : VirtualMachineSpec;
  Status : VirtualMachineStatus;
}.

(** [NamespacedName], as the sibling API types define it. *)
Definition NamespacedName (vm : VirtualMachine) : string :=
  Namespace vm +:+ "/" +:+ Name vm.

Record ResourceSpec := {
  Cpu : Quantity;
  Memory : Quantity;
}.

Record VirtualMachineClassSpec := {
  HardwareCpus : Z;
  HardwareMemory : Quantity;
  Requests : ResourceSpec;
  Limits : ResourceSpec;
}.

Record VirtualMachineImage := {
  ImageObjectName : string;
  ImageNamespace : string;
  ImageAnnotations : gmap string string;
  ImageUuid : string;
  ImageInternalId : string;
  ImagePowerState : string;
  ImageType : string;
  ImageSourceType : string;
}.

(** ** The objects of the backend ([vim25/types], [object], [library]) *)

Inductive VirtualDeviceConfigSpecOperation :=
| VirtualDeviceConfigSpecOperationAdd
| VirtualDeviceConfigSpecOperationRemove
| VirtualDeviceConfigSpecOperationEdit.

#[global] Instance VirtualDeviceConfigSpecOperation_eq_dec :
  EqDecision VirtualDeviceConfigSpecOperation.
Proof. solve_decision. Defined.

(** A virtual device: its key (an [int32]), its backing and, standing for
    the rest of the device, a label. *)
Record VirtualDevice := {
  Key : Z;
  Backing : string;
  DeviceLabel : string;
}.

Record VirtualDeviceConfigSpec := {
  Operation : VirtualDeviceConfigSpecOperation;
  FileOperation : string;
  Device : VirtualDevice;
  Profile : list string;
}.

Record ResourceAllocationInfo := {
  Reservation : option Z;
  Limit : option Z;
}.

Record VirtualMachineConfigSpec := {
  ConfigName : string;
  NumCPUs : Z;
  MemoryMB : Z;
  CpuAllocation : option ResourceAllocationInfo;
  MemoryAllocation : option ResourceAllocationInfo;
  ExtraConfig : list (string * string);
  Annotation : string;
  DeviceChange : list VirtualDeviceConfigSpec;
  Files : option string;
}.

Record VirtualMachineRelocateSpec := {
  Pool : string;
  LocationProfile : list string;
  LocationDeviceChange : list VirtualDeviceConfigSpec;
  Folder : string;
  Host : option string;
  Datastore : option string;
}.

Record VirtualMachineCloneSpec := {
  Config : VirtualMachineConfigSpec;
  PowerOn : bool;
  CloneMemory : option bool;
  Location : VirtualMachineRelocateSpec;
}.

Record CustomizationAdapterMapping := {
  MacAddress : string;
  IpAddress : string;
  SubnetMask : string;
  Gateway : list string;
}.

Record CustomizationSpec := {
  HostName : string;
  HwClockUTC : bool;
  NicSettingMap : list CustomizationAdapterMapping;
}.

(** The status of an NSX-T virtual network interface ([ncpv1alpha1]). *)
Record VirtualNetworkInterfaceIP := {
  IP : string;
  IPSubnetMask : string;
  IPGateway : string;
}.

Record VirtualNetworkInterface := {
  IPAddresses : list VirtualNetworkInterfaceIP;
  StatusMacAddress : string;
}.

Record LibraryItem := {
  ItemID : string;
  ItemName : string;
  ItemType : string;
}.

Record DeploymentSpec := {
  DeployName : string;
  AcceptAllEULA : bool;
  StorageProfileID : string;
  DefaultDatastoreID : string;
  ResourcePoolID : string;
  FolderID : string;
}.

(** An [*object.VirtualMachine], named by its managed object reference. *)
Record ObjectVirtualMachine := {
  ObjectName : string;
  ObjectRef : string;
}.

(** What [Finder.ObjectReference] hands back: a virtual machine or an
    object of another kind. *)
Inductive ObjectReference :=
| IsVirtualMachine (o : ObjectVirtualMachine)
| IsOther (kind ref : string).

(** ** The remote VM handle ([resources.VirtualMachine]) *)

(** The handle holds a name and, once it stands for an object of the
    backend, that object. *)
Record ResVirtualMachine := {
  ResName : string;
  vcVirtualMachine : option ObjectVirtualMachine;
}.

Definition NewVMForCreate (name : string) : ResVirtualMachine :=
  {| ResName := name; vcVirtualMachine := None |}.

(** ** The session *)

Record Session := {
  cluster : string;
  folder : string;
  resourcepool : string;
  datastore : string;
  network : option string;
  contentlib : option string;
  extraConfig : option (gmap string string);
}.

(** The two network providers of [getNetworkProviderByType]. *)
Inductive NetworkProvider :=
| NsxtNetworkProvider
| DefaultNetworkProvider.

(** The functions of the source whose invocation the properties speak
    of. *)
Inductive Method :=
| SessionCreateVirtualMachine
| SessionCloneVirtualMachine.

(** ** Calls out of the package *)

(** One constructor for each operation the file performs on an object it
    does not define, with the arguments it passes. [Enter] is no operation
    of the backend: it records that a function of the source has been
    entered. *)
Inductive Call :=
(* SessionManager *)
| GetSession (namespace : string)
(* find.Finder *)
| FinderVirtualMachine (name : string)
| FinderObjectReference (type value : string)
(* resources *)
| NewVMFromObject (o : ObjectVirtualMachine)
| VmCreate (vm : ResVirtualMachine) (fold pool : string)
    (config : VirtualMachineConfigSpec)
| VmClone (src : ResVirtualMachine) (fold : string)
    (clone : VirtualMachineCloneSpec)
| VmReconfigure (vm : ResVirtualMachine) (config : VirtualMachineConfigSpec)
| VmSetPowerState (vm : ResVirtualMachine) (state : string)
| VmCustomize (vm : ResVirtualMachine) (custom : CustomizationSpec)
| VmGetStatus (vm : ResVirtualMachine)
| VmGetNetworkDevices (vm : ResVirtualMachine)
| VmGetVirtualDisks (vm : ResVirtualMachine)
| DisksConfigSpec (disks : list VirtualDevice)
    (op : VirtualDeviceConfigSpecOperation)
(* object.NetworkReference *)
| EthernetCardBackingInfo (net : string)
(* NetworkProvider *)
| CreateVnic (np : NetworkProvider) (vm : VirtualMachine)
    (vif : VirtualMachineNetworkInterface)
| WaitForVnetIFStatus (namespace networkName vmName : string)
(* placement *)
| ComputeVMPlacement (cls : string) (vmRef : string)
    (clone : VirtualMachineCloneSpec)
(* rest.Client and the content library *)
| RestLogin
| RestLogout
| FindLibraryItems (libraryID name : string)
| GetLibraryItem (id : string)
| FetchOvfPropertiesFromLibrary (item : LibraryItem)
| DeployLibraryItem (itemID : string) (deploy : DeploymentSpec)
(* sequence *)
| DeleteSequenceExecute (vm : VirtualMachine) (resVm : ResVirtualMachine)
(* instrumentation *)
| Enter (m : Method).

(** What each call gives back. [VmCreate] fills in the handle it is
    called on; its answer is the handle after the call. *)
Definition Resp (c : Call) : Type :=
  match c with
  | GetSession _ => Result Session
  | FinderVirtualMachine _ => Result ObjectVirtualMachine
  | FinderObjectReference _ _ => Result ObjectReference
  | NewVMFromObject _ => Result ResVirtualMachine
  | VmCreate _ _ _ _ => Result ResVirtualMachine
  | VmClone _ _ _ => Result ResVirtualMachine
  | VmReconfigure _ _ => option error
  | VmSetPowerState _ _ => option error
  | VmCustomize _ _ => option error
  | VmGetStatus _ => Result VirtualMachineStatus
  | VmGetNetworkDevices _ => Result (list VirtualDevice)
  | VmGetVirtualDisks _ => Result (list VirtualDevice)
  | DisksConfigSpec _ _ => Result (list VirtualDeviceConfigSpec)
  | EthernetCardBackingInfo _ => Result string
  | CreateVnic _ _ _ => Result VirtualDevice
  | WaitForVnetIFStatus _ _ _ => Result VirtualNetworkInterface
  | ComputeVMPlacement _ _ _ => Result VirtualMachineRelocateSpec
  | RestLogin => option error
  | RestLogout => option error
  | FindLibraryItems _ _ => Result (list string)
  | GetLibraryItem _ => Result LibraryItem
  | FetchOvfPropertiesFromLibrary _ => Result (gmap string string)
  | DeployLibraryItem _ _ => Result (string * string)
  | DeleteSequenceExecute _ _ => option error
  | Enter _ => unit
  end.

(** ** Programs *)

(** A program is a finite tree: it returns, it performs a call and goes on
    with the answer, or it panics (a nil dereference, a failed type
    assertion). *)
Inductive Prog (A : Type) : Type :=
| Ret (a : A)
| Do (c : Call) (k : Resp c -> Prog A)
| Panic (msg : string).

Arguments Ret {A} a.
Arguments Do {A} c k.
Arguments Panic {A} msg.

Fixpoint bind {A B : Type} (p : Prog A) (f : A -> Prog B) : Prog B :=
  match p with
  | Ret a => f a
  | Do c k => Do c (fun r => bind (k r) f)
  | Panic msg => Panic msg
  end.

Definition call (c : Call) : Prog (Resp c) := Do c Ret.

(** [try p f]: the Go idiom [x, err := p; if err != nil { return nil, err }]
    followed by [f x]. *)
Definition try {A B : Type} (p : Prog (Result A))
    (f : A -> Prog (Result B)) : Prog (Result B) :=
  bind p (fun r => match r with inl a => f a | inr e => Ret (inr e) end).

(** The same with the error changed on the way out:
    [if err != nil { return nil, wrap(err) }]. *)
Definition try_with {A B : Type} (p : Prog (Result A))
    (wrap : error -> error) (f : A -> Prog (Result B)) : Prog (Result B) :=
  bind p (fun r => match r with inl a => f a | inr e => Ret (inr (wrap e)) end).

Declare Scope prog_scope.
Delimit Scope prog_scope with prog.
Notation "x <- p ;; q" := (bind p (fun x => q))
  (at level 100, p at next level, right associativity) : prog_scope.
Notation "x <-? p ;; q" := (try p (fun x => q))
  (at level 100, p at next level, right associativity) : prog_scope.
Notation "x <-? p 'or' w ;; q" := (try_with p w (fun x => q))
  (at level 100, p at next level, w at level 9, right associativity)
  : prog_scope.

(** ** Running a program *)

(** A backend answers each call from its state [W] and moves to a new
    state. *)
Definition Backend (W : Type) : Type := forall c : Call, W -> Resp c * W.

(** The result of a run: [Some a] when the program returned [a], [None]
    when it panicked. *)
Record Outcome (W A : Type) := {
  trace : list Call;
  final : W;
  result : option A;
}.

Arguments trace {W A} o.
Arguments final {W A} o.
Arguments result {W A} o.

Fixpoint run {W A : Type} (h : Backend W) (p : Prog A) (w : W)
    : Outcome W A :=
  match p with
  | Ret a => {| trace := []; final := w; result := Some a |}
  | Panic _ => {| trace := []; final := w; result := None |}
  | Do c k =>
      let '(r, w') := h c w in
      let o := run h (k r) w' in
      {| trace := c :: trace o; final := final o; result := result o |}
  end.

Local Open Scope prog_scope.

Section Vsphere.

(** Constants of the repository that are declared outside the file: the
    kind of the internal VirtualMachine resource
    ([vmoperator.InternalVirtualMachine.GetKind()]), the network type of
    NSX-T interfaces, the annotation keys of package [pkg] and the power
    state [v1alpha1.VirtualMachinePoweredOn]. *)
Variable VirtualMachineKind : string.
Variable NsxtNetworkType : string.
Variable VmOperatorKey : string.
Variable VmOperatorVmProviderKey : string.
Variable VirtualMachinePoweredOn : string.

Definition VsphereVmProviderName : string := "vsphere".
Definition VmOperatorMoRefKey : string := VmOperatorKey +:+ "/moref".

(** *** Session: lookup *)

Definition lookupVm (s : Session) (name : string)
    : Prog (Result ResVirtualMachine) :=
  objVm <-? call (FinderVirtualMachine name) ;;
  call (NewVMFromObject objVm).

Definition Session_GetVirtualMachine (s : Session) (name : string)
    : Prog (Result ResVirtualMachine) :=
  lookupVm s name.

(** [ReferenceValue] of a handle: the reference of the object behind it;
    a handle without an object has none to give. *)
Definition ReferenceValue (vm : ResVirtualMachine) : Prog string :=
  match vcVirtualMachine vm with
  | Some o => Ret (ObjectRef o)
  | None => Panic "nil pointer dereference"
  end.

(** *** Session: devices *)

Definition getNetworkProviderByType (s : Session) (networkType : string)
    : Result NetworkProvider :=
  if String.eqb networkType NsxtNetworkType then inl NsxtNetworkProvider
  else if String.eqb networkType "" then inl DefaultNetworkProvider
  else inr (Errorf "failed to create network provider for network type '%s'"
                   [networkType]).

(** Modelled from the spec: [setVnicKey] is defined in a part of the
    package that is not at hand; it assigns the temporary key to the new
    device and leaves the rest of the device as it is. *)
Definition setVnicKey (dev : VirtualDevice) (key : Z) : VirtualDevice :=
  {| Key := key; Backing := Backing dev; DeviceLabel := DeviceLabel dev |}.

Definition deviceSpec (op : VirtualDeviceConfigSpecOperation)
    (dev : VirtualDevice) : VirtualDeviceConfigSpec :=
  {| Operation := op; FileOperation := ""; Device := dev; Profile := [] |}.

(** The loop of [deviceSpecsFromVM] over the interfaces that are left,
    with the values of [key] and [deviceSpecs] on entry. *)
Fixpoint deviceSpecsFromVM_loop (s : Session) (vm : VirtualMachine)
    (vifs : list VirtualMachineNetworkInterface) (key : Z)
    (deviceSpecs : list VirtualDeviceConfigSpec)
    : Prog (Result (list VirtualDeviceConfigSpec)) :=
  match vifs with
  | [] => Ret (inl deviceSpecs)
  | vif :: vifs' =>
      match getNetworkProviderByType s (NetworkType vif) with
      | inr err => Ret (inr (Wrapf err "failed to get network provider" []))
      | inl np =>
          dev <-? call (CreateVnic np vm vif)
            or (fun err => Wrapf err "failed to create vnic '%v'"
                                 [NetworkName vif]) ;;
          let dev := setVnicKey dev key in
          deviceSpecsFromVM_loop s vm vifs' (Int.int32 (key - 1))
            (deviceSpecs ++ [deviceSpec VirtualDeviceConfigSpecOperationAdd dev])
      end
  end.

Definition deviceSpecsFromVM (s : Session) (vm : VirtualMachine)
    : Prog (Result (list VirtualDeviceConfigSpec)) :=
  deviceSpecsFromVM_loop s vm (NetworkInterfaces (Spec vm))
    (Int.int32 (-100)) [].

Definition setBacking (dev : VirtualDevice) (backingInfo : string)
    : VirtualDevice :=
  {| Key := Key dev; Backing := backingInfo; DeviceLabel := DeviceLabel dev |}.

(** The loop of [deviceChangeSpecs] that gives the devices at hand the
    backing of the default network. *)
Fixpoint editBacking_loop (net : string) (netDevices : list VirtualDevice)
    (deviceSpecs : list VirtualDeviceConfigSpec)
    : Prog (Result (list VirtualDeviceConfigSpec)) :=
  match netDevices with
  | [] => Ret (inl deviceSpecs)
  | dev :: netDevices' =>
      backingInfo <-? call (EthernetCardBackingInfo net)
        or (fun err =>
              Wrapf err
                "unable to create new ethernet card backing info for network %+v"
                [net]) ;;
      editBacking_loop net netDevices'
        (deviceSpecs ++
           [deviceSpec VirtualDeviceConfigSpecOperationEdit
                       (setBacking dev backingInfo)])
  end.

Definition deviceChangeSpecs (s : Session) (vm : VirtualMachine)
    (resSrcVm : ResVirtualMachine)
    : Prog (Result (list VirtualDeviceConfigSpec)) :=
  netDevices <-? call (VmGetNetworkDevices resSrcVm) ;;
  if (length (NetworkInterfaces (Spec vm)) =? 0)%nat then
    match network s with
    | Some net => editBacking_loop net netDevices []
    | None => Ret (inl [])
    end
  else
    let deviceSpecs :=
      map (deviceSpec VirtualDeviceConfigSpecOperationRemove) netDevices in
    addDeviceSpecs <-? deviceSpecsFromVM s vm ;;
    Ret (inl (deviceSpecs ++ addDeviceSpecs)).

Definition setProfile (vmProfile : list string)
    (cs : VirtualDeviceConfigSpec) : VirtualDeviceConfigSpec :=
  {| Operation := Operation cs; FileOperation := "";
     Device := Device cs; Profile := vmProfile |}.

Definition processStorageClass (resSrcVM : ResVirtualMachine)
    (profileID : string)
    : Prog (Result (list VirtualDeviceConfigSpec * list string)) :=
  if (String.length profileID =? 0)%nat then Ret (inl ([], []))
  else
    disks <-? call (VmGetVirtualDisks resSrcVM) ;;
    vdcs <-? call (DisksConfigSpec disks VirtualDeviceConfigSpecOperationEdit) ;;
    let vmProfile := [profileID] in
    Ret (inl (map (setProfile vmProfile) vdcs, vmProfile)).

(** *** Session: the configuration descriptor *)

(** The pairs of the merged map; Go ranges over a map in no fixed
    order, the order here is that of [map_to_list]. *)
Definition GetExtraConfig (vmSpecMeta : gmap string string)
    (globalMeta : option (gmap string string)) : list (string * string) :=
  let mergedConfig :=
    match globalMeta with
    | Some g => vmSpecMeta ∪ g
    | None => vmSpecMeta
    end in
  map_to_list mergedConfig.

Definition allocation (request limit : Quantity) (conv : Quantity -> Z)
    : ResourceAllocationInfo :=
  {| Reservation := if IsZero request then None else Some (conv request);
     Limit := if IsZero limit then None else Some (conv limit) |}.

Definition configSpecFromClassSpec (s : Session) (name : string)
    (vmSpec : VirtualMachineSpec) (vmClassSpec : VirtualMachineClassSpec)
    (metadata : gmap string string)
    (deviceSpecs : list VirtualDeviceConfigSpec)
    : Result VirtualMachineConfigSpec :=
  let configSpec (extra : list (string * string)) :=
    {| ConfigName := name;
       NumCPUs := Int.int32 (HardwareCpus vmClassSpec);
       MemoryMB := memoryQuantityToMb (HardwareMemory vmClassSpec);
       CpuAllocation :=
         Some (allocation (Cpu (Requests vmClassSpec))
                          (Cpu (Limits vmClassSpec)) cpuQuantityToMhz);
       MemoryAllocation :=
         Some (allocation (Memory (Requests vmClassSpec))
                          (Memory (Limits vmClassSpec)) memoryQuantityToMb);
       ExtraConfig := extra;
       Annotation := "Virtual Machine managed by VM Operator";
       DeviceChange := deviceSpecs;
       Files := None |} in
  match VmMetadata vmSpec with
  | Some md =>
      if String.eqb (Transport md) "ExtraConfig" then
        inl (configSpec (GetExtraConfig metadata (extraConfig s)))
      else
        inr (Errorf "unsupported metadata transport %q" [Transport md])
  | None => inl (configSpec [])
  end.

(** *** Session: create, clone, deploy *)

Definition setFiles (configSpec : VirtualMachineConfigSpec)
    (vmPathName : string) : VirtualMachineConfigSpec :=
  {| ConfigName := ConfigName configSpec;
     NumCPUs := NumCPUs configSpec;
     MemoryMB := MemoryMB configSpec;
     CpuAllocation := CpuAllocation configSpec;
     MemoryAllocation := MemoryAllocation configSpec;
     ExtraConfig := ExtraConfig configSpec;
     Annotation := Annotation configSpec;
     DeviceChange := DeviceChange configSpec;
     Files := Some vmPathName |}.

Definition createVm (s : Session) (name : string)
    (configSpec : VirtualMachineConfigSpec)
    : Prog (Result ResVirtualMachine) :=
  let configSpec := setFiles configSpec ("[" +:+ datastore s +:+ "]") in
  let resVm := NewVMForCreate name in
  resVm <-? call (VmCreate resVm (folder s) (resourcepool s) configSpec) ;;
  err <- call (VmSetPowerState resVm VirtualMachinePoweredOn) ;;
  match err with
  | Some err => Ret (inr err)
  | None => Ret (inl resVm)
  end.

Definition Session_CreateVirtualMachine (s : Session) (vm : VirtualMachine)
    (vmClass : VirtualMachineClassSpec) (vmMetadata : gmap string string)
    : Prog (Result ResVirtualMachine) :=
  _ <- call (Enter SessionCreateVirtualMachine) ;;
  deviceSpecs <-? deviceSpecsFromVM s vm ;;
  let name := Name vm in
  match configSpecFromClassSpec s name (Spec vm) vmClass vmMetadata
                                deviceSpecs with
  | inr err => Ret (inr err)
  | inl configSpec =>
      resVm <-? createVm s name configSpec
        or (fun err => Wrapf err "failed to create new VM %q" [name]) ;;
      Ret (inl resVm)
  end.

(** [defer d] before [p]: [d] runs when [p] is left, by a return or by
    a panic; the panic goes on after it. *)
Fixpoint defer {A : Type} (p : Prog A) (d : Prog unit) : Prog A :=
  match p with
  | Ret a => bind d (fun _ => Ret a)
  | Do c k => Do c (fun r => defer (k r) d)
  | Panic msg => bind d (fun _ => Panic msg)
  end.

(** [WithRestClient]: log in, run [f], log out on the way back whatever
    [f] returned and also when it panicked; an error of the logout is
    logged, not returned. *)
Definition WithRestClient {A : Type} (f : Prog (Result A))
    : Prog (Result A) :=
  err <- call RestLogin ;;
  match err with
  | Some err => Ret (inr err)
  | None => defer f (_ <- call RestLogout ;; Ret tt)
  end.

Definition IsSupportedDeployType (t : string) : bool :=
  String.eqb t "ovf".

Inductive ImageOptions :=
| AnnotateVmImage
| DoNotAnnotateVmImage.

Definition LibItemToVirtualMachineImage (item : LibraryItem)
    (namespace : string) (imgOptions : ImageOptions)
    : Prog (Result VirtualMachineImage) :=
  let image (ovfProperties : gmap string string) :=
    {| ImageObjectName := ItemName item;
       ImageNamespace := namespace;
       ImageAnnotations := ovfProperties;
       ImageUuid := ItemID item;
       ImageInternalId := ItemName item;
       ImagePowerState := "";
       ImageType := ItemType item;
       ImageSourceType := "Content Library" |} in
  match imgOptions with
  | AnnotateVmImage =>
      ovfProperties <-? call (FetchOvfPropertiesFromLibrary item) ;;
      Ret (inl (image ovfProperties))
  | DoNotAnnotateVmImage => Ret (inl (image ∅))
  end.

Definition contentlibID (s : Session) : Prog string :=
  match contentlib s with
  | Some id => Ret id
  | None => Panic "nil pointer dereference"
  end.

Definition GetVirtualMachineImageFromCL (s : Session)
    (name namespace : string) : Prog (Result VirtualMachineImage) :=
  item <-? WithRestClient
    (libraryID <- contentlibID s ;;
     itemIDs <-? call (FindLibraryItems libraryID name) ;;
     match itemIDs with
     | id :: _ =>
         item <-? call (GetLibraryItem id) ;;
         Ret (inl (Some item))
     | [] => Ret (inl None)
     end) ;;
  match item with
  | None => Ret (inr (Errorf "item: %v is not found in CL" [name]))
  | Some item =>
      if negb (IsSupportedDeployType (ItemType item)) then
        Ret (inr (Errorf "item: %v not a supported type" [ItemName item]))
      else
        LibItemToVirtualMachineImage item namespace AnnotateVmImage
  end.

(** [deployOvf] drops the error of [NewVMFromObject]: when that call
    fails the function returns no handle and no error. *)
Definition deployOvf (s : Session) (itemID vmName profileID : string)
    : Prog (Result (option ResVirtualMachine)) :=
  deployment <-? WithRestClient
    (let dSpec :=
       {| DeployName := vmName;
          AcceptAllEULA := true;
          StorageProfileID := profileID;
          DefaultDatastoreID :=
            if String.eqb profileID "" then datastore s else "";
          ResourcePoolID := resourcepool s;
          FolderID := folder s |} in
     call (DeployLibraryItem itemID dSpec)) ;;
  ref <-? call (FinderObjectReference (fst deployment) (snd deployment)) ;;
  match ref with
  | IsOther _ _ => Panic "interface conversion"
  | IsVirtualMachine o =>
      deployedVM <- call (NewVMFromObject o) ;;
      match deployedVM with
      | inl deployedVM => Ret (inl (Some deployedVM))
      | inr _ => Ret (inl None)
      end
  end.

Definition getCloneSpec (s : Session) (name : string)
    (resSrcVM : ResVirtualMachine) (vm : VirtualMachine)
    (vmClassSpec : VirtualMachineClassSpec)
    (vmMetadata : gmap string string) (profileID : string)
    : Prog (Result VirtualMachineCloneSpec) :=
  storage <-? processStorageClass resSrcVM profileID ;;
  let vdcs := fst storage in
  let vmProfile := snd storage in
  deviceSpecs <-? deviceChangeSpecs s vm resSrcVM ;;
  let deviceSpecs := deviceSpecs ++ vdcs in
  match configSpecFromClassSpec s name (Spec vm) vmClassSpec vmMetadata []
  with
  | inr err => Ret (inr err)
  | inl configSpec =>
      let powerOn :=
        String.eqb (PowerState (Spec vm)) VirtualMachinePoweredOn in
      let cloneSpec (host datastore : option string) :=
        {| Config := configSpec;
           PowerOn := powerOn;
           CloneMemory := Some false;
           Location :=
             {| Pool := resourcepool s;
                LocationProfile := vmProfile;
                LocationDeviceChange := deviceSpecs;
                Folder := folder s;
                Host := host;
                Datastore := datastore |} |} in
      vmRef <- ReferenceValue resSrcVM ;;
      rSpec <-? call (ComputeVMPlacement (cluster s) vmRef
                                         (cloneSpec None None)) ;;
      Ret (inl (cloneSpec (Host rSpec) (Datastore rSpec)))
  end.

Definition cloneVm (s : Session) (resSrcVm : ResVirtualMachine)
    (cloneSpec : VirtualMachineCloneSpec)
    : Prog (Result ResVirtualMachine) :=
  cloneResVm <-? call (VmClone resSrcVm (folder s) cloneSpec) ;;
  Ret (inl cloneResVm).

Definition deviceChangeOnly (deviceSpecs : list VirtualDeviceConfigSpec)
    : VirtualMachineConfigSpec :=
  {| ConfigName := ""; NumCPUs := 0; MemoryMB := 0;
     CpuAllocation := None; MemoryAllocation := None;
     ExtraConfig := []; Annotation := ""; DeviceChange := deviceSpecs;
     Files := None |}.

Definition Session_CloneVirtualMachine (s : Session) (vm : VirtualMachine)
    (vmClass : VirtualMachineClassSpec) (vmMetadata : gmap string string)
    (profileID : string) : Prog (Result ResVirtualMachine) :=
  _ <- call (Enter SessionCloneVirtualMachine) ;;
  let name := Name vm in
  match contentlib s with
  | Some _ =>
      image <-? GetVirtualMachineImageFromCL s (ImageName (Spec vm))
                                              (Namespace vm) ;;
      deployedVm <-? deployOvf s (ImageUuid image) name profileID
        or (fun err => Wrapf err "failed to deploy new VM %q from %q"
                             [name; ImageName (Spec vm)]) ;;
      match deployedVm with
      | None => Panic "nil pointer dereference"
      | Some deployedVm =>
          deviceSpecs <-? deviceChangeSpecs s vm deployedVm
            or (fun err =>
                  Wrapf err
                    "failed to generate device change spec for VM %q"
                    [name]) ;;
          err <- call (VmReconfigure deployedVm
                                     (deviceChangeOnly deviceSpecs)) ;;
          match err with
          | Some err =>
              Ret (inr (Wrapf err "failed to reconfigure VM %q" [name]))
          | None => Ret (inl deployedVm)
          end
      end
  | None =>
      resSrcVm <-? lookupVm s (ImageName (Spec vm)) ;;
      cloneSpec <-? getCloneSpec s name resSrcVm vm vmClass vmMetadata
                                 profileID
        or (fun err => Wrapf err "failed to create clone spec from %q"
                             [ResName resSrcVm]) ;;
      cloneResVm <-? cloneVm s resSrcVm cloneSpec
        or (fun err => Wrapf err "failed to clone new VM %q from %q"
                             [name; ResName resSrcVm]) ;;
      Ret (inl cloneResVm)
  end.

(** *** Session: guest customization *)

Fixpoint waitForVnetIFs (namespace vmName : string)
    (nifs : list VirtualMachineNetworkInterface)
    (vnifs : list VirtualNetworkInterface)
    : Prog (Result (list VirtualNetworkInterface)) :=
  match nifs with
  | [] => Ret (inl vnifs)
  | nif :: nifs' =>
      if String.eqb (NetworkType nif) NsxtNetworkType then
        vnetif <-? call (WaitForVnetIFStatus namespace (NetworkName nif)
                                             vmName) ;;
        waitForVnetIFs namespace vmName nifs' (vnifs ++ [vnetif])
      else waitForVnetIFs namespace vmName nifs' vnifs
  end.

Definition nicSettings (vnifs : list VirtualNetworkInterface)
    : list CustomizationAdapterMapping :=
  flat_map
    (fun vnetif =>
       match IPAddresses vnetif with
       | [ip] =>
           [{| MacAddress := StatusMacAddress vnetif;
               IpAddress := IP ip;
               SubnetMask := IPSubnetMask ip;
               Gateway := [IPGateway ip] |}]
       | _ => []
       end)
    vnifs.

Definition getCustomizationSpecs (s : Session) (namespace vmName : string)
    (vmSpec : VirtualMachineSpec) : Prog (Result (option CustomizationSpec)) :=
  vnifs <-? waitForVnetIFs namespace vmName (NetworkInterfaces vmSpec) [] ;;
  if (length vnifs =? 0)%nat then Ret (inl None)
  else
    Ret (inl (Some {| HostName := vmName;
                      HwClockUTC := true;
                      NicSettingMap := nicSettings vnifs |})).

(** *** Provider: error translation *)

Definition transformError (resourceType resource : string) (err : error)
    : error :=
  match err with
  | NotFoundError _ _ | DefaultNotFoundError _ =>
      StatusNotFound resourceType resource
  | MultipleFoundError _ _ | DefaultMultipleFoundError _ => err
  | _ => err
  end.

Definition transformVmError (resource : string) (err : error) : error :=
  transformError VirtualMachineKind resource err.

(** *** Provider: status and annotations *)

Definition setPhase (st : VirtualMachineStatus) (phase : string)
    : VirtualMachineStatus :=
  {| Phase := phase;
     StatusPowerState := StatusPowerState st;
     BiosUuid := BiosUuid st;
     InternalId := InternalId st;
     VmIp := VmIp st |}.

Definition setStatus (vm : VirtualMachine) (st : VirtualMachineStatus)
    : VirtualMachine :=
  {| Name := Name vm; Namespace := Namespace vm;
     Annotations := Annotations vm; Spec := Spec vm; Status := st |}.

Definition setAnnotations (vm : VirtualMachine)
    (annotations : gmap string string) : VirtualMachine :=
  {| Name := Name vm; Namespace := Namespace vm;
     Annotations := Some annotations; Spec := Spec vm;
     Status := Status vm |}.

(** The functions of the provider change the [VirtualMachine] they are
    given through its pointer; here they return it next to their
    error. *)
Definition mergeVmStatus (vm : VirtualMachine) (resVm : ResVirtualMachine)
    : Prog (VirtualMachine * option error) :=
  vmStatus <- call (VmGetStatus resVm) ;;
  match vmStatus with
  | inr err =>
      Ret (vm, Some (Wrapf err "unable to get VirtualMachine status" []))
  | inl vmStatus =>
      let vmStatus := setPhase vmStatus (Phase (Status vm)) in
      Ret (setStatus vm vmStatus, None)
  end.

Definition addProviderAnnotations (vm : VirtualMachine)
    (vmRes : ResVirtualMachine) : Prog VirtualMachine :=
  let annotations :=
    match Annotations vm with
    | Some a => a
    | None => ∅
    end in
  let annotations :=
    <[VmOperatorVmProviderKey := VsphereVmProviderName]> annotations in
  ref <- ReferenceValue vmRes ;;
  let annotations := <[VmOperatorMoRefKey := ref]> annotations in
  Ret (setAnnotations vm annotations).

(** *** Provider: create *)

Definition VSphereVmProvider_CreateVirtualMachine (vm : VirtualMachine)
    (vmClass : VirtualMachineClassSpec) (vmMetadata : gmap string string)
    (profileID : string) : Prog (VirtualMachine * option error) :=
  let vmName := NamespacedName vm in
  ses <- call (GetSession (Namespace vm)) ;;
  match ses with
  | inr err => Ret (vm, Some err)
  | inl ses =>
      resVm <-
        (if String.eqb (ImageName (Spec vm)) "" then
           Session_CreateVirtualMachine ses vm vmClass vmMetadata
         else
           Session_CloneVirtualMachine ses vm vmClass vmMetadata profileID) ;;
      match resVm with
      | inr err => Ret (vm, Some (transformVmError vmName err))
      | inl resVm =>
          nsxtCustomizeSpec <-
            getCustomizationSpecs ses (Namespace vm) (Name vm) (Spec vm) ;;
          match nsxtCustomizeSpec with
          | inr err => Ret (vm, Some err)
          | inl nsxtCustomizeSpec =>
              err <-
                match nsxtCustomizeSpec with
                | Some custom => call (VmCustomize resVm custom)
                | None => Ret None
                end ;;
              match err with
              | Some err => Ret (vm, Some (transformVmError vmName err))
              | None =>
                  merged <- mergeVmStatus vm resVm ;;
                  match merged with
                  | (vm, Some err) =>
                      Ret (vm, Some (transformVmError vmName err))
                  | (vm, None) =>
                      vm <- addProviderAnnotations vm resVm ;;
                      Ret (vm, None)
                  end
              end
          end
      end
  end.

(** *** Provider: update *)

Definition reconfigureVm (resSrcVm : ResVirtualMachine)
    (configSpec : VirtualMachineConfigSpec) : Prog (option error) :=
  call (VmReconfigure resSrcVm configSpec).

Definition updatePowerState (vm : VirtualMachine)
    (resVm : ResVirtualMachine) : Prog (option error) :=
  let powerState :=
    if negb (String.eqb (PowerState (Spec vm)) "") then PowerState (Spec vm)
    else VirtualMachinePoweredOn in
  err <- call (VmSetPowerState resVm powerState) ;;
  match err with
  | Some err =>
      Ret (Some (Wrapf err "failed to set power state to %v" [powerState]))
  | None => Ret None
  end.

Definition updateVm (vm : VirtualMachine)
    (configSpec : VirtualMachineConfigSpec) (resVm : ResVirtualMachine)
    : Prog (option error) :=
  err <- reconfigureVm resVm configSpec ;;
  match err with
  | None => updatePowerState vm resVm
  | Some err => Ret (Some err)
  end.


(** *** Provider: delete and existence *)

Definition VSphereVmProvider_DeleteVirtualMachine
    (vmToDelete : VirtualMachine) : Prog (option error) :=
  let vmName := NamespacedName vmToDelete in
  ses <- call (GetSession (Namespace vmToDelete)) ;;
  match ses with
  | inr err => Ret (Some err)
  | inl ses =>
      resVm <- Session_GetVirtualMachine ses (Name vmToDelete) ;;
      match resVm with
      | inr err => Ret (Some (transformVmError vmName err))
      | inl resVm =>
          err <- call (DeleteSequenceExecute vmToDelete resVm) ;;
          match err with
          | Some err => Ret (Some err)
          | None => Ret None
          end
      end
  end.

Definition DoesVirtualMachineExist (namespace name : string)
    : Prog (Result bool) :=
  ses <-? call (GetSession namespace) ;;
  r <- Session_GetVirtualMachine ses name ;;
  match r with
  | inr (NotFoundError _ _) | inr (DefaultNotFoundError _) =>
      Ret (inl false)
  | inr err => Ret (inr err)
  | inl _ => Ret (inl true)
  end.

(** ** Reading a trace *)

(** The functions of the source entered during a run, in order. *)
Definition entered (tr : list Call) : list Method :=
  omap (fun c => match c with Enter m => Some m | _ => None end) tr.

Definition isEnter (c : Call) : bool :=
  match c with Enter _ => true | _ => false end.

(** The calls that make or change a virtual machine on the backend. *)
Definition changesBackend (c : Call) : bool :=
  match c with
  | VmCreate _ _ _ _ | VmClone _ _ _ | VmReconfigure _ _
  | VmSetPowerState _ _ | VmCustomize _ _ | DeployLibraryItem _ _
  | DeleteSequenceExecute _ _ => true
  | _ => false
  end.

Definition leavesBackendAlone (tr : list Call) : Prop :=
  Forall (fun c => changesBackend c = false) tr.

Definition isSetPowerState (c : Call) : bool :=
  match c with VmSetPowerState _ _ => true | _ => false end.

(** [silent P p]: no path of the program [p] performs a call that
    satisfies [P]. *)
Inductive silent {A : Type} (P : Call -> bool) : Prog A -> Prop :=
| silent_Ret (a : A) : silent P (Ret a)
| silent_Panic (msg : string) : silent P (Panic msg)
| silent_Do (c : Call) (k : Resp c -> Prog A) :
    P c = false -> (forall r, silent P (k r)) -> silent P (Do c k).

(** [ends Q p]: every path of the program [p] returns, and returns a
    value that satisfies [Q]. *)
Inductive ends {A : Type} (Q : A -> Prop) : Prog A -> Prop :=
| ends_Ret (a : A) : Q a -> ends Q (Ret a)
| ends_Do (c : Call) (k : Resp c -> Prog A) :
    (forall r, ends Q (k r)) -> ends Q (Do c k).



Definition isNotFound (err : error) : bool :=
  match err with
  | NotFoundError _ _ | DefaultNotFoundError _ => true
  | _ => false
  end.

Definition isMultipleFound (err : error) : bool :=
  match err with
  | MultipleFoundError _ _ | DefaultMultipleFoundError _ => true
  | _ => false
  end.

(** The temporary key of the [i]-th new device: [key--] taken [i] times
    on an [int32] that starts at [-100]. *)
Definition temporaryKey (i : nat) : Z :=
  Nat.iter i (fun key => Int.int32 (key - 1)) (Int.int32 (-100)).

(** The changes [deviceSpecsFromVM] makes of the devices the network
    providers hand back, the first of them with the key [key]. *)
Fixpoint addSpecs (key : Z) (devs : list VirtualDevice)
    : list VirtualDeviceConfigSpec :=
  match devs with
  | [] => []
  | dev :: devs' =>
      deviceSpec VirtualDeviceConfigSpecOperationAdd (setVnicKey dev key)
        :: addSpecs (Int.int32 (key - 1)) devs'
  end.

Definition deviceKeys (specs : list VirtualDeviceConfigSpec) : list Z :=
  map (fun cs => Key (Device cs)) specs.

Definition countOperation (op : VirtualDeviceConfigSpecOperation)
    (specs : list VirtualDeviceConfigSpec) : nat :=
  length (filter (fun cs => Operation cs = op) specs).

(** ** Sample objects and backends *)

Definition sample_session : Session :=
  {| cluster := "domain-c8"; folder := "group-v4"; resourcepool := "resgroup-9";
     datastore := "datastore-11"; network := Some "network-15";
     contentlib := None; extraConfig := None |}.


Definition sample_session_library : Session :=
  {| cluster := "domain-c8"; folder := "group-v4"; resourcepool := "resgroup-9";
     datastore := "datastore-11"; network := Some "network-15";
     contentlib := Some "library-1"; extraConfig := None |}.

Definition sample_status (phase : string) : VirtualMachineStatus :=
  {| Phase := phase; StatusPowerState := "poweredOff"; BiosUuid := "";
     InternalId := ""; VmIp := "" |}.

Definition sample_vm (image power : string)
    (nics : list VirtualMachineNetworkInterface)
    (md : option VirtualMachineMetadata) : VirtualMachine :=
  {| Name := "web"; Namespace := "tenant-a"; Annotations := None;
     Spec := {| ImageName := image; ClassName := "small";
                PowerState := power; NetworkInterfaces := nics;
                VmMetadata := md |};
     Status := sample_status "Creating" |}.

Definition sample_nic (name : string) : VirtualMachineNetworkInterface :=
  {| NetworkName := name; NetworkType := "" |}.

Definition sample_class : VirtualMachineClassSpec :=
  {| HardwareCpus := 2;
     HardwareMemory := {| Value := 1500000000 |};
     Requests := {| Cpu := {| Value := 0 |}; Memory := {| Value := 0 |} |};
     Limits := {| Cpu := {| Value := 0 |}; Memory := {| Value := 0 |} |} |}.

Definition sample_object (name : string) : ObjectVirtualMachine :=
  {| ObjectName := name; ObjectRef := "vm-42" |}.

Definition sample_handle (name : string) : ResVirtualMachine :=
  {| ResName := name; vcVirtualMachine := Some (sample_object name) |}.

Definition sample_devices : list VirtualDevice :=
  [ {| Key := 4000; Backing := "network-1"; DeviceLabel := "Network adapter 1" |};
    {| Key := 4001; Backing := "network-2"; DeviceLabel := "Network adapter 2" |} ].

Definition sample_observed : VirtualMachineStatus :=
  {| Phase := ""; StatusPowerState := "poweredOn";
     BiosUuid := "4210f5a2"; InternalId := "vm-42"; VmIp := "10.0.0.7" |}.

Definition unavailable : error := Fault "unavailable".

(** A backend on which every call fails. *)
Definition refuse (c : Call) : Resp c :=
  match c return Resp c with
  | GetSession _ => inr unavailable
  | FinderVirtualMachine _ => inr unavailable
  | FinderObjectReference _ _ => inr unavailable
  | NewVMFromObject _ => inr unavailable
  | VmCreate _ _ _ _ => inr unavailable
  | VmClone _ _ _ => inr unavailable
  | VmReconfigure _ _ => Some unavailable
  | VmSetPowerState _ _ => Some unavailable
  | VmCustomize _ _ => Some unavailable
  | VmGetStatus _ => inr unavailable
  | VmGetNetworkDevices _ => inr unavailable
  | VmGetVirtualDisks _ => inr unavailable
  | DisksConfigSpec _ _ => inr unavailable
  | EthernetCardBackingInfo _ => inr unavailable
  | CreateVnic _ _ _ => inr unavailable
  | WaitForVnetIFStatus _ _ _ => inr unavailable
  | ComputeVMPlacement _ _ _ => inr unavailable
  | RestLogin => Some unavailable
  | RestLogout => Some unavailable
  | FindLibraryItems _ _ => inr unavailable
  | GetLibraryItem _ => inr unavailable
  | FetchOvfPropertiesFromLibrary _ => inr unavailable
  | DeployLibraryItem _ _ => inr unavailable
  | DeleteSequenceExecute _ _ => Some unavailable
  | Enter _ => tt
  end.

(** A backend with one virtual machine, two network adapters on it, on
    which every call succeeds. *)
Definition serve (ses : Session) (c : Call) : Resp c :=
  match c return Resp c with
  | GetSession _ => inl ses
  | FinderVirtualMachine name => inl (sample_object name)
  | FinderObjectReference _ value =>
      inl (IsVirtualMachine {| ObjectName := "web"; ObjectRef := value |})
  | NewVMFromObject o =>
      inl {| ResName := ObjectName o; vcVirtualMachine := Some o |}
  | VmCreate vm _ _ _ => inl (sample_handle (ResName vm))
  | VmClone _ _ clone => inl (sample_handle (ConfigName (Config clone)))
  | VmReconfigure _ _ => None
  | VmSetPowerState _ _ => None
  | VmCustomize _ _ => None
  | VmGetStatus _ => inl sample_observed
  | VmGetNetworkDevices _ => inl sample_devices
  | VmGetVirtualDisks _ => inl []
  | DisksConfigSpec _ _ => inl []
  | EthernetCardBackingInfo net => inl net
  | CreateVnic _ _ vif =>
      inl {| Key := 0; Backing := NetworkName vif;
             DeviceLabel := "ethernet" |}
  | WaitForVnetIFStatus _ _ _ =>
      inl {| IPAddresses := []; StatusMacAddress := "" |}
  | ComputeVMPlacement _ _ clone => inl (Location clone)
  | RestLogin => None
  | RestLogout => None
  | FindLibraryItems _ name => inl [name]
  | GetLibraryItem id =>
      inl {| ItemID := id; ItemName := id; ItemType := "ovf" |}
  | FetchOvfPropertiesFromLibrary _ => inl ∅
  | DeployLibraryItem _ _ => inl ("VirtualMachine"%string, "vm-42"%string)
  | DeleteSequenceExecute _ _ => None
  | Enter _ => tt
  end.

Definition stateless (answer : forall c : Call, Resp c) : Backend unit :=
  fun c w => (answer c, w).

Definition healthy (ses : Session) : Backend unit := stateless (serve ses).

(** The virtual machine is gone: its lookup finds nothing. *)
Definition gone : Backend unit :=
  fun c w =>
    match c return Resp c * unit with
    | FinderVirtualMachine name => (inr (NotFoundError "vm" name), w)
    | c => healthy sample_session c w
    end.

(** Two virtual machines answer to the name. *)
Definition ambiguous : Backend unit :=
  fun c w =>
    match c return Resp c * unit with
    | FinderVirtualMachine name => (inr (MultipleFoundError "vm" name), w)
    | c => healthy sample_session c w
    end.

(** The backend turns every reconfiguration down. *)
Definition reconfigure_fails : Backend unit :=
  fun c w =>
    match c return Resp c * unit with
    | VmReconfigure _ _ => (Some (Fault "InvalidDeviceSpec"), w)
    | c => healthy sample_session c w
    end.

(** The virtual machines of the examples: without an image and without
    interfaces; with an image; with one and with three interfaces; with
    metadata for cloud-init. *)
Definition vm_bare : VirtualMachine := sample_vm "" "" [] None.

Definition vm_image : VirtualMachine :=
  sample_vm "ubuntu-2210" "poweredOn" [] None.

Definition vm_one_nic : VirtualMachine :=
  sample_vm "" "" [sample_nic "net-a"] None.

Definition vm_three_nics : VirtualMachine :=
  sample_vm "" "" [sample_nic "net-a"; sample_nic "net-b"; sample_nic "net-c"]
            None.


Definition sample_vnic (net : string) (key : Z) : VirtualDeviceConfigSpec :=
  {| Operation := VirtualDeviceConfigSpecOperationAdd; FileOperation := "";
     Device := {| Key := key; Backing := net; DeviceLabel := "ethernet" |};
     Profile := [] |}.

Definition sample_edits : list VirtualDeviceConfigSpec :=
  map (fun dev =>
         {| Operation := VirtualDeviceConfigSpecOperationEdit;
            FileOperation := "";
            Device := {| Key := Key dev; Backing := "network-15";
                         DeviceLabel := DeviceLabel dev |};
            Profile := [] |})
      sample_devices.

Definition sample_removes : list VirtualDeviceConfigSpec :=
  map (fun dev =>
         {| Operation := VirtualDeviceConfigSpecOperationRemove;
            FileOperation := ""; Device := dev; Profile := [] |})
      sample_devices.

Definition sample_config : VirtualMachineConfigSpec :=
  {| ConfigName := "web"; NumCPUs := 2; MemoryMB := 1431;
     CpuAllocation := None; MemoryAllocation := None; ExtraConfig := [];
     Annotation := "Virtual Machine managed by VM Operator";
     DeviceChange := []; Files := None |}.


(** ** The rest of the file: building a session, listing, deleting *)

(** The kind of the internal VirtualMachineImage resource
    ([vmoperator.InternalVirtualMachineImage.GetKind()]), declared outside
    the file like the constants above. *)
Variable VirtualMachineImageKind : string.

Record VSphereVmProviderCredentials := {
  Username : string;
  Password : string;
}.

(** The fields of [VSphereVmProviderConfig] that the file reads; [VcCreds]
    is a pointer. *)
Record VSphereVmProviderConfig := {
  ConfigDatacenter : string;
  ConfigResourcePool : string;
  ConfigFolder : string;
  ConfigDatastore : string;
  ConfigNetwork : string;
  ConfigContentSource : string;
  VcCreds : option VSphereVmProviderCredentials;
}.

(** The [Session] while it is built. [Session] above is the session the
    operations work on, with the references they follow in place; here
    every reference of the Go struct may still be nil. *)
Record SessionInit := {
  init_client : string;
  init_datacenter : option string;
  init_cluster : option string;
  init_folder : option string;
  init_resourcepool : option string;
  init_datastore : option string;
  init_network : option string;
  init_contentlib : option string;
  init_creds : option VSphereVmProviderCredentials;
  init_extraConfig : option (gmap string string);
}.

(** [&Session{client: c, ncpClient: ncpclient}] *)
Definition newSession (c : string) : SessionInit :=
  {| init_client := c; init_datacenter := None; init_cluster := None;
     init_folder := None; init_resourcepool := None; init_datastore := None;
     init_network := None; init_contentlib := None; init_creds := None;
     init_extraConfig := None |}.

Definition set_datacenter (s : SessionInit) (v : option string) : SessionInit :=
  {| init_client := init_client s; init_datacenter := v;
     init_cluster := init_cluster s; init_folder := init_folder s;
     init_resourcepool := init_resourcepool s;
     init_datastore := init_datastore s; init_network := init_network s;
     init_contentlib := init_contentlib s; init_creds := init_creds s;
     init_extraConfig := init_extraConfig s |}.

Definition set_cluster (s : SessionInit) (v : option string) : SessionInit :=
  {| init_client := init_client s; init_datacenter := init_datacenter s;
     init_cluster := v; init_folder := init_folder s;
     init_resourcepool := init_resourcepool s;
     init_datastore := init_datastore s; init_network := init_network s;
     init_contentlib := init_contentlib s; init_creds := init_creds s;
     init_extraConfig := init_extraConfig s |}.

Definition set_folder (s : SessionInit) (v : option string) : SessionInit :=
  {| init_client := init_client s; init_datacenter := init_datacenter s;
     init_cluster := init_cluster s; init_folder := v;
     init_resourcepool := init_resourcepool s;
     init_datastore := init_datastore s; init_network := init_network s;
     init_contentlib := init_contentlib s; init_creds := init_creds s;
     init_extraConfig := init_extraConfig s |}.

Definition set_resourcepool (s : SessionInit) (v : option string)
    : SessionInit :=
  {| init_client := init_client s; init_datacenter := init_datacenter s;
     init_cluster := init_cluster s; init_folder := init_folder s;
     init_resourcepool := v;
     init_datastore := init_datastore s; init_network := init_network s;
     init_contentlib := init_contentlib s; init_creds := init_creds s;
     init_extraConfig := init_extraConfig s |}.

Definition set_datastore (s : SessionInit) (v : option string) : SessionInit :=
  {| init_client := init_client s; init_datacenter := init_datacenter s;
     init_cluster := init_cluster s; init_folder := init_folder s;
     init_resourcepool := init_resourcepool s;
     init_datastore := v; init_network := init_network s;
     init_contentlib := init_contentlib s; init_creds := init_creds s;
     init_extraConfig := init_extraConfig s |}.

Definition set_network (s : SessionInit) (v : option string) : SessionInit :=
  {| init_client := init_client s; init_datacenter := init_datacenter s;
     init_cluster := init_cluster s; init_folder := init_folder s;
     init_resourcepool := init_resourcepool s;
     init_datastore := init_datastore s; init_network := v;
     init_contentlib := init_contentlib s; init_creds := init_creds s;
     init_extraConfig := init_extraConfig s |}.

Definition set_contentlib (s : SessionInit) (v : option string) : SessionInit :=
  {| init_client := init_client s; init_datacenter := init_datacenter s;
     init_cluster := init_cluster s; init_folder := init_folder s;
     init_resourcepool := init_resourcepool s;
     init_datastore := init_datastore s; init_network := init_network s;
     init_contentlib := v; init_creds := init_creds s;
     init_extraConfig := init_extraConfig s |}.

Definition set_creds (s : SessionInit)
    (v : option VSphereVmProviderCredentials) : SessionInit :=
  {| init_client := init_client s; init_datacenter := init_datacenter s;
     init_cluster := init_cluster s; init_folder := init_folder s;
     init_resourcepool := init_resourcepool s;
     init_datastore := init_datastore s; init_network := init_network s;
     init_contentlib := init_contentlib s; init_creds := v;
     init_extraConfig := init_extraConfig s |}.

Definition set_extraConfig (s : SessionInit)
    (v : option (gmap string string)) : SessionInit :=
  {| init_client := init_client s; init_datacenter := init_datacenter s;
     init_cluster := init_cluster s; init_folder := init_folder s;
     init_resourcepool := init_resourcepool s;
     init_datastore := init_datastore s; init_network := init_network s;
     init_contentlib := init_contentlib s; init_creds := init_creds s;
     init_extraConfig := v |}.

(** *** Operations *)

(** The calls above, and the operations that only the functions of this
    part perform. *)
Inductive Op :=
| Core (c : Call)
(* Client *)
| NewClient (config : VSphereVmProviderConfig)
| ClientLogout (client : string)
(* find.Finder *)
| FinderDatacenter (path : string)
| FinderResourcePool (path : string)
| FinderFolder (path : string)
| FinderDatastore (path : string)
| FinderNetwork (path : string)
| FinderVirtualMachineList (path : string)
| GetResourcePoolOwner (pool : string)
(* os, encoding/json *)
| Getenv (key : string)
| JsonUnmarshal (text : string)
(* library.Manager *)
| GetLibraryByID (id : string)
| GetLibraryByName (name : string)
| GetLibraryItems (libraryID : string)
(* resources *)
| VmImageFields (vm : ResVirtualMachine)
| VmDelete (vm : ResVirtualMachine).

(** What each operation gives back. The two library lookups of
    [ConfigureContent] answer with the pair Go returns: the session keeps
    the library before the error is looked at. [VmImageFields] gives power
    state, unique identifier and reference. *)
Definition Answer (o : Op) : Type :=
  match o with
  | Core c => Resp c
  | NewClient _ => Result string
  | ClientLogout _ => unit
  | FinderDatacenter _ => Result string
  | FinderResourcePool _ => Result string
  | FinderFolder _ => Result string
  | FinderDatastore _ => Result string
  | FinderNetwork _ => Result string
  | FinderVirtualMachineList _ => Result (list ObjectVirtualMachine)
  | GetResourcePoolOwner _ => Result string
  | Getenv _ => string
  | JsonUnmarshal _ => Result (gmap string string)
  | GetLibraryByID _ => option string * option error
  | GetLibraryByName _ => option string * option error
  | GetLibraryItems _ => Result (list LibraryItem)
  | VmImageFields _ => string * string * string
  | VmDelete _ => option error
  end.

(** Programs over these operations. *)
Inductive Proc (A : Type) : Type :=
| Done (a : A)
| Step (o : Op) (k : Answer o -> Proc A)
| Crash (msg : string).

#[global] Arguments Done {A} a.
#[global] Arguments Step {A} o k.
#[global] Arguments Crash {A} msg.

Fixpoint andThen {A B : Type} (p : Proc A) (f : A -> Proc B) : Proc B :=
  match p with
  | Done a => f a
  | Step o k => Step o (fun r => andThen (k r) f)
  | Crash msg => Crash msg
  end.

Definition step (o : Op) : Proc (Answer o) := Step o Done.

(** A program of the first part, as a program of this one. *)
Fixpoint core {A : Type} (p : Prog A) : Proc A :=
  match p with
  | Ret a => Done a
  | Do c k => Step (Core c) (fun r => core (k r))
  | Panic msg => Crash msg
  end.

Definition attempt {A B : Type} (p : Proc (Result A))
    (wrap : error -> error) (f : A -> Proc (Result B)) : Proc (Result B) :=
  andThen p
    (fun r => match r with inl a => f a | inr e => Done (inr (wrap e)) end).

(** [defer d] before [p]: [d] runs when [p] is left, by a return or by a
    panic. *)
Fixpoint deferred {A : Type} (p : Proc A) (d : Proc unit) : Proc A :=
  match p with
  | Done a => andThen d (fun _ => Done a)
  | Step o k => Step o (fun r => deferred (k r) d)
  | Crash msg => andThen d (fun _ => Crash msg)
  end.

Declare Scope proc_scope.
Delimit Scope proc_scope with proc.
Notation "x <- p ;; q" := (andThen p (fun x => q))
  (at level 100, p at next level, right associativity) : proc_scope.
Notation "x <-? p ;; q" := (attempt p (fun e => e) (fun x => q))
  (at level 100, p at next level, right associativity) : proc_scope.
Notation "x <-? p 'or' w ;; q" := (attempt p w (fun x => q))
  (at level 100, p at next level, w at level 9, right associativity)
  : proc_scope.

(** A system answers each operation from its state. *)
Definition System (W : Type) : Type := forall o : Op, W -> Answer o * W.

Record Execution (W A : Type) := {
  ops : list Op;
  after : W;
  returned : option A;
}.

#[global] Arguments ops {W A} e.
#[global] Arguments after {W A} e.
#[global] Arguments returned {W A} e.

Fixpoint exec {W A : Type} (sys : System W) (p : Proc A) (w : W)
    : Execution W A :=
  match p with
  | Done a => {| ops := []; after := w; returned := Some a |}
  | Crash _ => {| ops := []; after := w; returned := None |}
  | Step o k =>
      let '(r, w') := sys o w in
      let e := exec sys (k r) w' in
      {| ops := o :: ops e; after := after e; returned := returned e |}
  end.

(** *** Session: the REST client *)

(** [WithRestClient] over the operations of this part, with the logout
    deferred as the source has it. The closure [f] of the source returns
    an error and leaves what it found in variables of its caller; here [f]
    returns both, and [onLoginError] is what the caller is left with when
    the login fails. *)
Definition WithRestClient' {A : Type} (onLoginError : error -> A)
    (f : Proc A) : Proc A :=
  (err <- step (Core RestLogin) ;;
   match err with
   | Some err => Done (onLoginError err)
   | None => deferred f (_ <- step (Core RestLogout) ;; Done tt)
   end)%proc.

(** *** Session: construction *)

(** The type assertions of [GetResourcePool] and [GetVMFolder]: the
    object of the reference has the type asked for, or the assertion
    panics. *)
Definition assertKind (kind : string) (o : ObjectReference)
    : Proc (Result string) :=
  match o with
  | IsOther k ref =>
      if String.eqb k kind then Done (inl ref)
      else Crash "interface conversion"
  | IsVirtualMachine _ => Crash "interface conversion"
  end.

Definition GetResourcePool (rp : string) : Proc (Result string) :=
  (o <- step (Core (FinderObjectReference "ResourcePool" rp)) ;;
   match o with
   | inl o => assertKind "ResourcePool" o
   | inr _ => step (FinderResourcePool rp)
   end)%proc.

Definition GetVMFolder (fold : string) : Proc (Result string) :=
  (o <- step (Core (FinderObjectReference "Folder" fold)) ;;
   match o with
   | inl o => assertKind "Folder" o
   | inr _ => step (FinderFolder fold)
   end)%proc.

(** [initSession] is called on the session [NewSessionAndConfigure] has
    just made and gives it up on an error: the result is the session
    filled in, or the error. *)
Definition initSession (s : SessionInit) (config : VSphereVmProviderConfig)
    : Proc (Result SessionInit) :=
  (dc <-? step (FinderDatacenter (ConfigDatacenter config))
     or (fun err => Wrapf err "failed to init Datacenter %q"
                          [ConfigDatacenter config]) ;;
   let s := set_datacenter s (Some dc) in
   s <-? (if negb (String.eqb (ConfigResourcePool config) "") then
            rp <-? GetResourcePool (ConfigResourcePool config)
              or (fun err => Wrapf err "failed to init Resource Pool %q"
                                   [ConfigResourcePool config]) ;;
            Done (inl (set_resourcepool s (Some rp)))
          else Done (inl s)) ;;
   s <-? (if negb (String.eqb (ConfigFolder config) "") then
            fold <-? GetVMFolder (ConfigFolder config)
              or (fun err => Wrapf err "failed to init folder %q"
                                   [ConfigFolder config]) ;;
            Done (inl (set_folder s (Some fold)))
          else Done (inl s)) ;;
   s <-? match init_resourcepool s with
         | Some rp =>
             cls <-? step (GetResourcePoolOwner rp)
               or (fun err => Wrapf err "failed to init cluster %q"
                                    [ConfigResourcePool config]) ;;
             Done (inl (set_cluster s (Some cls)))
         | None => Done (inl s)
         end ;;
   s <-? (if negb (String.eqb (ConfigDatastore config) "") then
            ds <-? step (FinderDatastore (ConfigDatastore config))
              or (fun err => Wrapf err "failed to init Datastore %q"
                                   [ConfigDatastore config]) ;;
            Done (inl (set_datastore s (Some ds)))
          else Done (inl s)) ;;
   s <-? (if negb (String.eqb (ConfigNetwork config) "") then
            net <-? step (FinderNetwork (ConfigNetwork config))
              or (fun err => Wrapf err "failed to init Network %q"
                                   [ConfigNetwork config]) ;;
            Done (inl (set_network s (Some net)))
          else Done (inl s)) ;;
   jsonExtraConfig <- step (Getenv "JSON_EXTRA_CONFIG") ;;
   s <-? (if negb (String.eqb jsonExtraConfig "") then
            extra <-? step (JsonUnmarshal jsonExtraConfig)
              or (fun err => Wrapf err "Unable to parse Json ExtraConfig"
                                   []) ;;
            Done (inl (set_extraConfig s (Some extra)))
          else Done (inl s)) ;;
   Done (inl (set_creds s (VcCreds config))))%proc.

(** [ConfigureContent] changes the session it is called on and returns an
    error; here it returns the session next to the error. The closure
    stores the library of each lookup in the session before it looks at
    the error. *)
Definition ConfigureContent (s : SessionInit) (contentSource : string)
    : Proc (SessionInit * option error) :=
  if String.eqb contentSource "" then Done (set_contentlib s None, None)
  else
    match init_creds s with
    | None => Crash "nil pointer dereference"
    | Some _ =>
        (r <- WithRestClient' (fun err => (s, Some err))
           (byID <- step (GetLibraryByID contentSource) ;;
            let s := set_contentlib s (fst byID) in
            match snd byID with
            | Some _ =>
                byName <- step (GetLibraryByName contentSource) ;;
                Done (set_contentlib s (fst byName), snd byName)
            | None => Done (s, None)
            end) ;;
         match snd r with
         | Some err =>
             Done (fst r,
                   Some (Wrapf err "failed to init Content Library %q"
                               [contentSource]))
         | None => Done (fst r, None)
         end)%proc
    end.

Definition Logout (s : SessionInit) : Proc unit :=
  step (ClientLogout (init_client s)).

Definition NewSessionAndConfigure (config : VSphereVmProviderConfig)
    : Proc (Result SessionInit) :=
  (c <-? step (NewClient config)
     or (fun err => Wrapf err "failed to create client for new session" []) ;;
   let s := newSession c in
   r <- initSession s config ;;
   match r with
   | inr err =>
       _ <- Logout s ;;
       Done (inr err)
   | inl s =>
       r <- ConfigureContent s (ConfigContentSource config) ;;
       match snd r with
       | Some err => Done (inr err)
       | None => Done (inl (fst r))
       end
   end)%proc.

(** *** Session: listing and deleting *)

(** The loop of [ListVirtualMachineImagesFromCL] over the items that are
    left, with the value of [images] on entry. *)
Fixpoint ListVirtualMachineImagesFromCL_loop (namespace : string)
    (items : list LibraryItem) (images : list VirtualMachineImage)
    : Proc (Result (list VirtualMachineImage)) :=
  match items with
  | [] => Done (inl images)
  | item :: items' =>
      if IsSupportedDeployType (ItemType item) then
        (virtualMachineImage <-?
           core (LibItemToVirtualMachineImage item namespace
                                              DoNotAnnotateVmImage) ;;
         ListVirtualMachineImagesFromCL_loop namespace items'
           (images ++ [virtualMachineImage]))%proc
      else ListVirtualMachineImagesFromCL_loop namespace items' images
  end.

Definition Session_ListVirtualMachineImagesFromCL (s : Session)
    (namespace : string) : Proc (Result (list VirtualMachineImage)) :=
  (items <-? WithRestClient' inr
     (libraryID <- core (contentlibID s) ;;
      step (GetLibraryItems libraryID)) ;;
   ListVirtualMachineImagesFromCL_loop namespace items [])%proc.

(** The loop of [ListVirtualMachines]: an object that cannot be wrapped
    is passed over. *)
Fixpoint ListVirtualMachines_loop (objVms : list ObjectVirtualMachine)
    (vms : list ResVirtualMachine) : Proc (list ResVirtualMachine) :=
  match objVms with
  | [] => Done vms
  | objVm :: objVms' =>
      (resVm <- step (Core (NewVMFromObject objVm)) ;;
       match resVm with
       | inl resVm => ListVirtualMachines_loop objVms' (vms ++ [resVm])
       | inr _ => ListVirtualMachines_loop objVms' vms
       end)%proc
  end.

Definition Session_ListVirtualMachines (s : Session) (path : string)
    : Proc (Result (list ResVirtualMachine)) :=
  (objVms <- step (FinderVirtualMachineList path) ;;
   match objVms with
   | inr (NotFoundError _ _) | inr (DefaultNotFoundError _) =>
       Done (inl [])
   | inr err => Done (inr err)
   | inl objVms =>
       vms <- ListVirtualMachines_loop objVms [] ;;
       Done (inl vms)
   end)%proc.

Definition Session_DeleteVirtualMachine (s : Session) (vm : VirtualMachine)
    : Proc (option error) :=
  (resVm <- core (lookupVm s (Name vm)) ;;
   match resVm with
   | inr err => Done (Some err)
   | inl resVm =>
       err <- step (VmDelete resVm) ;;
       match err with
       | Some err =>
           Done (Some (Wrapf err "failed to delete VM %q" [Name vm]))
       | None => Done None
       end
   end)%proc.

(** *** Provider: images *)

Definition transformVmImageError (resource : string) (err : error) : error :=
  transformError VirtualMachineImageKind resource err.

Definition resVmToVirtualMachineImage (namespace : string)
    (resVm : ResVirtualMachine) : Proc VirtualMachineImage :=
  (fields <- step (VmImageFields resVm) ;;
   let powerState := fst (fst fields) in
   let uuid := snd (fst fields) in
   let reference := snd fields in
   Done {| ImageObjectName := ResName resVm;
           ImageNamespace := namespace;
           ImageAnnotations := ∅;
           ImageUuid := uuid;
           ImageInternalId := reference;
           ImagePowerState := powerState;
           ImageType := "VM";
           ImageSourceType := "Inventory" |})%proc.

(** The loop of [ListVirtualMachineImages] over the handles that are
    left. *)
Fixpoint ListVirtualMachineImages_loop (namespace : string)
    (resVms : list ResVirtualMachine) (images : list VirtualMachineImage)
    : Proc (list VirtualMachineImage) :=
  match resVms with
  | [] => Done images
  | resVm :: resVms' =>
      (image <- resVmToVirtualMachineImage namespace resVm ;;
       ListVirtualMachineImages_loop namespace resVms' (images ++ [image]))%proc
  end.

Definition VSphereVmProvider_ListVirtualMachineImages (namespace : string)
    : Proc (Result (list VirtualMachineImage)) :=
  (ses <-? step (Core (GetSession "")) ;;
   match contentlib ses with
   | Some _ =>
       imagesFromCL <-? Session_ListVirtualMachineImagesFromCL ses namespace ;;
       Done (inl imagesFromCL)
   | None =>
       resVms <-? Session_ListVirtualMachines ses "*"
         or (transformVmImageError "") ;;
       images <- ListVirtualMachineImages_loop namespace resVms [] ;;
       Done (inl images)
   end)%proc.

(** [GetVirtualMachineImageFromCL] returns an image or an error, so the
    test [image != nil] of the source holds whenever it is reached. *)
Definition VSphereVmProvider_GetVirtualMachineImage (namespace name : string)
    : Proc (Result VirtualMachineImage) :=
  let vmName := namespace +:+ "/" +:+ name in
  (ses <-? step (Core (GetSession "")) ;;
   match contentlib ses with
   | Some _ =>
       image <-? core (GetVirtualMachineImageFromCL ses name namespace) ;;
       Done (inl image)
   | None =>
       resVm <-? core (Session_GetVirtualMachine ses name)
         or (transformVmImageError vmName) ;;
       image <- resVmToVirtualMachineImage namespace resVm ;;
       Done (inl image)
   end)%proc.

(** *** Reading the operations of a run *)

(** The calls of the first part among the operations. *)
Definition calls (tr : list Op) : list Call :=
  omap (fun o => match o with Core c => Some c | _ => None end) tr.

Definition isClientLogout (o : Op) : bool :=
  match o with ClientLogout _ => true | _ => false end.

Definition isRestLogin (o : Op) : bool :=
  match o with Core RestLogin => true | _ => false end.

(** [avoids P p]: no path of [p] performs an operation that satisfies
    [P]. *)
Inductive avoids {A : Type} (P : Op -> bool) : Proc A -> Prop :=
| avoids_Done (a : A) : avoids P (Done a)
| avoids_Crash (msg : string) : avoids P (Crash msg)
| avoids_Step (o : Op) (k : Answer o -> Proc A) :
    P o = false -> (forall r, avoids P (k r)) -> avoids P (Step o k).

(** [yields Q p]: whatever [p] returns satisfies [Q]. *)
Inductive yields {A : Type} (Q : A -> Prop) : Proc A -> Prop :=
| yields_Done (a : A) : Q a -> yields Q (Done a)
| yields_Crash (msg : string) : yields Q (Crash msg)
| yields_Step (o : Op) (k : Answer o -> Proc A) :
    (forall r, yields Q (k r)) -> yields Q (Step o k).

(** [always p Q]: on every path of [p], the calls made and what is
    returned at the end ([None] for a panic) satisfy [Q]. *)
Fixpoint always {A : Type} (p : Prog A)
    (Q : list Call -> option A -> Prop) : Prop :=
  match p with
  | Ret a => Q [] (Some a)
  | Panic _ => Q [] None
  | Do c k => forall r, always (k r) (fun tr a => Q (c :: tr) a)
  end.

(** The same for the programs of this part. *)
Fixpoint throughout {A : Type} (p : Proc A)
    (Q : list Op -> option A -> Prop) : Prop :=
  match p with
  | Done a => Q [] (Some a)
  | Crash _ => Q [] None
  | Step o k => forall r, throughout (k r) (fun tr a => Q (o :: tr) a)
  end.

(** The backend of a system: its answers to the calls of the first
    part. *)
Definition backend {W : Type} (sys : System W) : Backend W :=
  fun c w => sys (Core c) w.

(** The handles a system makes of a list of objects when it is asked to
    wrap them one after the other from the state [w]: the answers of
    [NewVMFromObject] that are no errors, in the order of the objects. *)
Fixpoint handlesOf {W : Type} (sys : System W)
    (objVms : list ObjectVirtualMachine) (w : W) : list ResVirtualMachine :=
  match objVms with
  | [] => []
  | objVm :: objVms' =>
      match sys (Core (NewVMFromObject objVm)) w with
      | (inl resVm, w') => resVm :: handlesOf sys objVms' w'
      | (inr _, w') => handlesOf sys objVms' w'
      end
  end.

(** The interfaces of a specification that are NSX-T interfaces. *)
Definition nsxtInterfaces (nifs : list VirtualMachineNetworkInterface)
    : list VirtualMachineNetworkInterface :=
  filter (fun nif => NetworkType nif = NsxtNetworkType) nifs.

(** The image [LibItemToVirtualMachineImage] makes of a library item when
    it is not asked to annotate it. *)
Definition plainImage (namespace : string) (item : LibraryItem)
    : VirtualMachineImage :=
  {| ImageObjectName := ItemName item;
     ImageNamespace := namespace;
     ImageAnnotations := ∅;
     ImageUuid := ItemID item;
     ImageInternalId := ItemName item;
     ImagePowerState := "";
     ImageType := ItemType item;
     ImageSourceType := "Content Library" |}.





(** The operations on the content library, and those on the inventory
    of virtual machines. *)
Definition isLibraryOp (o : Op) : bool :=
  match o with
  | Core RestLogin | Core RestLogout | Core (FindLibraryItems _ _)
  | Core (GetLibraryItem _) | Core (FetchOvfPropertiesFromLibrary _)
  | GetLibraryItems _ | GetLibraryByID _ | GetLibraryByName _ => true
  | _ => false
  end.

Definition isInventoryOp (o : Op) : bool :=
  match o with
  | Core (FinderVirtualMachine _) | Core (NewVMFromObject _)
  | FinderVirtualMachineList _ | VmImageFields _ => true
  | _ => false
  end.

(** A session has the parts its configuration names: a datacenter and
    its credentials in any case; resource pool, cluster, folder, datastore
    and network exactly when the configuration names them, the cluster
    going with the resource pool. *)
Definition builtFrom (config : VSphereVmProviderConfig) (s : SessionInit)
    : Prop :=
  init_datacenter s <> None /\
  (init_resourcepool s = None <-> ConfigResourcePool config = "") /\
  (init_cluster s = None <-> ConfigResourcePool config = "") /\
  (init_folder s = None <-> ConfigFolder config = "") /\
  (init_datastore s = None <-> ConfigDatastore config = "") /\
  (init_network s = None <-> ConfigNetwork config = "") /\
  init_creds s = VcCreds config.


(** *** Sample configurations and systems *)

Definition sample_creds : VSphereVmProviderCredentials :=
  {| Username := "administrator"; Password := "secret" |}.

Definition sample_provider_config : VSphereVmProviderConfig :=
  {| ConfigDatacenter := "datacenter-2"; ConfigResourcePool := "resgroup-9";
     ConfigFolder := "group-v4"; ConfigDatastore := "datastore-11";
     ConfigNetwork := "network-15"; ConfigContentSource := "library-1";
     VcCreds := Some sample_creds |}.

(** Only the datacenter is named. *)
Definition bare_provider_config : VSphereVmProviderConfig :=
  {| ConfigDatacenter := "datacenter-2"; ConfigResourcePool := "";
     ConfigFolder := ""; ConfigDatastore := ""; ConfigNetwork := "";
     ConfigContentSource := ""; VcCreds := Some sample_creds |}.

Definition sample_items : list LibraryItem :=
  [ {| ItemID := "item-1"; ItemName := "ubuntu-2210"; ItemType := "ovf" |};
    {| ItemID := "item-2"; ItemName := "notes"; ItemType := "iso" |};
    {| ItemID := "item-3"; ItemName := "photon-4"; ItemType := "ovf" |} ].

(** The answers of a system on which every operation of this part
    succeeds; references are looked up by path, not by managed object
    reference. *)
Definition supply (answer : forall c : Call, Resp c) (o : Op) : Answer o :=
  match o return Answer o with
  | Core (FinderObjectReference _ _) => inr (NotFoundError "ref" "")
  | Core c => answer c
  | NewClient _ => inl "client-1"%string
  | ClientLogout _ => tt
  | FinderDatacenter path => inl path
  | FinderResourcePool path => inl path
  | FinderFolder path => inl path
  | FinderDatastore path => inl path
  | FinderNetwork path => inl path
  | FinderVirtualMachineList _ =>
      inl [sample_object "ubuntu-2210"; sample_object "photon-4"]
  | GetResourcePoolOwner _ => inl "domain-c8"%string
  | Getenv _ => ""%string
  | JsonUnmarshal _ => inl ∅
  | GetLibraryByID id => (Some id, None)
  | GetLibraryByName name => (Some name, None)
  | GetLibraryItems _ => inl sample_items
  | VmImageFields _ =>
      ("poweredOff"%string, "4210f5a2"%string, "vm-42"%string)
  | VmDelete _ => None
  end.

Definition fixed (answer : forall o : Op, Answer o) : System unit :=
  fun o w => (answer o, w).

Definition working (ses : Session) : System unit :=
  fixed (supply (serve ses)).

(** The datacenter is found, the resource pool is not. *)
Definition pool_missing : System unit :=
  fun o w =>
    match o return Answer o * unit with
    | FinderResourcePool path => (inr (NotFoundError "pool" path), w)
    | o => working sample_session o w
    end.

(** The REST endpoint refuses the login. *)
Definition login_refused : System unit :=
  fun o w =>
    match o return Answer o * unit with
    | Core RestLogin => (Some unavailable, w)
    | o => working sample_session o w
    end.

(** The second virtual machine of the inventory cannot be wrapped in a
    handle. *)
Definition one_unwrappable : System unit :=
  fun o w =>
    match o return Answer o * unit with
    | Core (NewVMFromObject obj) =>
        (if String.eqb (ObjectName obj) "photon-4"
         then inr (Fault "no such object")
         else inl {| ResName := ObjectName obj; vcVirtualMachine := Some obj |},
         w)
    | o => working sample_session o w
    end.

(** The inventory has no virtual machine. *)
Definition empty_inventory : System unit :=
  fun o w =>
    match o return Answer o * unit with
    | FinderVirtualMachineList path => (inr (NotFoundError "vm" path), w)
    | o => working sample_session o w
    end.

(** A backend of the first part under the operations of this one. *)
Definition over (h : Backend unit) : System unit :=
  fun o w =>
    match o return Answer o * unit with
    | Core c => h c w
    | o => working sample_session o w
    end.

(** The library of the session has no item of the name asked for. *)
Definition library_without_item : System unit :=
  fun o w =>
    match o return Answer o * unit with
    | Core (FindLibraryItems _ _) => (inl [], w)
    | o => working sample_session_library o w
    end.


(** The source of a clone has one disk. *)
Definition sample_disk : VirtualDevice :=
  {| Key := 2000; Backing := "[datastore-11] ubuntu/disk.vmdk";
     DeviceLabel := "Hard disk 1" |}.

Definition with_disk : Backend unit :=
  fun c w =>
    match c return Resp c * unit with
    | VmGetVirtualDisks _ => (inl [sample_disk], w)
    | DisksConfigSpec disks op => (inl (map (deviceSpec op) disks), w)
    | c => healthy sample_session c w
    end.


(** The placement chooses a host and a datastore for the clone. *)
Definition placing : Backend unit :=
  fun c w =>
    match c return Resp c * unit with
    | ComputeVMPlacement _ _ clone =>
        (inl {| Pool := Pool (Location clone);
                LocationProfile := LocationProfile (Location clone);
                LocationDeviceChange := LocationDeviceChange (Location clone);
                Folder := Folder (Location clone);
                Host := Some "host-21";
                Datastore := Some "datastore-12" |}, w)
    | c => with_disk c w
    end.

(** A session with extra configuration for every virtual machine, and a
    virtual machine with metadata for its own. *)
Definition sample_session_extra : Session :=
  {| cluster := "domain-c8"; folder := "group-v4"; resourcepool := "resgroup-9";
     datastore := "datastore-11"; network := Some "network-15";
     contentlib := None;
     extraConfig := Some {[ "guestinfo.owner" := "platform";
                            "guestinfo.zone" := "eu-1" ]} |}.

Definition sample_metadata : gmap string string :=
  {[ "guestinfo.owner" := "tenant-a" ]}.

Definition vm_extra_config : VirtualMachine :=
  sample_vm "" "" [] (Some {| Transport := "ExtraConfig" |}).

Definition vm_nsxt : VirtualMachine :=
  sample_vm "" ""
            [ {| NetworkName := "net-a"; NetworkType := "nsx-t" |};
              sample_nic "net-b" ]
            None.


(** The deployed virtual machine cannot be wrapped in a handle. *)
Definition wrapping_fails : Backend unit :=
  fun c w =>
    match c return Resp c * unit with
    | NewVMFromObject _ => (inr (Fault "no such object"), w)
    | c => healthy sample_session_library c w
    end.
(** ** Running programs: general facts *)

Lemma run_bind {W A B : Type} (h : Backend W) (p : Prog A)
    (f : A -> Prog B) (w : W) :
  run h (bind p f) w =
    match result (run h p w) with
    | Some a =>
        let o := run h (f a) (final (run h p w)) in
        {| trace := trace (run h p w) ++ trace o;
           final := final o; result := result o |}
    | None =>
        {| trace := trace (run h p w); final := final (run h p w);
           result := None |}
    end.
Proof.
  revert w. induction p as [a | c k IH | msg]; intros w; simpl.
  - destruct (run h (f a) w); reflexivity.
  - destruct (h c w) as [r w']. rewrite IH. simpl.
    destruct (result (run h (k r) w')); reflexivity.
  - reflexivity.
Qed.

Lemma run_call {W : Type} (h : Backend W) (c : Call) (w : W) :
  run h (call c) w =
    {| trace := [c]; final := snd (h c w); result := Some (fst (h c w)) |}.
Proof. simpl. destruct (h c w); reflexivity. Qed.

Lemma silent_bind {A B : Type} (P : Call -> bool) (p : Prog A)
    (f : A -> Prog B) :
  silent P p -> (forall a, silent P (f a)) -> silent P (bind p f).
Proof.
  intros Hp Hf. induction Hp; simpl; [apply Hf | constructor |].
  constructor; auto.
Qed.

Lemma silent_call (P : Call -> bool) (c : Call) :
  P c = false -> silent P (call c).
Proof. intros H. constructor; [exact H | intros r; constructor]. Qed.

Lemma silent_try {A B : Type} (P : Call -> bool) (p : Prog (Result A))
    (f : A -> Prog (Result B)) :
  silent P p -> (forall a, silent P (f a)) -> silent P (try p f).
Proof.
  intros Hp Hf. apply silent_bind; [exact Hp |].
  intros [a | e]; [apply Hf | constructor].
Qed.

Lemma silent_try_with {A B : Type} (P : Call -> bool)
    (p : Prog (Result A)) (wrap : error -> error)
    (f : A -> Prog (Result B)) :
  silent P p -> (forall a, silent P (f a)) -> silent P (try_with p wrap f).
Proof.
  intros Hp Hf. apply silent_bind; [exact Hp |].
  intros [a | e]; [apply Hf | constructor].
Qed.

(** A silent program leaves no such call in the trace, whatever the
    backend answers. *)
Lemma silent_run {W A : Type} (P : Call -> bool) (p : Prog A) :
  silent P p ->
  forall (h : Backend W) (w : W),
    Forall (fun c => P c = false) (trace (run h p w)).
Proof.
  intros Hp. induction Hp as [a | msg | c k Hc Hk IH]; intros h w; simpl.
  - constructor.
  - constructor.
  - destruct (h c w) as [r w']. simpl. constructor; [exact Hc | apply IH].
Qed.

Lemma entered_app (t1 t2 : list Call) :
  entered (t1 ++ t2) = entered t1 ++ entered t2.
Proof. unfold entered. apply omap_app. Qed.

Lemma entered_silent (tr : list Call) :
  Forall (fun c => isEnter c = false) tr -> entered tr = [].
Proof.
  induction 1 as [| c tr Hc _ IH]; [reflexivity |].
  destruct c; simpl in Hc; try discriminate; exact IH.
Qed.

(** ** Memory quantities *)

(** *** The conversions of [float64] on integers of at most 53 bits *)

Lemma fexp_binary64 (e : Z) : -1021 <= e -> fexp 53 1024 e = e - 53.
Proof. intros H. unfold fexp, emin. lia. Qed.

Lemma iter_xO_value (p k : positive) :
  Z.pos (Pos.iter xO p k) = Z.pos p * 2 ^ Z.pos k.
Proof.
  induction k as [| k IH] using Pos.peano_ind.
  - simpl. lia.
  - rewrite Pos.iter_succ, Pos2Z.inj_succ, Z.pow_succ_r by lia.
    rewrite Pos2Z.inj_xO, IH. ring.
Qed.

Lemma iter_xO_digits (p k : positive) :
  digits2_pos (Pos.iter xO p k) = (digits2_pos p + k)%positive.
Proof.
  induction k as [| k IH] using Pos.peano_ind.
  - simpl. lia.
  - rewrite Pos.iter_succ. simpl. rewrite IH. lia.
Qed.

Lemma shl_align_binary64 (p : positive) :
  Z.pos (digits2_pos p) <= 53 ->
  Z.pos (fst (shl_align p 0 (Z.pos (digits2_pos p) - 53)))
    = Z.pos p * 2 ^ (53 - Z.pos (digits2_pos p)) /\
  snd (shl_align p 0 (Z.pos (digits2_pos p) - 53)) = Z.pos (digits2_pos p) - 53 /\
  Z.pos (digits2_pos (fst (shl_align p 0 (Z.pos (digits2_pos p) - 53)))) = 53.
Proof.
  intros Hd. unfold shl_align. rewrite Z.sub_0_r.
  destruct (Z.pos (digits2_pos p) - 53) as [| k | k] eqn:E.
  - simpl. replace (53 - Z.pos (digits2_pos p)) with 0 by lia. simpl. lia.
  - lia.
  - cbn [fst snd]. rewrite iter_xO_value, iter_xO_digits.
    replace (53 - Z.pos (digits2_pos p)) with (Z.pos k) by lia.
    repeat split; lia.
Qed.

Lemma round_aux_exact (s : bool) (m : positive) (e : Z) :
  Z.pos (digits2_pos m) = 53 -> -1074 <= e <= 971 ->
  binary_round_aux 53 1024 s (Z.pos m) e loc_Exact = S754_finite s m e.
Proof.
  intros Hd He. unfold binary_round_aux, shr_fexp.
  cbn [Zdigits2 shr_record_of_loc]. rewrite Hd, fexp_binary64 by lia.
  replace (53 + e - 53 - e) with 0 by lia. cbn [shr shr_m loc_of_shr_record round_nearest_even Zdigits2 shr_record_of_loc].
  rewrite Hd, fexp_binary64 by lia.
  replace (53 + e - 53 - e) with 0 by lia. cbn [shr shr_m].
  replace (e <=? 1024 - 53) with true by (symmetry; apply Z.leb_le; lia).
  reflexivity.
Qed.

Lemma of_int_pos (s : bool) (p : positive) :
  Z.pos (digits2_pos p) <= 53 ->
  binary_round 53 1024 s p 0
    = S754_finite s (fst (shl_align p 0 (Z.pos (digits2_pos p) - 53)))
                  (Z.pos (digits2_pos p) - 53).
Proof.
  intros Hd. unfold binary_round. rewrite Z.add_0_r, fexp_binary64 by lia.
  destruct (shl_align_binary64 p Hd) as (Hv & He & Hdig).
  destruct (shl_align p 0 (Z.pos (digits2_pos p) - 53)) as [mz ez].
  cbn [fst snd] in *. subst ez. apply round_aux_exact; lia.
Qed.

Lemma of_int_2_20 : Float64.of_int (1024 * 1024) = two_20.
Proof. vm_compute. reflexivity. Qed.

Lemma div_by_2_20 (s : bool) (m : positive) (e : Z) :
  Z.pos (digits2_pos m) = 53 -> -52 <= e <= 0 ->
  SFdiv 53 1024 (S754_finite s m e) two_20 = S754_finite s m (e - 20).
Proof.
  intros Hd He. unfold two_20, SFdiv, SFdiv_core_binary.
  cbn [Zdigits2]. rewrite Hd.
  change (Z.pos (digits2_pos 4503599627370496)) with 53.
  rewrite fexp_binary64 by lia.
  replace (Z.min (53 + e - (53 + -32) - 53) (e - -32)) with (e - 21) by lia.
  replace (e - -32 - (e - 21)) with 53 by lia.
  assert (Hdiv : Z.div_eucl (Z.shiftl (Z.pos m) 53) (Z.pos 4503599627370496)
                 = (Z.pos m~0, 0)).
  { rewrite Z.shiftl_mul_pow2 by lia.
    pose proof (Z.div_eucl_eq (Z.pos m * 2 ^ 53) (Z.pos 4503599627370496)) as Heq.
    pose proof (Z.mod_pos_bound (Z.pos m * 2 ^ 53) (Z.pos 4503599627370496)) as Hb.
    unfold Z.modulo in Hb.
    destruct (Z.div_eucl (Z.pos m * 2 ^ 53) (Z.pos 4503599627370496)) as [q r].
    specialize (Heq ltac:(lia)). specialize (Hb ltac:(lia)).
    change (2 ^ 53) with (2 * 4503599627370496) in Heq.
    assert (q = Z.pos m~0 /\ r = 0) as [-> ->]; [| reflexivity].
    rewrite Pos2Z.inj_xO. nia. }
  rewrite Hdiv. cbn [new_location Z.even new_location_even Z.eqb].
  unfold binary_round_aux, shr_fexp.
  cbn [Zdigits2 digits2_pos shr_record_of_loc].
  rewrite Pos2Z.inj_succ, Hd, fexp_binary64 by lia.
  replace (Z.succ 53 + (e - 21) - 53 - (e - 21)) with 1 by lia.
  cbn [shr SpecFloat.iter_pos shr_1 shr_m loc_of_shr_record round_nearest_even orb
       Zdigits2 shr_record_of_loc].
  rewrite Hd, fexp_binary64 by lia.
  replace (53 + (e - 21 + 1) - 53 - (e - 21 + 1)) with 0 by lia.
  cbn [shr shr_m].
  replace (e - 21 + 1 <=? 1024 - 53) with true by (symmetry; apply Z.leb_le; lia).
  rewrite Bool.xorb_false_r. f_equal. lia.
Qed.

Lemma digits2_pos_size (p : positive) : digits2_pos p = Pos.size p.
Proof. induction p as [p IH | p IH |]; simpl; congruence. Qed.

Lemma digits_below_2_53 (p : positive) :
  Z.pos p < 2 ^ 53 -> Z.pos (digits2_pos p) <= 53.
Proof.
  intros Hp. rewrite digits2_pos_size.
  pose proof (Pos.size_le p) as Hle.
  destruct (Z_le_gt_dec (Z.pos (Pos.size p)) 53) as [H | H]; [exact H |].
  exfalso.
  assert (Hz : 2 ^ Z.pos (Pos.size p) <= Z.pos p~0).
  { rewrite <- Pos2Z.inj_pow. apply Pos2Z.pos_le_pos. exact Hle. }
  assert (H54 : 2 ^ 54 <= 2 ^ Z.pos (Pos.size p)).
  { apply Z.pow_le_mono_r; lia. }
  change (2 ^ 53) with 9007199254740992 in Hp.
  change (2 ^ 54) with 18014398509481984 in H54. lia.
Qed.

Lemma to_int64_round (s : bool) (p : positive) :
  Z.pos p < 2 ^ 53 ->
  Float64.to_int64 (binary_round 53 1024 s p 0) = signed s p.
Proof.
  intros Hp. pose proof (digits_below_2_53 p Hp) as Hd.
  rewrite of_int_pos by exact Hd.
  destruct (shl_align_binary64 p Hd) as (Hv & _ & _).
  set (mz := fst (shl_align p 0 (Z.pos (digits2_pos p) - 53))) in *.
  unfold Float64.to_int64, Float64.trunc_scaled.
  assert (Hq : (if 0 <=? Z.pos (digits2_pos p) - 53
                then (if s then Z.neg mz else Z.pos mz)
                     * 2 ^ (Z.pos (digits2_pos p) - 53)
                else Z.quot (if s then Z.neg mz else Z.pos mz)
                            (2 ^ (- (Z.pos (digits2_pos p) - 53))))
               = signed s p).
  { destruct (0 <=? Z.pos (digits2_pos p) - 53) eqn:E.
    - apply Z.leb_le in E.
      assert (Hd53 : Z.pos (digits2_pos p) = 53) by lia.
      rewrite Hd53 in *. change (2 ^ (53 - 53)) with 1 in Hv.
      change (2 ^ (53 - 53)) with 1. unfold signed. destruct s; lia.
    - replace (- (Z.pos (digits2_pos p) - 53)) with (53 - Z.pos (digits2_pos p)) by lia.
      assert (Hpow : 0 < 2 ^ (53 - Z.pos (digits2_pos p)))
        by (apply Z.pow_pos_nonneg; lia).
      unfold signed. destruct s.
      + change (Z.neg mz) with (- Z.pos mz). rewrite Hv.
        rewrite <- Z.mul_opp_l, Z.quot_mul by lia. reflexivity.
      + rewrite Hv, Z.quot_mul by lia. reflexivity. }
  rewrite Hq.
  change (2 ^ 53) with 9007199254740992 in Hp.
  assert (Hr : ((Int.min_int64 <=? signed s p) && (signed s p <=? Int.max_int64))%bool = true).
  { apply andb_true_intro. unfold Int.min_int64, Int.max_int64.
    change (2 ^ 63) with 9223372036854775808.
    split; apply Z.leb_le; unfold signed; destruct s; lia. }
  rewrite Hr. reflexivity.
Qed.

Lemma ceil_div_round (s : bool) (p : positive) :
  Z.pos p < 2 ^ 53 ->
  Float64.Ceil (SFdiv 53 1024 (binary_round 53 1024 s p 0) two_20)
    = if ceil_div (signed s p) (2 ^ 20) =? 0 then S754_zero s
      else binary_normalize 53 1024 (ceil_div (signed s p) (2 ^ 20)) 0 s.
Proof.
  intros Hp. pose proof (digits_below_2_53 p Hp) as Hd.
  rewrite of_int_pos by exact Hd.
  destruct (shl_align_binary64 p Hd) as (Hv & _ & Hdig).
  set (mz := fst (shl_align p 0 (Z.pos (digits2_pos p) - 53))) in *.
  rewrite div_by_2_20 by lia.
  unfold Float64.Ceil, Float64.ceil_scaled.
  replace (0 <=? Z.pos (digits2_pos p) - 53 - 20) with false
    by (symmetry; apply Z.leb_gt; lia).
  assert (Hc : - (- (if s then Z.neg mz else Z.pos mz)
                  / 2 ^ (- (Z.pos (digits2_pos p) - 53 - 20)))
               = ceil_div (signed s p) (2 ^ 20)).
  { unfold ceil_div, signed.
    replace (- (Z.pos (digits2_pos p) - 53 - 20))
      with (20 + (53 - Z.pos (digits2_pos p))) by lia.
    rewrite Z.pow_add_r by lia.
    assert (Hpow : 0 < 2 ^ (53 - Z.pos (digits2_pos p)))
      by (apply Z.pow_pos_nonneg; lia).
    destruct s.
    - change (- Z.neg mz) with (Z.pos mz). change (- Z.neg p) with (Z.pos p).
      rewrite Hv, Z.div_mul_cancel_r by lia. reflexivity.
    - change (Z.pos mz) with (Z.pos mz). rewrite Hv, <- Z.mul_opp_l.
      rewrite Z.div_mul_cancel_r by lia. reflexivity. }
  rewrite Hc. reflexivity.
Qed.

Lemma memoryQuantityToMb_signed (s : bool) (p : positive) :
  Z.pos p < 2 ^ 53 ->
  memoryQuantityToMb {| Value := signed s p |}
    = ceil_div (signed s p) (2 ^ 20).
Proof.
  intros Hp. unfold memoryQuantityToMb, Float64.div. rewrite of_int_2_20.
  cbn [Value].
  replace (Float64.of_int (signed s p)) with (binary_round 53 1024 s p 0)
    by (destruct s; reflexivity).
  change Float64.prec with 53. change Float64.emax with 1024.
  rewrite ceil_div_round by exact Hp.
  assert (Hrange : - 2 ^ 53 < ceil_div (signed s p) (2 ^ 20) < 2 ^ 53 /\
                   (s = true -> ceil_div (signed s p) (2 ^ 20) <= 0) /\
                   (s = false -> 0 < ceil_div (signed s p) (2 ^ 20))).
  { unfold ceil_div, signed. change (2 ^ 20) with 1048576.
    change (2 ^ 53) with 9007199254740992 in *.
    destruct s.
    - change (- Z.neg p) with (Z.pos p).
      pose proof (Z.div_pos (Z.pos p) 1048576 ltac:(lia) ltac:(lia)).
      pose proof (Z.div_le_upper_bound (Z.pos p) 1048576 9007199254740991
                    ltac:(lia) ltac:(lia)).
      repeat split; intros; try lia; discriminate.
    - pose proof (Z.mod_pos_bound (- Z.pos p) 1048576 ltac:(lia)).
      pose proof (Z.div_mod (- Z.pos p) 1048576 ltac:(lia)).
      repeat split; intros; try lia; discriminate. }
  destruct Hrange as ((Hlo & Hhi) & Hneg & Hpos).
  destruct (ceil_div (signed s p) (2 ^ 20)) as [| p' | p'] eqn:E.
  - reflexivity.
  - destruct s; [specialize (Hneg eq_refl); lia |].
    cbn [Z.eqb binary_normalize]. apply (to_int64_round false p'). lia.
  - destruct s; [| specialize (Hpos eq_refl); lia].
    cbn [Z.eqb binary_normalize]. apply (to_int64_round true p'). lia.
Qed.

(** C3, within the precision of [float64]: up to 2^53 bytes in either
    direction, [memoryQuantityToMb] is the ceiling of the quotient by
    2^20. *)
Theorem memoryQuantityToMb_exact (q : Quantity) :
  - 2 ^ 53 <= Value q <= 2 ^ 53 ->
  memoryQuantityToMb q = mb_ceiling q.
Proof.
  destruct q as [v]. cbn [Value]. intros Hv. unfold mb_ceiling. cbn [Value].
  change (2 ^ 53) with 9007199254740992 in Hv.
  destruct (Z.eq_dec v 9007199254740992) as [-> | Hhi];
    [vm_compute; reflexivity |].
  destruct (Z.eq_dec v (-9007199254740992)) as [-> | Hlo];
    [vm_compute; reflexivity |].
  destruct v as [| p | p].
  - vm_compute. reflexivity.
  - apply (memoryQuantityToMb_signed false p).
    change (2 ^ 53) with 9007199254740992. lia.
  - apply (memoryQuantityToMb_signed true p).
    change (2 ^ 53) with 9007199254740992. lia.
Qed.


(** C3, on the quantity the specification names: 1,500,000,000 bytes are
    1,431 MB. *)
Lemma memoryQuantityToMb_1500000000 :
  memoryQuantityToMb {| Value := 1500000000 |} = 1431 /\
  mb_ceiling {| Value := 1500000000 |} = 1431.
Proof. split; vm_compute; reflexivity. Qed.

(** C3: a quantity of 2^53 + 1 bytes is changed by its conversion to
    [float64] into 2^53, and [memoryQuantityToMb] gives 8,589,934,592 MB
    where the ceiling of the quotient by 2^20 is 8,589,934,593. *)
Theorem memoryQuantityToMb_above_float64_precision :
  Int.in_int64 9007199254740993 /\
  Float64.of_int 9007199254740993 = Float64.of_int 9007199254740992 /\
  memoryQuantityToMb {| Value := 9007199254740993 |} = 8589934592 /\
  mb_ceiling {| Value := 9007199254740993 |} = 8589934593.
Proof.
  repeat split; try (vm_compute; reflexivity); vm_compute; discriminate.
Qed.

(** ** Update *)

(** C6: when the reconfiguration of the remote virtual machine fails,
    [updateVm] returns that very error and the run consists of the
    reconfiguration alone: the power state is never set. *)
Theorem reconfigure_failure_short_circuits {W : Type} (h : Backend W)
    (w : W) (vm : VirtualMachine) (configSpec : VirtualMachineConfigSpec)
    (resVm : ResVirtualMachine) (err : error) :
  fst (h (VmReconfigure resVm configSpec) w) = Some err ->
  result (run h (updateVm vm configSpec resVm) w) = Some (Some err) /\
  trace (run h (updateVm vm configSpec resVm) w)
    = [VmReconfigure resVm configSpec] /\
  Forall (fun c => isSetPowerState c = false)
         (trace (run h (updateVm vm configSpec resVm) w)).
Proof.
  intros Herr. unfold updateVm, reconfigureVm. simpl.
  destruct (h (VmReconfigure resVm configSpec) w) as [r w'].
  simpl in Herr. subst r. simpl.
  repeat split. repeat constructor.
Qed.

(** The other direction of C6: a run of [updateVm] that sets the power
    state has seen the reconfiguration succeed first. *)
Lemma power_state_only_after_reconfigure {W : Type} (h : Backend W)
    (w : W) (vm : VirtualMachine) (configSpec : VirtualMachineConfigSpec)
    (resVm : ResVirtualMachine) :
  Exists (fun c => isSetPowerState c = true)
         (trace (run h (updateVm vm configSpec resVm) w)) ->
  fst (h (VmReconfigure resVm configSpec) w) = None /\
  exists state,
    trace (run h (updateVm vm configSpec resVm) w)
      = [VmReconfigure resVm configSpec; VmSetPowerState resVm state].
Proof.
  unfold updateVm, reconfigureVm, updatePowerState. simpl.
  destruct (h (VmReconfigure resVm configSpec) w) as [[e |] w']; simpl.
  - intros H. inversion H as [? ? Hc | ? ? Ht]; subst.
    + discriminate.
    + inversion Ht.
  - intros _. split; [reflexivity |].
    match goal with
    | |- context [h (VmSetPowerState resVm ?s) w'] =>
        exists s; destruct (h (VmSetPowerState resVm s) w') as [[e |] w'']
    end; reflexivity.
Qed.

(** C10: a specification that leaves the power state empty has the
    virtual machine powered on: [updatePowerState] sets
    [VirtualMachinePoweredOn], and so does [updateVm] once the
    reconfiguration has succeeded. *)
Theorem unset_power_state_defaults_to_on {W : Type} (h : Backend W)
    (w : W) (vm : VirtualMachine) (resVm : ResVirtualMachine) :
  PowerState (Spec vm) = "" ->
  trace (run h (updatePowerState vm resVm) w)
    = [VmSetPowerState resVm VirtualMachinePoweredOn] /\
  forall configSpec,
    fst (h (VmReconfigure resVm configSpec) w) = None ->
    trace (run h (updateVm vm configSpec resVm) w)
      = [VmReconfigure resVm configSpec;
         VmSetPowerState resVm VirtualMachinePoweredOn].
Proof.
  intros Hempty.
  assert (Hps : forall w0,
    trace (run h (updatePowerState vm resVm) w0)
      = [VmSetPowerState resVm VirtualMachinePoweredOn]).
  { intros w0. unfold updatePowerState. rewrite Hempty. simpl.
    destruct (h (VmSetPowerState resVm VirtualMachinePoweredOn) w0)
      as [[e |] w']; reflexivity. }
  split; [apply Hps |].
  intros configSpec Hok. unfold updateVm, reconfigureVm.
  unfold call. cbn [bind run].
  destruct (h (VmReconfigure resVm configSpec) w) as [r w'].
  cbn [fst] in Hok. subst r. cbn [trace]. rewrite Hps. reflexivity.
Qed.

(** A power state that is set is the one applied. *)
Lemma set_power_state_is_applied {W : Type} (h : Backend W)
    (w : W) (vm : VirtualMachine) (resVm : ResVirtualMachine) :
  PowerState (Spec vm) <> "" ->
  trace (run h (updatePowerState vm resVm) w)
    = [VmSetPowerState resVm (PowerState (Spec vm))].
Proof.
  intros Hset. unfold updatePowerState.
  destruct (String.eqb (PowerState (Spec vm)) "") eqn:E.
  - apply String.eqb_eq in E. contradiction.
  - simpl.
    destruct (h (VmSetPowerState resVm (PowerState (Spec vm))) w)
      as [[e |] w']; reflexivity.
Qed.

(** ** Status merge *)

(** A merge succeeds only after the status has been read, and it touches
    nothing but the status. *)
Lemma merge_success_inv {W : Type} (h : Backend W) (w : W)
    (vm vm' : VirtualMachine) (resVm : ResVirtualMachine) :
  result (run h (mergeVmStatus vm resVm) w) = Some (vm', None) ->
  exists observed,
    fst (h (VmGetStatus resVm) w) = inl observed /\
    vm' = setStatus vm (setPhase observed (Phase (Status vm))).
Proof.
  unfold mergeVmStatus, call. cbn [bind run].
  destruct (h (VmGetStatus resVm) w) as [[st | e] w']; cbn.
  - intros [= <-]. exists st. split; reflexivity.
  - intros [=].
Qed.

(** When the status cannot be read the virtual machine is left as it
    was. *)
Lemma merge_failure_keeps_status {W : Type} (h : Backend W) (w : W)
    (vm : VirtualMachine) (resVm : ResVirtualMachine) (err : error) :
  fst (h (VmGetStatus resVm) w) = inr err ->
  result (run h (mergeVmStatus vm resVm) w)
    = Some (vm, Some (Wrapf err "unable to get VirtualMachine status" [])).
Proof.
  intros Hst. unfold mergeVmStatus, call. cbn [bind run].
  destruct (h (VmGetStatus resVm) w) as [r w'].
  cbn [fst] in Hst. subst r. reflexivity.
Qed.

(** C8: every merge that succeeds has read the status of the remote
    virtual machine, and the virtual machine it hands back has the
    [Phase] it had before, while power state, unique identifier,
    internal reference and address are those the remote virtual machine
    reported; nothing but the status differs. The merge succeeds
    whenever the status can be read, and in no other case: when the
    status cannot be read the merge returns the wrapped error and the
    virtual machine as it was. *)
Theorem merge_keeps_phase {W : Type} (h : Backend W) (w : W)
    (vm : VirtualMachine) (resVm : ResVirtualMachine) :
  (forall vm',
     result (run h (mergeVmStatus vm resVm) w) = Some (vm', None) ->
     exists observed,
       fst (h (VmGetStatus resVm) w) = inl observed /\
       Phase (Status vm') = Phase (Status vm) /\
       StatusPowerState (Status vm') = StatusPowerState observed /\
       BiosUuid (Status vm') = BiosUuid observed /\
       InternalId (Status vm') = InternalId observed /\
       VmIp (Status vm') = VmIp observed /\
       Name vm' = Name vm /\ Namespace vm' = Namespace vm /\
       Spec vm' = Spec vm /\ Annotations vm' = Annotations vm) /\
  (forall observed,
     fst (h (VmGetStatus resVm) w) = inl observed ->
     exists vm',
       result (run h (mergeVmStatus vm resVm) w) = Some (vm', None) /\
       Phase (Status vm') = Phase (Status vm) /\
       StatusPowerState (Status vm') = StatusPowerState observed /\
       BiosUuid (Status vm') = BiosUuid observed /\
       InternalId (Status vm') = InternalId observed /\
       VmIp (Status vm') = VmIp observed) /\
  (forall err,
     fst (h (VmGetStatus resVm) w) = inr err ->
     result (run h (mergeVmStatus vm resVm) w)
       = Some (vm, Some (Wrapf err "unable to get VirtualMachine status"
                               []))).
Proof.
  split; [| split].
  - intros vm' Hrun.
    destruct (merge_success_inv h w vm vm' resVm Hrun) as (observed & Hst & ->).
    exists observed. split; [exact Hst |]. cbn. repeat split.
  - intros observed Hst. unfold mergeVmStatus, call. cbn [bind run].
    destruct (h (VmGetStatus resVm) w) as [r w'].
    cbn [fst] in Hst. subst r. cbn.
    eexists. split; [reflexivity |]. cbn. repeat split.
  - intros err Hst. apply merge_failure_keeps_status. exact Hst.
Qed.

(** ** Error translation and delete *)

Lemma transformError_not_found (resourceType resource : string)
    (err : error) :
  isNotFound err = true ->
  transformError resourceType resource err
    = StatusNotFound resourceType resource.
Proof. destruct err; simpl; intros H; try discriminate; reflexivity. Qed.

Lemma transformError_other (resourceType resource : string) (err : error) :
  isNotFound err = false -> transformError resourceType resource err = err.
Proof. destruct err; simpl; intros H; try discriminate; reflexivity. Qed.

(** C1, as the code has it: when the lookup of the virtual machine fails,
    [DeleteVirtualMachine] stops there, the delete sequence is not run,
    and the error comes back translated: a not-found error as the
    NotFound status error of the VirtualMachine kind and the namespaced
    name, a multiple-found error as it is. *)
Theorem delete_lookup_error_is_returned {W : Type} (h : Backend W) (w : W)
    (vmToDelete : VirtualMachine) (ses : Session) (err : error) :
  fst (h (GetSession (Namespace vmToDelete)) w) = inl ses ->
  fst (h (FinderVirtualMachine (Name vmToDelete))
         (snd (h (GetSession (Namespace vmToDelete)) w))) = inr err ->
  trace (run h (VSphereVmProvider_DeleteVirtualMachine vmToDelete) w)
    = [GetSession (Namespace vmToDelete);
       FinderVirtualMachine (Name vmToDelete)] /\
  (isNotFound err = true ->
   result (run h (VSphereVmProvider_DeleteVirtualMachine vmToDelete) w)
     = Some (Some (StatusNotFound VirtualMachineKind
                                  (NamespacedName vmToDelete)))) /\
  (isMultipleFound err = true ->
   result (run h (VSphereVmProvider_DeleteVirtualMachine vmToDelete) w)
     = Some (Some err)).
Proof.
  intros Hses Hfind.
  unfold VSphereVmProvider_DeleteVirtualMachine, Session_GetVirtualMachine,
    lookupVm, try, call.
  cbn [bind run].
  destruct (h (GetSession (Namespace vmToDelete)) w) as [r w1].
  cbn [fst snd] in *. subst r. cbn [bind run].
  destruct (h (FinderVirtualMachine (Name vmToDelete)) w1) as [r w2].
  cbn [fst] in Hfind. subst r. cbn.
  split; [reflexivity |]. split; intros H.
  - unfold transformVmError. rewrite transformError_not_found by exact H.
    reflexivity.
  - unfold transformVmError. rewrite transformError_other; [reflexivity |].
    destruct err; simpl in *; congruence.
Qed.

(** Where the lookup succeeds the delete sequence runs, and its result
    is the result of the delete. *)
Lemma delete_runs_sequence {W : Type} (h : Backend W) (w : W)
    (vmToDelete : VirtualMachine) (ses : Session)
    (objVm : ObjectVirtualMachine) (resVm : ResVirtualMachine) :
  let w1 := snd (h (GetSession (Namespace vmToDelete)) w) in
  let w2 := snd (h (FinderVirtualMachine (Name vmToDelete)) w1) in
  let w3 := snd (h (NewVMFromObject objVm) w2) in
  fst (h (GetSession (Namespace vmToDelete)) w) = inl ses ->
  fst (h (FinderVirtualMachine (Name vmToDelete)) w1) = inl objVm ->
  fst (h (NewVMFromObject objVm) w2) = inl resVm ->
  result (run h (VSphereVmProvider_DeleteVirtualMachine vmToDelete) w)
    = Some (fst (h (DeleteSequenceExecute vmToDelete resVm) w3)).
Proof.
  intros w1 w2 w3 Hses Hfind Hnew. subst w1 w2 w3.
  unfold VSphereVmProvider_DeleteVirtualMachine, Session_GetVirtualMachine,
    lookupVm, try, call.
  cbn [bind run].
  destruct (h (GetSession (Namespace vmToDelete)) w) as [r w1].
  cbn [fst snd] in *. subst r. cbn [bind run].
  destruct (h (FinderVirtualMachine (Name vmToDelete)) w1) as [r w2].
  cbn [fst snd] in *. subst r. cbn [bind run].
  destruct (h (NewVMFromObject objVm) w2) as [r w3].
  cbn [fst snd] in *. subst r. cbn [bind run].
  destruct (h (DeleteSequenceExecute vmToDelete resVm) w3) as [[e |] w4];
    reflexivity.
Qed.

(** ** Device changes *)

Lemma countOperation_app (op : VirtualDeviceConfigSpecOperation)
    (l1 l2 : list VirtualDeviceConfigSpec) :
  countOperation op (l1 ++ l2) = (countOperation op l1 + countOperation op l2)%nat.
Proof. unfold countOperation. rewrite filter_app, length_app. reflexivity. Qed.

Lemma countOperation_all (op : VirtualDeviceConfigSpecOperation)
    (specs : list VirtualDeviceConfigSpec) :
  Forall (fun cs => Operation cs = op) specs ->
  countOperation op specs = length specs.
Proof.
  unfold countOperation. induction 1 as [| cs l Hcs _ IH]; [reflexivity |].
  rewrite filter_cons_True by exact Hcs. simpl. rewrite IH. reflexivity.
Qed.

Lemma countOperation_none (op op' : VirtualDeviceConfigSpecOperation)
    (specs : list VirtualDeviceConfigSpec) :
  op <> op' ->
  Forall (fun cs => Operation cs = op') specs ->
  countOperation op specs = 0%nat.
Proof.
  intros Hne. unfold countOperation.
  induction 1 as [| cs l Hcs _ IH]; [reflexivity |].
  rewrite filter_cons_False by congruence. exact IH.
Qed.




(** The loop over the interfaces: a run that returns changes has made
    one device per interface and returns one add per device, with the
    keys counted down from [key]. *)
Lemma deviceSpecsFromVM_loop_inv {W : Type} (h : Backend W) (s : Session)
    (vm : VirtualMachine) (vifs : list VirtualMachineNetworkInterface) :
  forall (key : Z) (acc specs : list VirtualDeviceConfigSpec) (w : W),
    result (run h (deviceSpecsFromVM_loop s vm vifs key acc) w)
      = Some (inl specs) ->
    exists devs,
      length devs = length vifs /\ specs = acc ++ addSpecs key devs.
Proof.
  induction vifs as [| vif vifs IH]; intros key acc specs w; simpl.
  - intros [= <-]. exists []. rewrite app_nil_r. split; reflexivity.
  - destruct (getNetworkProviderByType s (NetworkType vif)) as [np | e];
      [| intros [=]].
    unfold try_with, call. cbn [bind run].
    destruct (h (CreateVnic np vm vif) w) as [[dev | e] w'];
      cbn [bind run result]; [| intros [=]].
    intros Hrun. apply IH in Hrun as (devs & Hlen & ->).
    exists (dev :: devs). simpl. rewrite <- app_assoc, Hlen.
    split; reflexivity.
Qed.

Lemma deviceSpecsFromVM_loop_returns {W : Type} (h : Backend W)
    (s : Session) (vm : VirtualMachine)
    (vifs : list VirtualMachineNetworkInterface) :
  Forall (fun vif => is_ok (getNetworkProviderByType s (NetworkType vif))
                     = true) vifs ->
  (forall np vif w, is_ok (fst (h (CreateVnic np vm vif) w)) = true) ->
  forall (key : Z) (acc : list VirtualDeviceConfigSpec) (w : W),
    exists specs,
      result (run h (deviceSpecsFromVM_loop s vm vifs key acc) w)
        = Some (inl specs).
Proof.
  intros Hnp Hvnic. induction Hnp as [| vif vifs Hvif _ IH];
    intros key acc w; simpl.
  - eexists; reflexivity.
  - destruct (getNetworkProviderByType s (NetworkType vif)) as [np | e];
      [| discriminate].
    unfold try_with, call. cbn [bind run]. specialize (Hvnic np vif w).
    destruct (h (CreateVnic np vm vif) w) as [[dev | e] w'];
      cbn [bind run result fst is_ok] in *; [apply IH | discriminate].
Qed.

Lemma addSpecs_length (key : Z) (devs : list VirtualDevice) :
  length (addSpecs key devs) = length devs.
Proof.
  revert key. induction devs as [| dev devs IH]; intros key; simpl;
    [reflexivity | rewrite IH; reflexivity].
Qed.

Lemma addSpecs_operation (key : Z) (devs : list VirtualDevice) :
  Forall (fun cs => Operation cs = VirtualDeviceConfigSpecOperationAdd)
         (addSpecs key devs).
Proof.
  revert key. induction devs as [| dev devs IH]; intros key; simpl;
    constructor; [reflexivity | apply IH].
Qed.

(** In the range of [int32] the keys are [key], [key - 1], ...: the last
    of them, [key - (length devs - 1)], is to be an [int32]. *)
Lemma addSpecs_keys (devs : list VirtualDevice) :
  forall key : Z,
    - 2 ^ 31 <= key - Z.of_nat (length devs) + 1 ->
    key < 2 ^ 31 ->
    deviceKeys (addSpecs key devs)
      = map (fun i => key - Z.of_nat i) (seq 0 (length devs)).
Proof.
  induction devs as [| dev devs IH]; intros key Hlo Hhi; [reflexivity |].
  cbn [addSpecs deviceKeys map length seq]. f_equal.
  - simpl. lia.
  - change (map (fun cs => Key (Device cs)) ?l) with (deviceKeys l).
    destruct devs as [| dev' devs']; [reflexivity |].
    cbn [length] in Hlo.
    assert (Hw : Int.int32 (key - 1) = key - 1).
    { unfold Int.int32, Int.wrap.
      change (2 ^ (32 - 1)) with 2147483648. change (2 ^ 32) with 4294967296.
      change (2 ^ 31) with 2147483648 in *.
      rewrite Z.mod_small by lia. lia. }
    rewrite Hw, IH by (cbn [length]; lia).
    rewrite <- seq_shift, map_map. apply map_ext. intros i. lia.
Qed.

Lemma int32_pred_wrap (x : Z) : Int.int32 (Int.int32 x - 1) = Int.int32 (x - 1).
Proof.
  unfold Int.int32, Int.wrap. f_equal.
  replace ((x + 2 ^ (32 - 1)) mod 2 ^ 32 - 2 ^ (32 - 1) - 1 + 2 ^ (32 - 1))
    with ((x + 2 ^ (32 - 1)) mod 2 ^ 32 - 1) by lia.
  rewrite Zminus_mod_idemp_l. f_equal. lia.
Qed.

(** The [i]-th temporary key is -100 - i, wrapped into [int32]. *)
Lemma temporaryKey_wrap (i : nat) :
  temporaryKey i = Int.int32 (-100 - Z.of_nat i).
Proof.
  induction i as [| i IH]; [reflexivity |].
  change (temporaryKey (S i)) with (Int.int32 (temporaryKey i - 1)).
  rewrite IH, int32_pred_wrap. f_equal. lia.
Qed.

(** Whatever the count of the devices, the keys are the temporary keys
    in order. *)
Lemma addSpecs_temporaryKeys (devs : list VirtualDevice) :
  deviceKeys (addSpecs (Int.int32 (-100)) devs)
    = map temporaryKey (seq 0 (length devs)).
Proof.
  assert (H : forall n,
    deviceKeys (addSpecs (temporaryKey n) devs)
      = map temporaryKey (seq n (length devs))).
  { induction devs as [| dev devs IH]; intros n; [reflexivity |].
    cbn [addSpecs deviceKeys map length seq]. f_equal.
    change (map (fun cs => Key (Device cs)) ?l) with (deviceKeys l).
    apply (IH (S n)). }
  apply (H 0%nat).
Qed.

(** The key with the index 2^31 - 99 has left the negative numbers: it
    is the greatest [int32]. *)
Lemma temporaryKey_wraps_around :
  temporaryKey (Z.to_nat (2 ^ 31 - 99)) = 2 ^ 31 - 1.
Proof.
  rewrite temporaryKey_wrap, Z2Nat.id by (change (2 ^ 31) with 2147483648; lia).
  reflexivity.
Qed.

Lemma countdown_NoDup (key : Z) (n : nat) :
  NoDup (map (fun i => key - Z.of_nat i) (seq 0 n)).
Proof.
  change (NoDup ((fun i => key - Z.of_nat i) <$> seq 0 n)).
  apply NoDup_fmap_2; [| apply NoDup_seq].
  intros i j Hij. lia.
Qed.

Lemma countdown_negative (key : Z) (n : nat) :
  key < 0 -> Forall (fun k => k < 0) (map (fun i => key - Z.of_nat i) (seq 0 n)).
Proof.
  intros Hkey. apply Forall_forall. intros k Hk.
  apply list_elem_of_In, in_map_iff in Hk as (i & <- & _). lia.
Qed.

(** C9: the changes [deviceSpecsFromVM] returns are one add per
    interface, and the keys of the new devices are -100, -101, ... in
    the order of the interfaces: negative and all different. The keys
    are [int32] values: the count of interfaces is taken such that the
    last key, -100 - (n - 1), is still one, that is at most 2^31 - 99. *)
Theorem new_device_keys_unique_negative {W : Type} (h : Backend W) (w : W)
    (s : Session) (vm : VirtualMachine)
    (specs : list VirtualDeviceConfigSpec) :
  Z.of_nat (length (NetworkInterfaces (Spec vm))) <= 2 ^ 31 - 99 ->
  result (run h (deviceSpecsFromVM s vm) w) = Some (inl specs) ->
  length specs = length (NetworkInterfaces (Spec vm)) /\
  Forall (fun cs => Operation cs = VirtualDeviceConfigSpecOperationAdd)
         specs /\
  deviceKeys specs
    = map (fun i => -100 - Z.of_nat i)
          (seq 0 (length (NetworkInterfaces (Spec vm)))) /\
  NoDup (deviceKeys specs) /\
  Forall (fun key => key < 0) (deviceKeys specs).
Proof.
  intros Hbound Hrun. unfold deviceSpecsFromVM in Hrun.
  apply deviceSpecsFromVM_loop_inv in Hrun as (devs & Hlen & ->).
  cbn [app]. change (Int.int32 (-100)) with (-100).
  assert (Hkeys : deviceKeys (addSpecs (-100) devs)
                  = map (fun i => -100 - Z.of_nat i)
                        (seq 0 (length (NetworkInterfaces (Spec vm))))).
  { rewrite <- Hlen. apply addSpecs_keys; lia. }
  split; [rewrite addSpecs_length; exact Hlen |].
  split; [apply addSpecs_operation |].
  split; [exact Hkeys |]. rewrite Hkeys.
  split; [apply countdown_NoDup | apply countdown_negative; lia].
Qed.

(** With network types the session knows and network providers that
    deliver, [deviceSpecsFromVM] does return its changes. *)
Lemma deviceSpecsFromVM_returns {W : Type} (h : Backend W) (w : W)
    (s : Session) (vm : VirtualMachine) :
  Forall (fun vif => is_ok (getNetworkProviderByType s (NetworkType vif))
                     = true) (NetworkInterfaces (Spec vm)) ->
  (forall np vif w', is_ok (fst (h (CreateVnic np vm vif) w')) = true) ->
  exists specs, result (run h (deviceSpecsFromVM s vm) w) = Some (inl specs).
Proof.
  intros Hnp Hvnic. unfold deviceSpecsFromVM.
  apply deviceSpecsFromVM_loop_returns; assumption.
Qed.


(** C5: a specification with at least one interface, against a remote
    virtual machine whose network devices can be listed. The changes
    [deviceChangeSpecs] returns are one remove per device at hand, in
    order, followed by one add per interface, and no edit; they are
    returned whenever the network types are known to the session and
    the network providers deliver the new devices. *)
Theorem interfaces_replace_devices {W : Type} (h : Backend W) (w : W)
    (s : Session) (vm : VirtualMachine) (resSrcVm : ResVirtualMachine)
    (netDevices : list VirtualDevice) :
  NetworkInterfaces (Spec vm) <> [] ->
  fst (h (VmGetNetworkDevices resSrcVm) w) = inl netDevices ->
  (forall specs,
     result (run h (deviceChangeSpecs s vm resSrcVm) w) = Some (inl specs) ->
     exists adds,
       specs = map (deviceSpec VirtualDeviceConfigSpecOperationRemove)
                   netDevices ++ adds /\
       length adds = length (NetworkInterfaces (Spec vm)) /\
       Forall (fun cs => Operation cs = VirtualDeviceConfigSpecOperationAdd)
              adds /\
       countOperation VirtualDeviceConfigSpecOperationRemove specs
         = length netDevices /\
       countOperation VirtualDeviceConfigSpecOperationAdd specs
         = length (NetworkInterfaces (Spec vm)) /\
       countOperation VirtualDeviceConfigSpecOperationEdit specs = 0%nat) /\
  (Forall (fun vif => is_ok (getNetworkProviderByType s (NetworkType vif))
                      = true) (NetworkInterfaces (Spec vm)) ->
   (forall np vif w', is_ok (fst (h (CreateVnic np vm vif) w')) = true) ->
   exists specs,
     result (run h (deviceChangeSpecs s vm resSrcVm) w) = Some (inl specs)).
Proof.
  intros Hsome Hdevs.
  assert (Hrun :
    result (run h (deviceChangeSpecs s vm resSrcVm) w)
      = match result (run h (deviceSpecsFromVM s vm)
                          (snd (h (VmGetNetworkDevices resSrcVm) w))) with
        | Some (inl adds) =>
            Some (inl (map (deviceSpec VirtualDeviceConfigSpecOperationRemove)
                           netDevices ++ adds))
        | Some (inr e) => Some (inr e)
        | None => None
        end).
  { unfold deviceChangeSpecs. unfold try at 1. unfold call. cbn [bind run].
    destruct (h (VmGetNetworkDevices resSrcVm) w) as [r w'].
    cbn [fst snd] in *. subst r. cbn [bind].
    assert (Hlen : (length (NetworkInterfaces (Spec vm)) =? 0)%nat = false).
    { destruct (NetworkInterfaces (Spec vm)); [contradiction | reflexivity]. }
    rewrite Hlen. cbn [result]. unfold try. rewrite run_bind.
    destruct (result (run h (deviceSpecsFromVM s vm) w')) as [[adds | e] |];
      reflexivity. }
  rewrite Hrun. clear Hrun.
  set (w' := snd (h (VmGetNetworkDevices resSrcVm) w)).
  set (removes := map (deviceSpec VirtualDeviceConfigSpecOperationRemove)
                      netDevices).
  assert (Hrem : Forall (fun cs => Operation cs
                           = VirtualDeviceConfigSpecOperationRemove) removes).
  { subst removes. apply Forall_forall. intros cs Hcs.
    apply list_elem_of_In, in_map_iff in Hcs as (dev & <- & _). reflexivity. }
  split.
  - intros specs.
    destruct (result (run h (deviceSpecsFromVM s vm) w'))
      as [[adds | e] |] eqn:Hadds; [| intros [=] | intros [=]].
    intros [= <-]. unfold deviceSpecsFromVM in Hadds.
    apply deviceSpecsFromVM_loop_inv in Hadds as (devs & Hdevlen & ->).
    cbn [app]. exists (addSpecs (Int.int32 (-100)) devs).
    pose proof (addSpecs_operation (Int.int32 (-100)) devs) as Hop.
    split; [reflexivity |].
    split; [rewrite addSpecs_length; exact Hdevlen |].
    split; [exact Hop |].
    rewrite !countOperation_app.
    rewrite (countOperation_all VirtualDeviceConfigSpecOperationRemove
               removes) by exact Hrem.
    rewrite (countOperation_all VirtualDeviceConfigSpecOperationAdd
               (addSpecs _ _)) by exact Hop.
    rewrite (countOperation_none VirtualDeviceConfigSpecOperationRemove
               VirtualDeviceConfigSpecOperationAdd (addSpecs _ _))
      by (discriminate || exact Hop).
    rewrite (countOperation_none VirtualDeviceConfigSpecOperationAdd
               VirtualDeviceConfigSpecOperationRemove removes)
      by (discriminate || exact Hrem).
    rewrite (countOperation_none VirtualDeviceConfigSpecOperationEdit
               VirtualDeviceConfigSpecOperationRemove removes)
      by (discriminate || exact Hrem).
    rewrite (countOperation_none VirtualDeviceConfigSpecOperationEdit
               VirtualDeviceConfigSpecOperationAdd (addSpecs _ _))
      by (discriminate || exact Hop).
    rewrite addSpecs_length, Hdevlen.
    subst removes. rewrite length_map. repeat split; lia.
  - intros Hnp Hvnic.
    destruct (deviceSpecsFromVM_returns h w' s vm Hnp Hvnic) as [adds Hadds].
    rewrite Hadds. eexists; reflexivity.
Qed.

(** ** Which calls a function can make *)

Ltac by_call :=
  lazymatch goal with
  | |- silent ?P (call ?c) => apply (silent_call P c)
  end.

Ltac quiet :=
  repeat first
    [ solve [auto with silent]
    | apply silent_Ret
    | apply silent_Panic
    | by_call; reflexivity
    | apply silent_try_with; [| intros ?]
    | apply silent_try; [| intros ?]
    | apply silent_bind; [| intros ?]
    | match goal with
      | |- silent _ (match ?x with _ => _ end) => destruct x
      end
    | progress cbv zeta ].

Create HintDb silent.

Lemma deviceSpecsFromVM_loop_silent (P : Call -> bool) (s : Session)
    (vm : VirtualMachine) :
  (forall np vif, P (CreateVnic np vm vif) = false) ->
  forall vifs key acc, silent P (deviceSpecsFromVM_loop s vm vifs key acc).
Proof.
  intros HP vifs. induction vifs as [| vif vifs IH]; intros key acc; simpl.
  - constructor.
  - destruct (getNetworkProviderByType s (NetworkType vif)); [| constructor].
    apply silent_try_with; [by_call; apply HP | intros dev; apply IH].
Qed.

Lemma editBacking_loop_silent (P : Call -> bool) (net : string) :
  P (EthernetCardBackingInfo net) = false ->
  forall devs acc, silent P (editBacking_loop net devs acc).
Proof.
  intros HP devs. induction devs as [| dev devs IH]; intros acc; simpl.
  - constructor.
  - apply silent_try_with; [by_call; apply HP | intros b; apply IH].
Qed.

Lemma waitForVnetIFs_silent (P : Call -> bool) (namespace vmName : string) :
  (forall net, P (WaitForVnetIFStatus namespace net vmName) = false) ->
  forall nifs vnifs, silent P (waitForVnetIFs namespace vmName nifs vnifs).
Proof.
  intros HP nifs. induction nifs as [| nif nifs IH]; intros vnifs; simpl.
  - constructor.
  - destruct (String.eqb (NetworkType nif) NsxtNetworkType); [| apply IH].
    apply silent_try; [by_call; apply HP | intros v; apply IH].
Qed.

Lemma deviceSpecsFromVM_silent (P : Call -> bool) (s : Session)
    (vm : VirtualMachine) :
  (forall np vif, P (CreateVnic np vm vif) = false) ->
  silent P (deviceSpecsFromVM s vm).
Proof. intros HP. apply deviceSpecsFromVM_loop_silent, HP. Qed.

Lemma deviceChangeSpecs_silent (P : Call -> bool) (s : Session)
    (vm : VirtualMachine) (resSrcVm : ResVirtualMachine) :
  P (VmGetNetworkDevices resSrcVm) = false ->
  (forall net, P (EthernetCardBackingInfo net) = false) ->
  (forall np vif, P (CreateVnic np vm vif) = false) ->
  silent P (deviceChangeSpecs s vm resSrcVm).
Proof.
  intros Hdev Hback Hvnic. unfold deviceChangeSpecs.
  apply silent_try; [by_call; apply Hdev | intros devs].
  destruct (length (NetworkInterfaces (Spec vm)) =? 0)%nat.
  - destruct (network s); [apply editBacking_loop_silent, Hback | constructor].
  - apply silent_try; [apply deviceSpecsFromVM_silent, Hvnic |].
    intros adds. constructor.
Qed.

Lemma lookupVm_silent (P : Call -> bool) (s : Session) (name : string) :
  P (FinderVirtualMachine name) = false ->
  (forall o, P (NewVMFromObject o) = false) ->
  silent P (lookupVm s name).
Proof.
  intros Hfind Hnew. unfold lookupVm.
  apply silent_try; [by_call; apply Hfind |].
  intros o. by_call; apply Hnew.
Qed.

Lemma processStorageClass_silent (P : Call -> bool)
    (resSrcVM : ResVirtualMachine) (profileID : string) :
  P (VmGetVirtualDisks resSrcVM) = false ->
  (forall disks op, P (DisksConfigSpec disks op) = false) ->
  silent P (processStorageClass resSrcVM profileID).
Proof.
  intros Hdisks Hspec. unfold processStorageClass.
  destruct (String.length profileID =? 0)%nat; [constructor |].
  apply silent_try; [by_call; apply Hdisks | intros disks].
  apply silent_try; [by_call; apply Hspec | intros vdcs]. constructor.
Qed.

Lemma ReferenceValue_silent (P : Call -> bool) (vm : ResVirtualMachine) :
  silent P (ReferenceValue vm).
Proof. unfold ReferenceValue. destruct (vcVirtualMachine vm); constructor. Qed.

Lemma silent_defer {A : Type} (P : Call -> bool) (p : Prog A)
    (d : Prog unit) :
  silent P p -> silent P d -> silent P (defer p d).
Proof.
  intros Hp Hd. induction Hp; cbn [defer].
  - apply silent_bind; [exact Hd | intros _; constructor].
  - apply silent_bind; [exact Hd | intros _; constructor].
  - constructor; assumption.
Qed.

Lemma WithRestClient_silent {A : Type} (P : Call -> bool)
    (f : Prog (Result A)) :
  P RestLogin = false -> P RestLogout = false -> silent P f ->
  silent P (WithRestClient f).
Proof.
  intros Hin Hout Hf. unfold WithRestClient.
  apply silent_bind; [by_call; apply Hin |].
  intros [e |]; [constructor |].
  apply silent_defer; [exact Hf |].
  apply silent_bind; [by_call; apply Hout | intros _; constructor].
Qed.

#[local] Hint Resolve deviceSpecsFromVM_silent deviceChangeSpecs_silent
  lookupVm_silent processStorageClass_silent ReferenceValue_silent
  waitForVnetIFs_silent editBacking_loop_silent : silent.
#[local] Hint Extern 1 (_ = false) => reflexivity : silent.

(** *** No function of the session enters another one *)

Lemma createVm_no_enter (s : Session) (name : string)
    (configSpec : VirtualMachineConfigSpec) :
  silent isEnter (createVm s name configSpec).
Proof. unfold createVm. quiet. Qed.

Lemma GetVirtualMachineImageFromCL_no_enter (s : Session)
    (name namespace : string) :
  silent isEnter (GetVirtualMachineImageFromCL s name namespace).
Proof.
  unfold GetVirtualMachineImageFromCL, contentlibID.
  apply silent_try.
  - apply WithRestClient_silent; [reflexivity | reflexivity |].
    apply silent_bind; [destruct (contentlib s); constructor | intros lib].
    quiet.
  - intros [item |]; [| constructor].
    destruct (negb (IsSupportedDeployType (ItemType item))); [constructor |].
    unfold LibItemToVirtualMachineImage. quiet.
Qed.

Lemma deployOvf_no_enter (s : Session) (itemID vmName profileID : string) :
  silent isEnter (deployOvf s itemID vmName profileID).
Proof.
  unfold deployOvf. apply silent_try.
  - apply WithRestClient_silent; [reflexivity | reflexivity |]. quiet.
  - intros d. quiet.
Qed.

Lemma getCloneSpec_no_enter (s : Session) (name : string)
    (resSrcVM : ResVirtualMachine) (vm : VirtualMachine)
    (vmClassSpec : VirtualMachineClassSpec)
    (vmMetadata : gmap string string) (profileID : string) :
  silent isEnter (getCloneSpec s name resSrcVM vm vmClassSpec vmMetadata
                               profileID).
Proof. unfold getCloneSpec. quiet. Qed.

Lemma getCustomizationSpecs_no_enter (s : Session)
    (namespace vmName : string) (vmSpec : VirtualMachineSpec) :
  silent isEnter (getCustomizationSpecs s namespace vmName vmSpec).
Proof.
  unfold getCustomizationSpecs.
  apply silent_try; [auto with silent | intros vnifs].
  destruct (length vnifs =? 0)%nat; constructor.
Qed.

Lemma mergeVmStatus_no_enter (vm : VirtualMachine)
    (resVm : ResVirtualMachine) :
  silent isEnter (mergeVmStatus vm resVm).
Proof. unfold mergeVmStatus. quiet. Qed.

Lemma addProviderAnnotations_no_enter (vm : VirtualMachine)
    (vmRes : ResVirtualMachine) :
  silent isEnter (addProviderAnnotations vm vmRes).
Proof. unfold addProviderAnnotations. quiet. Qed.

Lemma entered_bind {W A B : Type} (h : Backend W) (p : Prog A)
    (f : A -> Prog B) (w : W) :
  (forall a, silent isEnter (f a)) ->
  entered (trace (run h (bind p f) w)) = entered (trace (run h p w)).
Proof.
  intros Hf. rewrite run_bind.
  destruct (result (run h p w)) as [a |]; cbn [trace]; [| reflexivity].
  rewrite entered_app, (entered_silent (trace (run h (f a) _))).
  - apply app_nil_r.
  - apply silent_run, Hf.
Qed.

Lemma entered_after_enter {W A : Type} (h : Backend W) (m : Method)
    (p : Prog A) (w : W) :
  silent isEnter p ->
  entered (trace (run h (_ <- call (Enter m) ;; p) w)) = [m].
Proof.
  intros Hp. unfold call. cbn [bind run].
  destruct (h (Enter m) w) as [r w']. cbn [trace].
  change (entered (Enter m :: ?t)) with (m :: entered t).
  rewrite entered_silent; [reflexivity | apply silent_run, Hp].
Qed.

Lemma Session_CreateVirtualMachine_entered {W : Type} (h : Backend W)
    (w : W) (s : Session) (vm : VirtualMachine)
    (vmClass : VirtualMachineClassSpec) (vmMetadata : gmap string string) :
  entered (trace (run h (Session_CreateVirtualMachine s vm vmClass
                                                      vmMetadata) w))
    = [SessionCreateVirtualMachine].
Proof.
  unfold Session_CreateVirtualMachine. apply entered_after_enter.
  apply silent_try; [auto with silent | intros deviceSpecs]. cbv zeta.
  destruct (configSpecFromClassSpec _ _ _ _ _ _); [| constructor].
  apply silent_try_with; [apply createVm_no_enter | intros r; constructor].
Qed.

Lemma Session_CloneVirtualMachine_entered {W : Type} (h : Backend W)
    (w : W) (s : Session) (vm : VirtualMachine)
    (vmClass : VirtualMachineClassSpec) (vmMetadata : gmap string string)
    (profileID : string) :
  entered (trace (run h (Session_CloneVirtualMachine s vm vmClass
                                                     vmMetadata profileID) w))
    = [SessionCloneVirtualMachine].
Proof.
  unfold Session_CloneVirtualMachine. apply entered_after_enter. cbv zeta.
  destruct (contentlib s) as [lib |].
  - apply silent_try;
      [apply GetVirtualMachineImageFromCL_no_enter | intros image].
    apply silent_try_with; [apply deployOvf_no_enter | intros deployed].
    destruct deployed as [deployedVm |]; [| constructor].
    apply silent_try_with; [auto with silent | intros deviceSpecs].
    quiet.
  - apply silent_try; [auto with silent | intros resSrcVm].
    apply silent_try_with; [apply getCloneSpec_no_enter | intros cloneSpec].
    unfold cloneVm. quiet.
Qed.

(** ** Create *)

(** C2: once the provider has its session, a create with an empty image
    name enters [Session.CreateVirtualMachine] and nothing else, a create
    with an image name enters [Session.CloneVirtualMachine] and nothing
    else; each is entered once. *)
Theorem create_takes_exactly_one_path {W : Type} (h : Backend W) (w : W)
    (vm : VirtualMachine) (vmClass : VirtualMachineClassSpec)
    (vmMetadata : gmap string string) (profileID : string)
    (ses : Session) :
  fst (h (GetSession (Namespace vm)) w) = inl ses ->
  (ImageName (Spec vm) = "" ->
   entered (trace (run h (VSphereVmProvider_CreateVirtualMachine
                            vm vmClass vmMetadata profileID) w))
     = [SessionCreateVirtualMachine]) /\
  (ImageName (Spec vm) <> "" ->
   entered (trace (run h (VSphereVmProvider_CreateVirtualMachine
                            vm vmClass vmMetadata profileID) w))
     = [SessionCloneVirtualMachine]).
Proof.
  intros Hses.
  assert (Hrun :
    entered (trace (run h (VSphereVmProvider_CreateVirtualMachine
                             vm vmClass vmMetadata profileID) w))
      = entered (trace (run h
          (if String.eqb (ImageName (Spec vm)) ""
           then Session_CreateVirtualMachine ses vm vmClass vmMetadata
           else Session_CloneVirtualMachine ses vm vmClass vmMetadata
                                            profileID)
          (snd (h (GetSession (Namespace vm)) w))))).
  { unfold VSphereVmProvider_CreateVirtualMachine.
    rewrite run_bind, run_call. cbn [result trace final]. rewrite Hses.
    cbn [trace app]. change (entered (GetSession ?n :: ?t)) with (entered t).
    apply entered_bind. intros [resVm | err]; [| constructor].
    apply silent_bind; [apply getCustomizationSpecs_no_enter |].
    intros [custom | err]; [| constructor].
    apply silent_bind; [destruct custom; quiet |].
    intros [err |]; [constructor |].
    apply silent_bind; [apply mergeVmStatus_no_enter |].
    intros [vm' [err |]]; [constructor |].
    apply silent_bind; [apply addProviderAnnotations_no_enter |].
    intros vm''. constructor. }
  rewrite Hrun. split.
  - intros Hempty. rewrite Hempty. cbn [String.eqb].
    apply Session_CreateVirtualMachine_entered.
  - intros Himage.
    destruct (String.eqb (ImageName (Spec vm)) "") eqn:E.
    + apply String.eqb_eq in E. contradiction.
    + apply Session_CloneVirtualMachine_entered.
Qed.

(** Without a session nothing is entered: the error of the session
    manager is the result. *)
Lemma create_without_session {W : Type} (h : Backend W) (w : W)
    (vm : VirtualMachine) (vmClass : VirtualMachineClassSpec)
    (vmMetadata : gmap string string) (profileID : string) (err : error) :
  fst (h (GetSession (Namespace vm)) w) = inr err ->
  trace (run h (VSphereVmProvider_CreateVirtualMachine
                  vm vmClass vmMetadata profileID) w)
    = [GetSession (Namespace vm)] /\
  result (run h (VSphereVmProvider_CreateVirtualMachine
                   vm vmClass vmMetadata profileID) w)
    = Some (vm, Some err).
Proof.
  intros Hses. unfold VSphereVmProvider_CreateVirtualMachine.
  rewrite run_bind, run_call. cbn [result trace final]. rewrite Hses.
  split; reflexivity.
Qed.

(** ** Which programs return, and what *)





Lemma ends_weaken {A : Type} (Q R : A -> Prop) (p : Prog A) :
  (forall a, Q a -> R a) -> ends Q p -> ends R p.
Proof. intros HQR. induction 1; constructor; auto. Qed.


Lemma try_is_try_with {A B : Type} (p : Prog (Result A))
    (f : A -> Prog (Result B)) :
  try p f = try_with p (fun e => e) f.
Proof. reflexivity. Qed.












(** ** The metadata transport *)

Lemma configSpecFromClassSpec_rejects (s : Session) (name : string)
    (vmSpec : VirtualMachineSpec) (vmClassSpec : VirtualMachineClassSpec)
    (metadata : gmap string string)
    (deviceSpecs : list VirtualDeviceConfigSpec)
    (md : VirtualMachineMetadata) :
  VmMetadata vmSpec = Some md ->
  Transport md <> "ExtraConfig" ->
  configSpecFromClassSpec s name vmSpec vmClassSpec metadata deviceSpecs
    = inr (Errorf "unsupported metadata transport %q" [Transport md]).
Proof.
  intros Hmd Hne. unfold configSpecFromClassSpec. rewrite Hmd.
  destruct (String.eqb (Transport md) "ExtraConfig") eqn:E;
    [apply String.eqb_eq in E; contradiction | reflexivity].
Qed.

(** The transport [ExtraConfig], and a specification without metadata,
    do give a descriptor. *)
Lemma configSpecFromClassSpec_accepts (s : Session) (name : string)
    (vmSpec : VirtualMachineSpec) (vmClassSpec : VirtualMachineClassSpec)
    (metadata : gmap string string)
    (deviceSpecs : list VirtualDeviceConfigSpec) :
  (forall md, VmMetadata vmSpec = Some md -> Transport md = "ExtraConfig") ->
  exists configSpec,
    configSpecFromClassSpec s name vmSpec vmClassSpec metadata deviceSpecs
      = inl configSpec /\
    ConfigName configSpec = name /\
    MemoryMB configSpec = memoryQuantityToMb (HardwareMemory vmClassSpec) /\
    DeviceChange configSpec = deviceSpecs.
Proof.
  intros Hmd. unfold configSpecFromClassSpec.
  destruct (VmMetadata vmSpec) as [md |].
  - rewrite (Hmd md eq_refl). cbn [String.eqb Ascii.eqb Bool.eqb].
    eexists. split; [reflexivity |]. repeat split.
  - eexists. split; [reflexivity |]. repeat split.
Qed.

Section Rejected.

Variables (vm : VirtualMachine) (vmClass : VirtualMachineClassSpec)
  (vmMetadata : gmap string string) (md : VirtualMachineMetadata).
Hypothesis Hmd : VmMetadata (Spec vm) = Some md.
Hypothesis Hne : Transport md <> "ExtraConfig".









End Rejected.


(** Where the devices of the create can be made, the error of the create
    is the error of the transport itself. *)
Lemma create_reports_transport {W : Type} (h : Backend W) (w : W)
    (s : Session) (vm : VirtualMachine) (vmClass : VirtualMachineClassSpec)
    (vmMetadata : gmap string string) (md : VirtualMachineMetadata)
    (deviceSpecs : list VirtualDeviceConfigSpec) :
  VmMetadata (Spec vm) = Some md ->
  Transport md <> "ExtraConfig" ->
  result (run h (deviceSpecsFromVM s vm)
              (snd (h (Enter SessionCreateVirtualMachine) w)))
    = Some (inl deviceSpecs) ->
  result (run h (Session_CreateVirtualMachine s vm vmClass vmMetadata) w)
    = Some (inr (Errorf "unsupported metadata transport %q"
                        [Transport md])).
Proof.
  intros Hmd Hne Hdev. unfold Session_CreateVirtualMachine.
  unfold call at 1. cbn [bind run].
  destruct (h (Enter SessionCreateVirtualMachine) w) as [r w'].
  cbn [snd result] in *. unfold try. rewrite run_bind, Hdev. cbv zeta.
  rewrite (configSpecFromClassSpec_rejects _ _ _ _ _ _ md) by assumption.
  reflexivity.
Qed.


(** ** Properties of every run *)

Lemma always_mono {A : Type} (p : Prog A)
    (Q R : list Call -> option A -> Prop) :
  (forall tr a, Q tr a -> R tr a) -> always p Q -> always p R.
Proof.
  revert Q R. induction p as [a | c k IH | msg]; intros Q R HQR; simpl.
  - apply HQR.
  - intros Hk r. eapply IH; [| apply Hk]. intros tr a. apply HQR.
  - apply HQR.
Qed.

Lemma always_run {W A : Type} (p : Prog A)
    (Q : list Call -> option A -> Prop) :
  always p Q ->
  forall (h : Backend W) (w : W),
    Q (trace (run h p w)) (result (run h p w)).
Proof.
  revert Q. induction p as [a | c k IH | msg]; intros Q Hp h w; simpl.
  - exact Hp.
  - destruct (h c w) as [r w']. simpl. apply (IH r _ (Hp r)).
  - exact Hp.
Qed.

Lemma always_bind {A B : Type} (p : Prog A) (f : A -> Prog B)
    (Q : list Call -> option B -> Prop) :
  always p (fun tr a =>
              match a with
              | Some a => always (f a) (fun tr' b => Q (tr ++ tr') b)
              | None => Q tr None
              end) ->
  always (bind p f) Q.
Proof.
  revert Q. induction p as [a | c k IH | msg]; intros Q; simpl.
  - intros H. exact H.
  - intros H r. apply IH. eapply always_mono; [| apply H].
    intros tr [a |]; simpl; auto.
  - intros H. exact H.
Qed.

Lemma always_call (c : Call) (Q : list Call -> option (Resp c) -> Prop) :
  (forall r, Q [c] (Some r)) -> always (call c) Q.
Proof. intros H r. simpl. apply H. Qed.

(** *** The extra configuration *)

Lemma GetExtraConfig_elem (vmSpecMeta : gmap string string)
    (globalMeta : option (gmap string string)) (k v : string) :
  (k, v) ∈ GetExtraConfig vmSpecMeta globalMeta <->
  vmSpecMeta !! k = Some v \/
  (vmSpecMeta !! k = None /\
   exists g, globalMeta = Some g /\ g !! k = Some v).
Proof.
  unfold GetExtraConfig. rewrite elem_of_map_to_list.
  destruct globalMeta as [g |].
  - rewrite lookup_union_Some_raw. split.
    + intros [H | [Hn Hg]]; [left; exact H | right; eauto].
    + intros [H | (Hn & g' & [= <-] & Hg)]; [left; exact H | right; auto].
  - split; [intros H; left; exact H |].
    intros [H | (_ & g & [=] & _)]. exact H.
Qed.

(** The pairs of [GetExtraConfig] are those of the metadata of the
    virtual machine, and those of the global configuration whose key the
    metadata do not have: where both have a key, the value of the virtual
    machine is the one that is kept. No key comes twice. *)
Theorem GetExtraConfig_overrides (vmSpecMeta : gmap string string)
    (globalMeta : option (gmap string string)) :
  NoDup (map fst (GetExtraConfig vmSpecMeta globalMeta)) /\
  forall k v,
    (k, v) ∈ GetExtraConfig vmSpecMeta globalMeta <->
    vmSpecMeta !! k = Some v \/
    (vmSpecMeta !! k = None /\
     exists g, globalMeta = Some g /\ g !! k = Some v).
Proof.
  split.
  - unfold GetExtraConfig. apply NoDup_fst_map_to_list.
  - apply GetExtraConfig_elem.
Qed.

(** The extra configuration of a descriptor: when
    [configSpecFromClassSpec] returns a descriptor, a pair is in its
    [ExtraConfig] exactly when the specification has metadata and the pair
    is one of the metadata of the virtual machine, or one of the global
    configuration of the session whose key those metadata do not have.
    For a specification without metadata nothing is set, the global
    configuration of the session included. *)
Theorem descriptor_extra_config (s : Session) (name : string)
    (vmSpec : VirtualMachineSpec) (vmClassSpec : VirtualMachineClassSpec)
    (metadata : gmap string string)
    (deviceSpecs : list VirtualDeviceConfigSpec)
    (configSpec : VirtualMachineConfigSpec) :
  configSpecFromClassSpec s name vmSpec vmClassSpec metadata deviceSpecs
    = inl configSpec ->
  forall k v,
    (k, v) ∈ ExtraConfig configSpec <->
    VmMetadata vmSpec <> None /\
    (metadata !! k = Some v \/
     (metadata !! k = None /\
      exists g, extraConfig s = Some g /\ g !! k = Some v)).
Proof.
  unfold configSpecFromClassSpec. intros H k v.
  destruct (VmMetadata vmSpec) as [md |].
  - destruct (String.eqb (Transport md) "ExtraConfig"); [| discriminate].
    injection H as <-. cbn [ExtraConfig]. rewrite GetExtraConfig_elem.
    split; [intros Hkv; split; [discriminate | exact Hkv] | intros [_ Hkv]];
      exact Hkv.
  - injection H as <-. cbn [ExtraConfig]. split.
    + intros Hin. inversion Hin.
    + intros [Hne _]. contradiction.
Qed.

Lemma always_try_with {A B : Type} (p : Prog (Result A))
    (wrap : error -> error) (f : A -> Prog (Result B))
    (Q : list Call -> option (Result B) -> Prop) :
  always p (fun tr a =>
              match a with
              | Some (inl x) => always (f x) (fun tr' b => Q (tr ++ tr') b)
              | Some (inr e) => Q tr (Some (inr (wrap e)))
              | None => Q tr None
              end) ->
  always (try_with p wrap f) Q.
Proof.
  intros H. unfold try_with. apply always_bind.
  eapply always_mono; [| apply H].
  intros tr [[x | e] |]; simpl; auto.
  rewrite app_nil_r. auto.
Qed.

Lemma always_try {A B : Type} (p : Prog (Result A))
    (f : A -> Prog (Result B))
    (Q : list Call -> option (Result B) -> Prop) :
  always p (fun tr a =>
              match a with
              | Some (inl x) => always (f x) (fun tr' b => Q (tr ++ tr') b)
              | Some (inr e) => Q tr (Some (inr e))
              | None => Q tr None
              end) ->
  always (try p f) Q.
Proof. rewrite try_is_try_with. apply always_try_with. Qed.

Lemma silent_always {A : Type} (P : Call -> bool) (p : Prog A) :
  silent P p ->
  always p (fun tr _ => Forall (fun c => P c = false) tr).
Proof.
  induction 1 as [a | msg | c k Hc Hk IH]; simpl.
  - constructor.
  - constructor.
  - intros r. eapply always_mono; [| apply IH].
    intros tr a Htr. constructor; assumption.
Qed.

Lemma always_and {A : Type} (p : Prog A)
    (Q R : list Call -> option A -> Prop) :
  always p Q -> always p R -> always p (fun tr a => Q tr a /\ R tr a).
Proof.
  revert Q R. induction p as [a | c k IH | msg]; intros Q R; simpl.
  - auto.
  - intros HQ HR r. apply (IH r _ _ (HQ r) (HR r)).
  - auto.
Qed.

(** *** Create from scratch *)

Lemma createVm_always (s : Session) (name : string)
    (configSpec : VirtualMachineConfigSpec) :
  always (createVm s name configSpec)
    (fun tr r =>
       forall resVm, r = Some (inl resVm) ->
       tr = [VmCreate (NewVMForCreate name) (folder s) (resourcepool s)
               (setFiles configSpec ("[" +:+ datastore s +:+ "]"));
             VmSetPowerState resVm VirtualMachinePoweredOn]).
Proof.
  unfold createVm. cbv zeta. apply always_try, always_call.
  intros [resVm | e]; simpl.
  - intros [e |]; intros resVm' [=]. subst. reflexivity.
  - intros resVm' [=].
Qed.

Lemma Session_CreateVirtualMachine_always (s : Session)
    (vm : VirtualMachine) (vmClass : VirtualMachineClassSpec)
    (vmMetadata : gmap string string) :
  always (Session_CreateVirtualMachine s vm vmClass vmMetadata)
    (fun tr r =>
       forall resVm, r = Some (inl resVm) ->
       exists before configSpec,
         tr = before ++
              [VmCreate (NewVMForCreate (Name vm)) (folder s)
                        (resourcepool s) configSpec;
               VmSetPowerState resVm VirtualMachinePoweredOn] /\
         leavesBackendAlone before /\
         ConfigName configSpec = Name vm /\
         Files configSpec = Some ("[" +:+ datastore s +:+ "]")).
Proof.
  unfold Session_CreateVirtualMachine.
  apply always_bind, always_call. intros _. cbv zeta.
  apply always_try.
  eapply always_mono;
    [| apply (silent_always changesBackend), deviceSpecsFromVM_silent;
       reflexivity].
  intros tr [[deviceSpecs | e] |] Htr; [| intros ? [=] ..].
  destruct (configSpecFromClassSpec s (Name vm) (Spec vm) vmClass vmMetadata
              deviceSpecs) as [configSpec | e] eqn:Hcfg;
    [| intros ? [=]].
  apply always_try_with.
  eapply always_mono; [| apply createVm_always].
  intros tr' [[resVm | e] |] Hcreate; simpl; [| intros ? [=] ..].
  intros resVm' [= <-].
  exists (Enter SessionCreateVirtualMachine :: tr), (setFiles configSpec
    ("[" +:+ datastore s +:+ "]")).
  rewrite (Hcreate resVm eq_refl), app_nil_r. split; [reflexivity |].
  split; [constructor; [reflexivity | exact Htr] |].
  unfold configSpecFromClassSpec in Hcfg.
  destruct (VmMetadata (Spec vm)) as [md |];
    [destruct (String.eqb (Transport md) "ExtraConfig"); [| discriminate] |];
    injection Hcfg as <-; split; reflexivity.
Qed.

(** A virtual machine made from scratch is powered on. When
    [Session.CreateVirtualMachine] returns a handle, the run has ended
    with the creation of the virtual machine, in the folder and the
    resource pool of the session and with its files on the datastore of
    the session, followed by the request to power that handle on; no call
    before these two makes or changes a virtual machine. The power state
    of the specification is not looked at. *)
Theorem create_from_scratch_powers_on {W : Type} (h : Backend W) (w : W)
    (s : Session) (vm : VirtualMachine) (vmClass : VirtualMachineClassSpec)
    (vmMetadata : gmap string string) (resVm : ResVirtualMachine) :
  result (run h (Session_CreateVirtualMachine s vm vmClass vmMetadata) w)
    = Some (inl resVm) ->
  exists before configSpec,
    trace (run h (Session_CreateVirtualMachine s vm vmClass vmMetadata) w)
      = before ++
        [VmCreate (NewVMForCreate (Name vm)) (folder s) (resourcepool s)
                  configSpec;
         VmSetPowerState resVm VirtualMachinePoweredOn] /\
    leavesBackendAlone before /\
    ConfigName configSpec = Name vm /\
    Files configSpec = Some ("[" +:+ datastore s +:+ "]").
Proof.
  exact (always_run _ _
           (Session_CreateVirtualMachine_always s vm vmClass vmMetadata)
           h w resVm).
Qed.

(** *** Storage profile and clone specification *)

Lemma processStorageClass_always (resSrcVM : ResVirtualMachine)
    (profileID : string) :
  always (processStorageClass resSrcVM profileID)
    (fun tr r =>
       forall vdcs vmProfile, r = Some (inl (vdcs, vmProfile)) ->
       (profileID = "" /\ vdcs = [] /\ vmProfile = [] /\ tr = []) \/
       (profileID <> "" /\ vmProfile = [profileID] /\
        Forall (fun cs => Profile cs = [profileID] /\ FileOperation cs = "")
               vdcs /\
        exists disks,
          tr = [VmGetVirtualDisks resSrcVM;
                DisksConfigSpec disks VirtualDeviceConfigSpecOperationEdit])).
Proof.
  unfold processStorageClass. destruct profileID as [| a profileID].
  - simpl. intros vdcs vmProfile [= <- <-]. left. auto.
  - cbn [String.length Nat.eqb]. apply always_try, always_call.
    intros [disks | e]; [| intros ? ? [=]].
    apply always_try, always_call.
    intros [vdcs | e]; [| intros ? ? [=]].
    cbv zeta. simpl. intros vdcs' vmProfile [= <- <-]. right.
    split; [discriminate |]. split; [reflexivity |].
    split; [| exists disks; reflexivity].
    induction vdcs as [| cs vdcs IH]; constructor;
      [split; reflexivity | exact IH].
Qed.

(** The storage profile of a clone. With an empty profile identifier
    [processStorageClass] asks the backend nothing and returns no disk
    change and no profile. With any other identifier it lists the disks
    of the source and asks for their edit specifications, and what it
    returns is the one-element profile list and disk changes that each
    carry exactly that profile and an empty file operation. *)
Theorem storage_profile_on_every_disk {W : Type} (h : Backend W) (w : W)
    (resSrcVM : ResVirtualMachine) (profileID : string)
    (vdcs : list VirtualDeviceConfigSpec) (vmProfile : list string) :
  result (run h (processStorageClass resSrcVM profileID) w)
    = Some (inl (vdcs, vmProfile)) ->
  (profileID = "" /\ vdcs = [] /\ vmProfile = [] /\
   trace (run h (processStorageClass resSrcVM profileID) w) = []) \/
  (profileID <> "" /\ vmProfile = [profileID] /\
   Forall (fun cs => Profile cs = [profileID] /\ FileOperation cs = "")
          vdcs /\
   exists disks,
     trace (run h (processStorageClass resSrcVM profileID) w)
       = [VmGetVirtualDisks resSrcVM;
          DisksConfigSpec disks VirtualDeviceConfigSpecOperationEdit]).
Proof.
  exact (always_run _ _ (processStorageClass_always resSrcVM profileID)
           h w vdcs vmProfile).
Qed.

Lemma processStorageClass_profile (resSrcVM : ResVirtualMachine)
    (profileID : string) :
  always (processStorageClass resSrcVM profileID)
    (fun tr r =>
       Forall (fun c => changesBackend c = false) tr /\
       forall x, r = Some (inl x) ->
         snd x = if decide (profileID = "") then [] else [profileID]).
Proof.
  apply always_and.
  - apply silent_always. apply processStorageClass_silent; reflexivity.
  - eapply always_mono; [| apply processStorageClass_always].
    intros tr r H [vdcs vmProfile] ->. cbn [snd].
    destruct (H vdcs vmProfile eq_refl) as [(-> & _ & -> & _) | (Hne & -> & _)].
    + reflexivity.
    + destruct (decide (profileID = "")); [contradiction | reflexivity].
Qed.

Lemma getCloneSpec_always (s : Session) (name : string)
    (resSrcVM : ResVirtualMachine) (vm : VirtualMachine)
    (vmClassSpec : VirtualMachineClassSpec)
    (vmMetadata : gmap string string) (profileID : string) :
  always (getCloneSpec s name resSrcVM vm vmClassSpec vmMetadata profileID)
    (fun tr r =>
       forall cloneSpec, r = Some (inl cloneSpec) ->
       PowerOn cloneSpec
         = String.eqb (PowerState (Spec vm)) VirtualMachinePoweredOn /\
       CloneMemory cloneSpec = Some false /\
       ConfigName (Config cloneSpec) = name /\
       DeviceChange (Config cloneSpec) = [] /\
       Pool (Location cloneSpec) = resourcepool s /\
       Folder (Location cloneSpec) = folder s /\
       LocationProfile (Location cloneSpec)
         = (if decide (profileID = "") then [] else [profileID]) /\
       exists before vmRef asked,
         tr = before ++ [ComputeVMPlacement (cluster s) vmRef asked] /\
         leavesBackendAlone before /\
         Host (Location asked) = None /\
         Datastore (Location asked) = None).
Proof.
  unfold getCloneSpec. apply always_try.
  eapply always_mono; [| apply processStorageClass_profile].
  intros tr1 [[storage | e] |] [Htr1 Hprofile]; [| intros ? [=] ..].
  specialize (Hprofile storage eq_refl). cbv zeta.
  apply always_try.
  eapply always_mono;
    [| apply (silent_always changesBackend), deviceChangeSpecs_silent;
       reflexivity].
  intros tr2 [[deviceSpecs | e] |] Htr2; [| intros ? [=] ..].
  destruct (configSpecFromClassSpec s name (Spec vm) vmClassSpec vmMetadata [])
    as [configSpec | e] eqn:Hcfg; [| intros ? [=]].
  apply always_bind. unfold ReferenceValue.
  destruct (vcVirtualMachine resSrcVM) as [o |]; [| intros ? [=]].
  cbn [always]. apply always_try, always_call.
  intros [rSpec | e]; [| intros ? [=]].
  cbn [always]. intros cloneSpec [= <-]. cbn.
  assert (Hname : ConfigName configSpec = name /\ DeviceChange configSpec = []).
  { unfold configSpecFromClassSpec in Hcfg.
    destruct (VmMetadata (Spec vm)) as [md |];
      [destruct (String.eqb (Transport md) "ExtraConfig"); [| discriminate] |];
      injection Hcfg as <-; split; reflexivity. }
  destruct Hname as [Hname Hdev].
  repeat (split; [first [reflexivity | assumption] |]).
  eexists (tr1 ++ tr2), _, _.
  rewrite <- app_assoc. split; [reflexivity |].
  split; [apply Forall_app; split; assumption |]. split; reflexivity.
Qed.

(** The parts of a clone specification, by the runs that make them: the
    disk changes of the storage profile, the device changes of the
    network, the descriptor of the class and the answer of the
    placement. *)
Lemma getCloneSpec_parts {W : Type} (h : Backend W) (w : W) (s : Session)
    (name : string) (resSrcVM : ResVirtualMachine) (vm : VirtualMachine)
    (vmClassSpec : VirtualMachineClassSpec)
    (vmMetadata : gmap string string) (profileID : string)
    (cloneSpec : VirtualMachineCloneSpec) :
  result (run h (getCloneSpec s name resSrcVM vm vmClassSpec vmMetadata
                              profileID) w)
    = Some (inl cloneSpec) ->
  exists vdcs vmProfile deviceSpecs o asked rSpec,
    let storage := run h (processStorageClass resSrcVM profileID) w in
    let devices :=
      run h (deviceChangeSpecs s vm resSrcVM) (final storage) in
    result storage = Some (inl (vdcs, vmProfile)) /\
    result devices = Some (inl deviceSpecs) /\
    vcVirtualMachine resSrcVM = Some o /\
    configSpecFromClassSpec s name (Spec vm) vmClassSpec vmMetadata []
      = inl (Config cloneSpec) /\
    fst (h (ComputeVMPlacement (cluster s) (ObjectRef o) asked)
           (final devices)) = inl rSpec /\
    trace (run h (getCloneSpec s name resSrcVM vm vmClassSpec vmMetadata
                               profileID) w)
      = trace storage ++ trace devices
        ++ [ComputeVMPlacement (cluster s) (ObjectRef o) asked] /\
    LocationDeviceChange (Location cloneSpec) = deviceSpecs ++ vdcs /\
    LocationProfile (Location cloneSpec) = vmProfile /\
    Host (Location cloneSpec) = Host rSpec /\
    Datastore (Location cloneSpec) = Datastore rSpec /\
    Config asked = Config cloneSpec /\
    PowerOn asked = PowerOn cloneSpec /\
    CloneMemory asked = CloneMemory cloneSpec /\
    Pool (Location asked) = Pool (Location cloneSpec) /\
    Folder (Location asked) = Folder (Location cloneSpec) /\
    LocationProfile (Location asked) = vmProfile /\
    LocationDeviceChange (Location asked) = deviceSpecs ++ vdcs /\
    Host (Location asked) = None /\
    Datastore (Location asked) = None.
Proof.
  unfold getCloneSpec, try. rewrite run_bind.
  destruct (run h (processStorageClass resSrcVM profileID) w)
    as [tr1 w1 [[[vdcs vmProfile] | e] |]]; cbn [trace final result];
    [| intros [=] ..].
  cbv zeta. cbn [fst snd]. rewrite run_bind.
  destruct (run h (deviceChangeSpecs s vm resSrcVM) w1)
    as [tr2 w2 [[deviceSpecs | e] |]]; cbn [trace final result];
    [| intros [=] ..].
  destruct (configSpecFromClassSpec s name (Spec vm) vmClassSpec vmMetadata [])
    as [configSpec | e]; [| intros [=]].
  unfold ReferenceValue.
  destruct (vcVirtualMachine resSrcVM) as [o |]; [| intros [=]].
  unfold call. cbn [bind run].
  destruct (h (ComputeVMPlacement (cluster s) (ObjectRef o) _) w2)
    as [[rSpec | e] w3] eqn:Hplace; cbn [bind run trace final result];
    [| intros [=]].
  intros [= <-].
  exists vdcs, vmProfile, deviceSpecs, o. eexists _, rSpec. cbv zeta.
  rewrite Hplace. cbn. rewrite ?app_nil_r. repeat split.
Qed.

(** The clone specification. When [getCloneSpec] returns a
    specification, the clone is powered on exactly when the power state
    of the specification is [VirtualMachinePoweredOn] (an empty power
    state gives a clone that stays off), memory is not cloned, the
    descriptor is the one of the class under the name, with no device
    change, pool and folder are those of the session, and the storage
    profile is the one asked for. The device changes travel in the
    location: they are the changes [deviceChangeSpecs] returned followed
    by the disk changes [processStorageClass] returned. The last call of
    the run is the placement computation on the cluster of the session
    for the source of the clone, asked with this very specification with
    no host and no datastore chosen; host and datastore of the
    specification returned are those of its answer. No call before it
    makes or changes a virtual machine. *)
Theorem clone_spec_shape {W : Type} (h : Backend W) (w : W) (s : Session)
    (name : string) (resSrcVM : ResVirtualMachine) (vm : VirtualMachine)
    (vmClassSpec : VirtualMachineClassSpec)
    (vmMetadata : gmap string string) (profileID : string)
    (cloneSpec : VirtualMachineCloneSpec) :
  result (run h (getCloneSpec s name resSrcVM vm vmClassSpec vmMetadata
                              profileID) w)
    = Some (inl cloneSpec) ->
  PowerOn cloneSpec
    = String.eqb (PowerState (Spec vm)) VirtualMachinePoweredOn /\
  CloneMemory cloneSpec = Some false /\
  ConfigName (Config cloneSpec) = name /\
  DeviceChange (Config cloneSpec) = [] /\
  Pool (Location cloneSpec) = resourcepool s /\
  Folder (Location cloneSpec) = folder s /\
  LocationProfile (Location cloneSpec)
    = (if decide (profileID = "") then [] else [profileID]) /\
  (exists before vmRef asked,
     trace (run h (getCloneSpec s name resSrcVM vm vmClassSpec vmMetadata
                                profileID) w)
       = before ++ [ComputeVMPlacement (cluster s) vmRef asked] /\
     leavesBackendAlone before /\
     Host (Location asked) = None /\
     Datastore (Location asked) = None) /\
  exists vdcs vmProfile deviceSpecs o asked rSpec,
    let storage := run h (processStorageClass resSrcVM profileID) w in
    let devices :=
      run h (deviceChangeSpecs s vm resSrcVM) (final storage) in
    result storage = Some (inl (vdcs, vmProfile)) /\
    result devices = Some (inl deviceSpecs) /\
    vcVirtualMachine resSrcVM = Some o /\
    configSpecFromClassSpec s name (Spec vm) vmClassSpec vmMetadata []
      = inl (Config cloneSpec) /\
    fst (h (ComputeVMPlacement (cluster s) (ObjectRef o) asked)
           (final devices)) = inl rSpec /\
    trace (run h (getCloneSpec s name resSrcVM vm vmClassSpec vmMetadata
                               profileID) w)
      = trace storage ++ trace devices
        ++ [ComputeVMPlacement (cluster s) (ObjectRef o) asked] /\
    LocationDeviceChange (Location cloneSpec) = deviceSpecs ++ vdcs /\
    LocationProfile (Location cloneSpec) = vmProfile /\
    Host (Location cloneSpec) = Host rSpec /\
    Datastore (Location cloneSpec) = Datastore rSpec /\
    Config asked = Config cloneSpec /\
    PowerOn asked = PowerOn cloneSpec /\
    CloneMemory asked = CloneMemory cloneSpec /\
    Pool (Location asked) = Pool (Location cloneSpec) /\
    Folder (Location asked) = Folder (Location cloneSpec) /\
    LocationProfile (Location asked) = vmProfile /\
    LocationDeviceChange (Location asked) = deviceSpecs ++ vdcs /\
    Host (Location asked) = None /\
    Datastore (Location asked) = None.
Proof.
  intros Hrun.
  destruct (always_run _ _
              (getCloneSpec_always s name resSrcVM vm vmClassSpec vmMetadata
                                   profileID)
              h w cloneSpec Hrun)
    as (H1 & H2 & H3 & H4 & H5 & H6 & H7 & H8).
  repeat (split; [assumption |]).
  exact (getCloneSpec_parts h w s name resSrcVM vm vmClassSpec vmMetadata
           profileID cloneSpec Hrun).
Qed.

(** *** Guest customization *)

Lemma nsxtInterfaces_cons (nif : VirtualMachineNetworkInterface)
    (nifs : list VirtualMachineNetworkInterface) :
  nsxtInterfaces (nif :: nifs)
    = if String.eqb (NetworkType nif) NsxtNetworkType
      then nif :: nsxtInterfaces nifs else nsxtInterfaces nifs.
Proof.
  unfold nsxtInterfaces. rewrite filter_cons.
  destruct (String.eqb_spec (NetworkType nif) NsxtNetworkType) as [Heq | Hne];
    destruct (decide (NetworkType nif = NsxtNetworkType));
    congruence.
Qed.

Lemma waitForVnetIFs_always (namespace vmName : string)
    (nifs : list VirtualMachineNetworkInterface) :
  forall vnifs,
    always (waitForVnetIFs namespace vmName nifs vnifs)
      (fun tr r =>
         forall l, r = Some (inl l) ->
         tr = map (fun nif =>
                     WaitForVnetIFStatus namespace (NetworkName nif) vmName)
                  (nsxtInterfaces nifs) /\
         length l = (length vnifs + length (nsxtInterfaces nifs))%nat).
Proof.
  induction nifs as [| nif nifs IH]; intros vnifs.
  - simpl. intros l [= <-]. split; [reflexivity | cbn; lia].
  - cbn [waitForVnetIFs]. rewrite nsxtInterfaces_cons.
    destruct (String.eqb (NetworkType nif) NsxtNetworkType).
    + apply always_try, always_call.
      intros [vnetif | e]; [| intros ? [=]].
      eapply always_mono; [| apply IH].
      intros tr r H l Hl. destruct (H l Hl) as [-> Hlen].
      split; [reflexivity |].
      rewrite Hlen, length_app. cbn. lia.
    + apply IH.
Qed.

Lemma nicSettings_length (vnifs : list VirtualNetworkInterface) :
  (length (nicSettings vnifs) <= length vnifs)%nat.
Proof.
  unfold nicSettings. induction vnifs as [| vnetif vnifs IH]; [cbn; lia |].
  cbn [flat_map]. rewrite length_app. cbn [length].
  destruct (IPAddresses vnetif) as [| ip [| ip' ips]]; cbn [length]; lia.
Qed.

Lemma getCustomizationSpecs_always (s : Session) (namespace vmName : string)
    (vmSpec : VirtualMachineSpec) :
  always (getCustomizationSpecs s namespace vmName vmSpec)
    (fun tr r =>
       forall custom, r = Some (inl custom) ->
       tr = map (fun nif =>
                   WaitForVnetIFStatus namespace (NetworkName nif) vmName)
                (nsxtInterfaces (NetworkInterfaces vmSpec)) /\
       match custom with
       | None => nsxtInterfaces (NetworkInterfaces vmSpec) = []
       | Some custom =>
           nsxtInterfaces (NetworkInterfaces vmSpec) <> [] /\
           HostName custom = vmName /\
           HwClockUTC custom = true /\
           (length (NicSettingMap custom)
              <= length (nsxtInterfaces (NetworkInterfaces vmSpec)))%nat
       end).
Proof.
  unfold getCustomizationSpecs. apply always_try.
  eapply always_mono; [| apply waitForVnetIFs_always].
  intros tr [[vnifs | e] |] H; [| intros ? [=] ..].
  destruct (H vnifs eq_refl) as [-> Hlen]. cbn [length Nat.add] in Hlen.
  destruct (Nat.eqb_spec (length vnifs) 0) as [H0 | H0]; simpl;
    intros custom [= <-]; rewrite app_nil_r; (split; [reflexivity |]).
  - rewrite H0 in Hlen. symmetry in Hlen.
    apply length_zero_iff_nil in Hlen. exact Hlen.
  - split.
    + intros Hnil. rewrite Hnil in Hlen. cbn in Hlen. lia.
    + cbn. split; [reflexivity |]. split; [reflexivity |].
      rewrite <- Hlen. apply nicSettings_length.
Qed.

(** Guest customization follows the NSX-T interfaces. When
    [getCustomizationSpecs] returns, it has waited once for each
    interface of the specification whose network type is the NSX-T one,
    in their order, and made no other call. It returns no customization
    exactly when the specification has no such interface (without a call
    then); otherwise the customization carries the name of the virtual
    machine as host name, a UTC hardware clock and at most one adapter
    setting for each of these interfaces. *)
Theorem customization_follows_nsxt_interfaces {W : Type} (h : Backend W)
    (w : W) (s : Session) (namespace vmName : string)
    (vmSpec : VirtualMachineSpec) (custom : option CustomizationSpec) :
  result (run h (getCustomizationSpecs s namespace vmName vmSpec) w)
    = Some (inl custom) ->
  trace (run h (getCustomizationSpecs s namespace vmName vmSpec) w)
    = map (fun nif => WaitForVnetIFStatus namespace (NetworkName nif) vmName)
          (nsxtInterfaces (NetworkInterfaces vmSpec)) /\
  match custom with
  | None => nsxtInterfaces (NetworkInterfaces vmSpec) = []
  | Some custom =>
      nsxtInterfaces (NetworkInterfaces vmSpec) <> [] /\
      HostName custom = vmName /\
      HwClockUTC custom = true /\
      (length (NicSettingMap custom)
         <= length (nsxtInterfaces (NetworkInterfaces vmSpec)))%nat
  end.
Proof.
  exact (always_run _ _
           (getCustomizationSpecs_always s namespace vmName vmSpec)
           h w custom).
Qed.

(** *** Provider: existence, update, create *)


(** The existence check of the provider. Once the session is obtained,
    [DoesVirtualMachineExist] is the lookup of the virtual machine and
    nothing else: a lookup that finds the machine gives true, a lookup
    that ends in a not-found error gives false and no error, and any
    other error of the lookup is returned as it is. No call of the check
    makes or changes a virtual machine. *)
Theorem existence_check_reads_lookup {W : Type} (h : Backend W) (w : W)
    (namespace name : string) (ses : Session) :
  fst (h (GetSession namespace) w) = inl ses ->
  result (run h (DoesVirtualMachineExist namespace name) w)
    = match result (run h (lookupVm ses name)
                        (snd (h (GetSession namespace) w))) with
      | Some (inl _) => Some (inl true)
      | Some (inr err) =>
          if isNotFound err then Some (inl false) else Some (inr err)
      | None => None
      end /\
  trace (run h (DoesVirtualMachineExist namespace name) w)
    = GetSession namespace
        :: trace (run h (lookupVm ses name)
                      (snd (h (GetSession namespace) w))) /\
  leavesBackendAlone (trace (run h (DoesVirtualMachineExist namespace name) w)).
Proof.
  intros Hses.
  assert (Hrun :
    run h (DoesVirtualMachineExist namespace name) w
    = let o := run h (lookupVm ses name) (snd (h (GetSession namespace) w)) in
      {| trace := GetSession namespace :: trace o;
         final := final o;
         result := match result o with
                   | Some (inl _) => Some (inl true)
                   | Some (inr err) =>
                       if isNotFound err then Some (inl false)
                       else Some (inr err)
                   | None => None
                   end |}).
  { unfold DoesVirtualMachineExist, try. unfold call. cbn [bind run].
    destruct (h (GetSession namespace) w) as [r w']. cbn [fst snd] in *.
    subst r. unfold Session_GetVirtualMachine. rewrite run_bind. cbv zeta.
    destruct (run h (lookupVm ses name) w') as [tr w'' [[resVm | err] |]];
      cbn [trace result final];
      [| destruct err | ]; cbn [run trace result final isNotFound];
      rewrite ?app_nil_r; reflexivity. }
  rewrite Hrun. cbv zeta. cbn [trace result].
  split; [reflexivity |]. split; [reflexivity |].
  constructor; [reflexivity |].
  apply silent_run. apply lookupVm_silent; reflexivity.
Qed.

(** A clone from an image that the inventory does not have. On a session
    without content library, when the lookup of the image named in the
    specification ends in a not-found error, [CreateVirtualMachine] stops
    there and leaves the virtual machine as it was. The error it returns
    is the NotFound of the kind VirtualMachine under the namespaced name
    of the virtual machine that was to be created: the name of the image
    that is missing is not in it. *)
Theorem create_from_missing_image {W : Type} (h : Backend W) (w : W)
    (vm : VirtualMachine) (vmClass : VirtualMachineClassSpec)
    (vmMetadata : gmap string string) (profileID : string) (ses : Session)
    (err : error) :
  ImageName (Spec vm) <> "" ->
  fst (h (GetSession (Namespace vm)) w) = inl ses ->
  contentlib ses = None ->
  fst (h (FinderVirtualMachine (ImageName (Spec vm)))
         (snd (h (Enter SessionCloneVirtualMachine)
                 (snd (h (GetSession (Namespace vm)) w))))) = inr err ->
  isNotFound err = true ->
  result (run h (VSphereVmProvider_CreateVirtualMachine
                   vm vmClass vmMetadata profileID) w)
    = Some (vm, Some (StatusNotFound VirtualMachineKind (NamespacedName vm)))
  /\
  trace (run h (VSphereVmProvider_CreateVirtualMachine
                  vm vmClass vmMetadata profileID) w)
    = [GetSession (Namespace vm); Enter SessionCloneVirtualMachine;
       FinderVirtualMachine (ImageName (Spec vm))].
Proof.
  intros Himg Hses Hlib Hfind Hnf.
  assert (Hrun :
    run h (VSphereVmProvider_CreateVirtualMachine
             vm vmClass vmMetadata profileID) w
    = {| trace := [GetSession (Namespace vm);
                   Enter SessionCloneVirtualMachine;
                   FinderVirtualMachine (ImageName (Spec vm))];
         final := snd (h (FinderVirtualMachine (ImageName (Spec vm)))
                         (snd (h (Enter SessionCloneVirtualMachine)
                                 (snd (h (GetSession (Namespace vm)) w)))));
         result := Some (vm, Some (StatusNotFound VirtualMachineKind
                                                  (NamespacedName vm))) |}).
  { unfold VSphereVmProvider_CreateVirtualMachine. cbv zeta.
    apply String.eqb_neq in Himg. rewrite Himg.
    unfold Session_CloneVirtualMachine, lookupVm, try, try_with, call.
    cbn [bind run].
    destruct (h (GetSession (Namespace vm)) w) as [r w1]. cbn [fst snd] in *.
    subst r. rewrite Hlib. cbn [bind run].
    destruct (h (Enter SessionCloneVirtualMachine) w1) as [u w2].
    cbn [fst snd] in *.
    destruct (h (FinderVirtualMachine (ImageName (Spec vm))) w2) as [r w3].
    cbn [fst] in Hfind. subst r. cbn [bind run trace result final snd].
    unfold transformVmError.
    rewrite transformError_not_found by exact Hnf. reflexivity. }
  rewrite Hrun. split; reflexivity.
Qed.










(** ** Programs over the operations of the second part *)

Lemma exec_andThen {W A B : Type} (sys : System W) (p : Proc A)
    (f : A -> Proc B) (w : W) :
  exec sys (andThen p f) w =
    match returned (exec sys p w) with
    | Some a =>
        let e := exec sys (f a) (after (exec sys p w)) in
        {| ops := ops (exec sys p w) ++ ops e;
           after := after e; returned := returned e |}
    | None =>
        {| ops := ops (exec sys p w); after := after (exec sys p w);
           returned := None |}
    end.
Proof.
  revert w. induction p as [a | o k IH | msg]; intros w; simpl.
  - destruct (exec sys (f a) w); reflexivity.
  - destruct (sys o w) as [r w']. rewrite IH. simpl.
    destruct (returned (exec sys (k r) w')); reflexivity.
  - reflexivity.
Qed.

Lemma exec_core {W A : Type} (sys : System W) (p : Prog A) (w : W) :
  exec sys (core p) w =
    {| ops := map Core (trace (run (backend sys) p w));
       after := final (run (backend sys) p w);
       returned := result (run (backend sys) p w) |}.
Proof.
  revert w. induction p as [a | c k IH | msg]; intros w; simpl.
  - reflexivity.
  - change (backend sys c w) with (sys (Core c) w).
    destruct (sys (Core c) w) as [r w']. rewrite IH. reflexivity.
  - reflexivity.
Qed.

Lemma exec_deferred {W A : Type} (sys : System W) (p : Proc A)
    (d : Proc unit) (w : W) :
  exec sys (deferred p d) w =
    let e := exec sys p w in
    let e' := exec sys d (after e) in
    {| ops := ops e ++ ops e';
       after := after e';
       returned := match returned e' with
                   | Some _ => returned e
                   | None => None
                   end |}.
Proof.
  revert w. induction p as [a | o k IH | msg]; intros w; simpl.
  - rewrite exec_andThen. destruct (returned (exec sys d w)); simpl;
      rewrite ?app_nil_r; reflexivity.
  - destruct (sys o w) as [r w']. rewrite IH. reflexivity.
  - rewrite exec_andThen. destruct (returned (exec sys d w)); simpl;
      rewrite ?app_nil_r; reflexivity.
Qed.

Lemma throughout_mono {A : Type} (p : Proc A)
    (Q R : list Op -> option A -> Prop) :
  (forall tr a, Q tr a -> R tr a) -> throughout p Q -> throughout p R.
Proof.
  revert Q R. induction p as [a | o k IH | msg]; intros Q R HQR; simpl.
  - apply HQR.
  - intros Hk r. eapply IH; [| apply Hk]. intros tr a. apply HQR.
  - apply HQR.
Qed.

Lemma throughout_exec {W A : Type} (p : Proc A)
    (Q : list Op -> option A -> Prop) :
  throughout p Q ->
  forall (sys : System W) (w : W),
    Q (ops (exec sys p w)) (returned (exec sys p w)).
Proof.
  revert Q. induction p as [a | o k IH | msg]; intros Q Hp sys w; simpl.
  - exact Hp.
  - destruct (sys o w) as [r w']. simpl. apply (IH r _ (Hp r)).
  - exact Hp.
Qed.

Lemma throughout_andThen {A B : Type} (p : Proc A) (f : A -> Proc B)
    (Q : list Op -> option B -> Prop) :
  throughout p (fun tr a =>
                  match a with
                  | Some a => throughout (f a) (fun tr' b => Q (tr ++ tr') b)
                  | None => Q tr None
                  end) ->
  throughout (andThen p f) Q.
Proof.
  revert Q. induction p as [a | o k IH | msg]; intros Q; simpl.
  - intros H. exact H.
  - intros H r. apply IH. eapply throughout_mono; [| apply H].
    intros tr [a |]; simpl; auto.
  - intros H. exact H.
Qed.

Lemma throughout_step (o : Op) (Q : list Op -> option (Answer o) -> Prop) :
  (forall r, Q [o] (Some r)) -> throughout (step o) Q.
Proof. intros H r. simpl. apply H. Qed.

Lemma throughout_attempt {A B : Type} (p : Proc (Result A))
    (wrap : error -> error) (f : A -> Proc (Result B))
    (Q : list Op -> option (Result B) -> Prop) :
  throughout p (fun tr a =>
                  match a with
                  | Some (inl x) =>
                      throughout (f x) (fun tr' b => Q (tr ++ tr') b)
                  | Some (inr e) => Q tr (Some (inr (wrap e)))
                  | None => Q tr None
                  end) ->
  throughout (attempt p wrap f) Q.
Proof.
  intros H. unfold attempt. apply throughout_andThen.
  eapply throughout_mono; [| apply H].
  intros tr [[x | e] |]; simpl; auto.
  rewrite app_nil_r. auto.
Qed.

Lemma throughout_and {A : Type} (p : Proc A)
    (Q R : list Op -> option A -> Prop) :
  throughout p Q -> throughout p R ->
  throughout p (fun tr a => Q tr a /\ R tr a).
Proof.
  revert Q R. induction p as [a | o k IH | msg]; intros Q R; simpl.
  - auto.
  - intros HQ HR r. apply (IH r _ _ (HQ r) (HR r)).
  - auto.
Qed.

Lemma throughout_true {A : Type} (p : Proc A) :
  throughout p (fun _ _ => True).
Proof. induction p as [a | o k IH | msg]; simpl; auto. Qed.

Lemma throughout_core {A : Type} (p : Prog A)
    (Q : list Call -> option A -> Prop) :
  always p Q -> throughout (core p) (fun tr a => Q (calls tr) a).
Proof.
  revert Q. induction p as [a | c k IH | msg]; intros Q; simpl.
  - auto.
  - intros H r. apply (IH r _ (H r)).
  - auto.
Qed.

Lemma throughout_deferred {A : Type} (p : Proc A) (o : Op)
    (Q : list Op -> option A -> Prop) :
  throughout p (fun tr a => Q (tr ++ [o]) a) ->
  throughout (deferred p (andThen (step o) (fun _ => Done tt))) Q.
Proof.
  revert Q. induction p as [a | o' k IH | msg]; intros Q; simpl.
  - intros H r. exact H.
  - intros H r. apply IH, H.
  - intros H r. exact H.
Qed.

Lemma avoids_throughout {A : Type} (P : Op -> bool) (p : Proc A) :
  avoids P p ->
  throughout p (fun tr _ => Forall (fun o => P o = false) tr).
Proof.
  induction 1 as [a | msg | o k Ho Hk IH]; simpl.
  - constructor.
  - constructor.
  - intros r. eapply throughout_mono; [| apply IH].
    intros tr a Htr. constructor; assumption.
Qed.

Lemma avoids_andThen {A B : Type} (P : Op -> bool) (p : Proc A)
    (f : A -> Proc B) :
  avoids P p -> (forall a, avoids P (f a)) -> avoids P (andThen p f).
Proof.
  intros Hp Hf. induction Hp; simpl; [apply Hf | constructor |].
  constructor; auto.
Qed.

Lemma avoids_step (P : Op -> bool) (o : Op) :
  P o = false -> avoids P (step o).
Proof. intros H. constructor; [exact H | intros r; constructor]. Qed.

Lemma avoids_attempt {A B : Type} (P : Op -> bool) (p : Proc (Result A))
    (wrap : error -> error) (f : A -> Proc (Result B)) :
  avoids P p -> (forall a, avoids P (f a)) -> avoids P (attempt p wrap f).
Proof.
  intros Hp Hf. apply avoids_andThen; [exact Hp |].
  intros [a | e]; [apply Hf | constructor].
Qed.

Lemma avoids_deferred {A : Type} (P : Op -> bool) (p : Proc A)
    (d : Proc unit) :
  avoids P p -> avoids P d -> avoids P (deferred p d).
Proof.
  intros Hp Hd. induction Hp; simpl.
  - apply avoids_andThen; [exact Hd | intros; constructor].
  - apply avoids_andThen; [exact Hd | intros; constructor].
  - constructor; auto.
Qed.

Lemma avoids_core {A : Type} (P : Op -> bool) (p : Prog A) :
  silent (fun c => P (Core c)) p -> avoids P (core p).
Proof. induction 1; simpl; constructor; auto. Qed.

Lemma avoids_exec {W A : Type} (P : Op -> bool) (p : Proc A) :
  avoids P p ->
  forall (sys : System W) (w : W),
    Forall (fun o => P o = false) (ops (exec sys p w)).
Proof.
  intros Hp sys w.
  exact (throughout_exec _ _ (avoids_throughout P p Hp) sys w).
Qed.

(** *** The REST client *)

(** The bracket of [WithRestClient]. A login that fails is the only
    operation of the run, and the caller is left with its error. After a
    login that succeeds the closure runs, and the logout follows it as
    the last operation whether the closure returns or panics; what the
    closure returned is returned, whatever the logout answers. *)
Theorem rest_client_logs_out {W A : Type} (sys : System W) (w : W)
    (onLoginError : error -> A) (f : Proc A) :
  match fst (sys (Core RestLogin) w) with
  | Some err =>
      ops (exec sys (WithRestClient' onLoginError f) w) = [Core RestLogin] /\
      returned (exec sys (WithRestClient' onLoginError f) w)
        = Some (onLoginError err)
  | None =>
      let e := exec sys f (snd (sys (Core RestLogin) w)) in
      ops (exec sys (WithRestClient' onLoginError f) w)
        = Core RestLogin :: ops e ++ [Core RestLogout] /\
      returned (exec sys (WithRestClient' onLoginError f) w) = returned e
  end.
Proof.
  unfold WithRestClient', step. cbn [andThen exec].
  destruct (sys (Core RestLogin) w) as [[err |] w1]; cbn [fst snd].
  - split; reflexivity.
  - rewrite exec_deferred. cbv zeta. cbn [andThen exec ops returned].
    destruct (sys (Core RestLogout) (after (exec sys f w1))) as [r w2].
    cbn [ops returned]. split; reflexivity.
Qed.

(** *** Listing virtual machines and images *)

Lemma ListVirtualMachines_loop_exec {W : Type} (sys : System W)
    (objVms : list ObjectVirtualMachine) :
  forall vms (w : W),
    ops (exec sys (ListVirtualMachines_loop objVms vms) w)
      = map (fun o => Core (NewVMFromObject o)) objVms /\
    returned (exec sys (ListVirtualMachines_loop objVms vms) w)
      = Some (vms ++ handlesOf sys objVms w).
Proof.
  induction objVms as [| objVm objVms IH]; intros vms w.
  - simpl. rewrite app_nil_r. split; reflexivity.
  - cbn [ListVirtualMachines_loop handlesOf]. unfold step.
    cbn [andThen exec].
    destruct (sys (Core (NewVMFromObject objVm)) w) as [[resVm | err] w'];
      cbn [ops returned map];
      [destruct (IH (vms ++ [resVm]) w') as [Hops Hret]
      | destruct (IH vms w') as [Hops Hret]];
      rewrite Hops, Hret, <- ?app_assoc; split; reflexivity.
Qed.

Lemma handlesOf_length {W : Type} (sys : System W)
    (objVms : list ObjectVirtualMachine) :
  forall w : W, (length (handlesOf sys objVms w) <= length objVms)%nat.
Proof.
  induction objVms as [| objVm objVms IH]; intros w; [cbn; lia |].
  cbn [handlesOf length].
  destruct (sys (Core (NewVMFromObject objVm)) w) as [[resVm | err] w'];
    cbn [length]; specialize (IH w'); lia.
Qed.

(** Where the wrapping of an object does not depend on the state, the
    handles are those of the objects whose wrapping is no error. *)
Lemma handlesOf_stateless {W : Type} (sys : System W)
    (wrap : ObjectVirtualMachine -> Result ResVirtualMachine)
    (objVms : list ObjectVirtualMachine) :
  (forall o w, fst (sys (Core (NewVMFromObject o)) w) = wrap o) ->
  forall w : W,
    handlesOf sys objVms w
    = omap (fun o => match wrap o with
                     | inl resVm => Some resVm
                     | inr _ => None
                     end) objVms.
Proof.
  intros Hwrap. induction objVms as [| objVm objVms IH]; intros w;
    [reflexivity |].
  cbn [handlesOf omap list_omap]. specialize (Hwrap objVm w).
  destruct (sys (Core (NewVMFromObject objVm)) w) as [r w'].
  cbn [fst] in Hwrap. subst r.
  destruct (wrap objVm) as [resVm | err]; rewrite IH; reflexivity.
Qed.

(** The run of [Session.ListVirtualMachines], by the answer of the
    finder. *)
Lemma Session_ListVirtualMachines_exec {W : Type} (sys : System W) (w : W)
    (s : Session) (path : string) :
  match fst (sys (FinderVirtualMachineList path) w) with
  | inl objVms =>
      ops (exec sys (Session_ListVirtualMachines s path) w)
        = FinderVirtualMachineList path
            :: map (fun o => Core (NewVMFromObject o)) objVms /\
      returned (exec sys (Session_ListVirtualMachines s path) w)
        = Some (inl (handlesOf sys objVms
                       (snd (sys (FinderVirtualMachineList path) w))))
  | inr err =>
      ops (exec sys (Session_ListVirtualMachines s path) w)
        = [FinderVirtualMachineList path] /\
      returned (exec sys (Session_ListVirtualMachines s path) w)
        = Some (if isNotFound err then inl [] else inr err)
  end.
Proof.
  unfold Session_ListVirtualMachines, step. cbn [andThen exec].
  destruct (sys (FinderVirtualMachineList path) w) as [[objVms | err] w1];
    cbn [fst snd].
  - rewrite exec_andThen.
    destruct (ListVirtualMachines_loop_exec sys objVms [] w1)
      as [Hops Hret].
    rewrite Hret, Hops. cbn. rewrite app_nil_r. split; reflexivity.
  - destruct err; split; reflexivity.
Qed.

(** Listing the virtual machines of the inventory never fails on a
    single machine. When the finder answers with a list of objects,
    [Session.ListVirtualMachines] wraps each of them in turn and returns,
    with no error, exactly the handles that could be made, in the order
    of the objects: an object whose wrapping fails is passed over, so the
    list may be shorter than the inventory, and where the wrapping of an
    object does not depend on the state of the backend the list is the
    list of the objects whose wrapping is no error. When the finder ends
    in a not-found error the result is the empty list and no error; any
    other error of the finder is returned as it is. *)
Theorem list_passes_over_failures {W : Type} (sys : System W) (w : W)
    (s : Session) (path : string) :
  match fst (sys (FinderVirtualMachineList path) w) with
  | inl objVms =>
      ops (exec sys (Session_ListVirtualMachines s path) w)
        = FinderVirtualMachineList path
            :: map (fun o => Core (NewVMFromObject o)) objVms /\
      (exists vms,
         returned (exec sys (Session_ListVirtualMachines s path) w)
           = Some (inl vms) /\
         (length vms <= length objVms)%nat) /\
      returned (exec sys (Session_ListVirtualMachines s path) w)
        = Some (inl (handlesOf sys objVms
                       (snd (sys (FinderVirtualMachineList path) w)))) /\
      (forall wrap,
         (forall o w', fst (sys (Core (NewVMFromObject o)) w') = wrap o) ->
         returned (exec sys (Session_ListVirtualMachines s path) w)
           = Some (inl (omap (fun o => match wrap o with
                                       | inl resVm => Some resVm
                                       | inr _ => None
                                       end) objVms)))
  | inr err =>
      ops (exec sys (Session_ListVirtualMachines s path) w)
        = [FinderVirtualMachineList path] /\
      returned (exec sys (Session_ListVirtualMachines s path) w)
        = Some (if isNotFound err then inl [] else inr err)
  end.
Proof.
  pose proof (Session_ListVirtualMachines_exec sys w s path) as Hexec.
  destruct (fst (sys (FinderVirtualMachineList path) w)) as [objVms | err];
    [| exact Hexec].
  destruct Hexec as [Hops Hret].
  split; [exact Hops |]. split; [| split; [exact Hret |]].
  - eexists. split; [exact Hret | apply handlesOf_length].
  - intros wrap Hwrap. rewrite Hret.
    rewrite (handlesOf_stateless sys wrap objVms Hwrap). reflexivity.
Qed.

Lemma ListVirtualMachineImagesFromCL_loop_exec {W : Type} (sys : System W)
    (namespace : string) (items : list LibraryItem) :
  forall images (w : W),
    exec sys (ListVirtualMachineImagesFromCL_loop namespace items images) w
    = {| ops := []; after := w;
         returned :=
           Some (inl (images ++
                      map (plainImage namespace)
                          (List.filter
                             (fun item => IsSupportedDeployType (ItemType item))
                             items))) |}.
Proof.
  induction items as [| item items IH]; intros images w.
  - simpl. rewrite app_nil_r. reflexivity.
  - cbn [ListVirtualMachineImagesFromCL_loop List.filter].
    destruct (IsSupportedDeployType (ItemType item)).
    + cbn [LibItemToVirtualMachineImage core attempt andThen].
      rewrite IH, <- app_assoc. reflexivity.
    + apply IH.
Qed.

(** The images of a content library. On a session with a content
    library, when the login succeeds and the library answers with its
    items, [ListVirtualMachineImagesFromCL] returns one image for each
    item of type ovf, in the order of the library, and passes over every
    other item. Each image has the name and the identifier of its item,
    the namespace asked for and no annotation: the OVF properties are not
    fetched for a listing, and the run is the login, the one request for
    the items and the logout. *)
Theorem library_listing_keeps_ovf_items {W : Type} (sys : System W) (w : W)
    (s : Session) (namespace libraryID : string) (items : list LibraryItem) :
  contentlib s = Some libraryID ->
  fst (sys (Core RestLogin) w) = None ->
  fst (sys (GetLibraryItems libraryID) (snd (sys (Core RestLogin) w)))
    = inl items ->
  returned (exec sys (Session_ListVirtualMachineImagesFromCL s namespace) w)
    = Some (inl (map (plainImage namespace)
                     (List.filter
                        (fun item => IsSupportedDeployType (ItemType item))
                        items))) /\
  ops (exec sys (Session_ListVirtualMachineImagesFromCL s namespace) w)
    = [Core RestLogin; GetLibraryItems libraryID; Core RestLogout].
Proof.
  intros Hlib Hlogin Hitems.
  assert (Hrun :
    exec sys (Session_ListVirtualMachineImagesFromCL s namespace) w
    = {| ops := [Core RestLogin; GetLibraryItems libraryID; Core RestLogout];
         after := snd (sys (Core RestLogout)
                           (snd (sys (GetLibraryItems libraryID)
                                     (snd (sys (Core RestLogin) w)))));
         returned :=
           Some (inl (map (plainImage namespace)
                          (List.filter
                             (fun item =>
                                IsSupportedDeployType (ItemType item))
                             items))) |}).
  { unfold Session_ListVirtualMachineImagesFromCL, WithRestClient',
      contentlibID, step, attempt.
    rewrite Hlib. cbn [core andThen deferred exec].
    destruct (sys (Core RestLogin) w) as [r w1]. cbn [fst snd] in *.
    subst r. cbn [core andThen deferred exec].
    destruct (sys (GetLibraryItems libraryID) w1) as [r w2].
    cbn [fst snd] in *. subst r. cbn [andThen deferred exec].
    destruct (sys (Core RestLogout) w2) as [r w3]. cbn [fst snd].
    cbn [andThen exec].
    rewrite ListVirtualMachineImagesFromCL_loop_exec. reflexivity. }
  rewrite Hrun. split; reflexivity.
Qed.

Lemma ListVirtualMachineImages_loop_throughout (namespace : string)
    (resVms : list ResVirtualMachine) :
  forall images,
    throughout (ListVirtualMachineImages_loop namespace resVms images)
      (fun tr r =>
         tr = map VmImageFields resVms /\
         exists more,
           r = Some (images ++ more) /\
           length more = length resVms /\
           Forall (fun image =>
                     ImageNamespace image = namespace /\
                     ImageType image = "VM" /\
                     ImageSourceType image = "Inventory")
                  more).
Proof.
  induction resVms as [| resVm resVms IH]; intros images.
  - simpl. split; [reflexivity |]. exists []. rewrite app_nil_r.
    split; [reflexivity |]. split; [reflexivity | constructor].
  - cbn [ListVirtualMachineImages_loop resVmToVirtualMachineImage].
    unfold step. cbn [andThen throughout]. intros fields.
    eapply throughout_mono; [| apply IH].
    intros tr r [-> (more & -> & Hlen & Hall)]. split; [reflexivity |].
    eexists (_ :: more). rewrite <- app_assoc. split; [reflexivity |].
    split; [cbn; lia |]. constructor; [| exact Hall].
    repeat split.
Qed.

(** Listing the images of a session without content library. Once the
    session is obtained, the provider lists the virtual machines of the
    inventory under the path of all of them. A not-found error of that
    listing gives the empty list of images and no error, and any other
    error is returned as the finder gave it: the translation into a
    NotFound of the VirtualMachineImage kind that the source applies to
    this error never changes it. When the inventory is listed, at most
    one image per virtual machine is returned, and every image is of
    type VM, from the inventory and in the namespace asked for. *)
Theorem inventory_images {W : Type} (sys : System W) (w : W)
    (namespace : string) (ses : Session) :
  fst (sys (Core (GetSession "")) w) = inl ses ->
  contentlib ses = None ->
  match fst (sys (FinderVirtualMachineList "*")
                 (snd (sys (Core (GetSession "")) w))) with
  | inr err =>
      returned (exec sys (VSphereVmProvider_ListVirtualMachineImages
                            namespace) w)
        = Some (if isNotFound err then inl [] else inr err) /\
      ops (exec sys (VSphereVmProvider_ListVirtualMachineImages namespace) w)
        = [Core (GetSession ""); FinderVirtualMachineList "*"]
  | inl objVms =>
      exists images,
        returned (exec sys (VSphereVmProvider_ListVirtualMachineImages
                              namespace) w)
          = Some (inl images) /\
        (length images <= length objVms)%nat /\
        Forall (fun image =>
                  ImageNamespace image = namespace /\
                  ImageType image = "VM" /\
                  ImageSourceType image = "Inventory")
               images
  end.
Proof.
  intros Hses Hlib.
  unfold VSphereVmProvider_ListVirtualMachineImages, attempt, step.
  cbn [andThen exec].
  destruct (sys (Core (GetSession "")) w) as [r w1]. cbn [fst snd] in *.
  subst r. rewrite Hlib.
  pose proof (Session_ListVirtualMachines_exec sys w1 ses "*") as Hlist.
  rewrite !exec_andThen.
  destruct (sys (FinderVirtualMachineList "*") w1) as [[objVms | err] w2]
    eqn:Hfind; cbn [fst] in *.
  - destruct Hlist as [Hops Hret]. rewrite Hret.
    pose proof (handlesOf_length sys objVms w2) as Hlen. cbn [snd] in *.
    set (vms := handlesOf sys objVms w2) in *.
    cbv zeta. rewrite exec_andThen.
    destruct (throughout_exec _ _
                (ListVirtualMachineImages_loop_throughout namespace vms [])
                sys (after (exec sys (Session_ListVirtualMachines ses "*") w1)))
      as [_ (images & Himg & Hlen' & Hall)].
    rewrite Himg. cbn. exists images.
    split; [reflexivity |]. split; [lia | exact Hall].
  - destruct Hlist as [Hops Hret]. rewrite Hret, Hops.
    destruct (isNotFound err) eqn:Hnf; cbn.
    + split; reflexivity.
    + unfold transformVmImageError.
      rewrite transformError_other by exact Hnf. split; reflexivity.
Qed.

Lemma ListVirtualMachineImagesFromCL_loop_throughout (namespace : string)
    (items : list LibraryItem) :
  forall images,
    throughout (ListVirtualMachineImagesFromCL_loop namespace items images)
      (fun tr r =>
         tr = [] /\
         r = Some (inl (images ++
                        map (plainImage namespace)
                            (List.filter
                               (fun item =>
                                  IsSupportedDeployType (ItemType item))
                               items)))).
Proof.
  induction items as [| item items IH]; intros images.
  - simpl. rewrite app_nil_r. split; reflexivity.
  - cbn [ListVirtualMachineImagesFromCL_loop List.filter].
    destruct (IsSupportedDeployType (ItemType item)).
    + cbn [LibItemToVirtualMachineImage core attempt andThen].
      eapply throughout_mono; [| apply IH].
      intros tr r [-> ->]. rewrite <- app_assoc. split; reflexivity.
    + apply IH.
Qed.

Lemma Session_ListVirtualMachineImagesFromCL_throughout (s : Session)
    (namespace : string) :
  throughout (Session_ListVirtualMachineImagesFromCL s namespace)
    (fun tr r =>
       Forall (fun o => isInventoryOp o = false) tr /\
       forall images, r = Some (inl images) ->
         Forall (fun image => ImageNamespace image = namespace) images).
Proof.
  unfold Session_ListVirtualMachineImagesFromCL. apply throughout_attempt.
  unfold WithRestClient', contentlibID, step.
  cbn [andThen throughout]. intros [err |].
  - cbn. split; [repeat constructor | intros images [=]].
  - destruct (contentlib s) as [libraryID |];
      cbn [core andThen deferred throughout].
    + intros [items | err]; intros _.
      * eapply throughout_mono;
          [| apply ListVirtualMachineImagesFromCL_loop_throughout].
        intros tr r [-> ->]. split; [repeat constructor |].
        intros images [= <-]. cbn [app].
        induction (List.filter _ items); constructor; auto.
      * split; [repeat constructor | intros images [=]].
    + intros _. split; [repeat constructor | intros images [=]].
Qed.

Lemma Session_ListVirtualMachines_avoids (s : Session) (path : string) :
  avoids isLibraryOp (Session_ListVirtualMachines s path).
Proof.
  unfold Session_ListVirtualMachines.
  apply avoids_andThen;
    [apply (avoids_step _ (FinderVirtualMachineList path)); reflexivity |].
  intros [objVms | err]; [| destruct err; constructor].
  apply avoids_andThen; [| intros; constructor].
  generalize (@nil ResVirtualMachine).
  induction objVms as [| objVm objVms IH]; intros vms; [constructor |].
  cbn [ListVirtualMachines_loop].
  apply avoids_andThen;
    [apply (avoids_step _ (Core (NewVMFromObject objVm))); reflexivity |].
  intros [resVm | err]; apply IH.
Qed.

Lemma image_listing_throughout (namespace : string) :
  throughout (VSphereVmProvider_ListVirtualMachineImages namespace)
    (fun tr r =>
       exists rest,
         tr = Core (GetSession "") :: rest /\
         (Forall (fun o => isInventoryOp o = false) rest \/
          Forall (fun o => isLibraryOp o = false) rest) /\
         forall images, r = Some (inl images) ->
           Forall (fun image => ImageNamespace image = namespace) images).
Proof.
  unfold VSphereVmProvider_ListVirtualMachineImages.
  apply throughout_attempt, throughout_step.
  intros [ses | err];
    [| exists []; split; [reflexivity |]; split;
       [left; constructor | intros images [=]]].
  destruct (contentlib ses) as [libraryID |].
  - apply throughout_attempt.
    eapply throughout_mono;
      [| apply Session_ListVirtualMachineImagesFromCL_throughout].
    intros tr [[images | err] |] [Htr Himg]; cbn;
      (eexists; split; [reflexivity |]; rewrite ?app_nil_r;
       split; [left; exact Htr |]); intros images' [=].
    subst images'. apply Himg. reflexivity.
  - apply throughout_attempt.
    eapply throughout_mono;
      [| apply (avoids_throughout isLibraryOp),
           Session_ListVirtualMachines_avoids].
    intros tr [[resVms | err] |] Htr; cbn;
      [| eexists; split; [reflexivity |]; rewrite ?app_nil_r;
         split; [right; exact Htr | intros images' [=]] ..].
    apply throughout_andThen.
    eapply throughout_mono;
      [| apply ListVirtualMachineImages_loop_throughout].
    intros tr' [images |] [-> (more & Hmore & _ & Hall)]; cbn;
      (eexists; split; [reflexivity |]; rewrite ?app_nil_r; split;
       [right; apply Forall_app; split; [exact Htr |];
        clear; induction resVms; constructor; auto |]);
      intros images' [=].
    subst images'. injection Hmore as ->.
    eapply Forall_impl; [exact Hall |]. intros image (Hns & _). exact Hns.
Qed.

(** One source for a listing of images. Whatever the namespace asked
    for, [ListVirtualMachineImages] first asks the session manager for
    the session of the empty namespace. What follows works either on the
    content library or on the inventory of virtual machines, never on
    both in one run. Every image of a listing that is returned carries
    the namespace asked for. *)
Theorem image_listing_has_one_source {W : Type} (sys : System W) (w : W)
    (namespace : string) :
  exists rest,
    ops (exec sys (VSphereVmProvider_ListVirtualMachineImages namespace) w)
      = Core (GetSession "") :: rest /\
    (Forall (fun o => isInventoryOp o = false) rest \/
     Forall (fun o => isLibraryOp o = false) rest) /\
    forall images,
      returned (exec sys (VSphereVmProvider_ListVirtualMachineImages
                            namespace) w) = Some (inl images) ->
      Forall (fun image => ImageNamespace image = namespace) images.
Proof.
  exact (throughout_exec _ _ (image_listing_throughout namespace) sys w).
Qed.

(** *** One image *)

(** An image that the content library does not have. On a session with
    a content library, when the login succeeds and the library finds no
    item of the name, [GetVirtualMachineImage] returns the error that the
    item is not found in the library, an error of its own making and not
    a NotFound of the VirtualMachineImage kind. The run ends with the
    logout: the inventory of virtual machines is not looked at. *)
Theorem library_image_missing {W : Type} (sys : System W) (w : W)
    (namespace name libraryID : string) (ses : Session) :
  fst (sys (Core (GetSession "")) w) = inl ses ->
  contentlib ses = Some libraryID ->
  fst (sys (Core RestLogin) (snd (sys (Core (GetSession "")) w))) = None ->
  fst (sys (Core (FindLibraryItems libraryID name))
           (snd (sys (Core RestLogin) (snd (sys (Core (GetSession "")) w)))))
    = inl [] ->
  returned (exec sys (VSphereVmProvider_GetVirtualMachineImage namespace name)
                 w)
    = Some (inr (Errorf "item: %v is not found in CL" [name])) /\
  ops (exec sys (VSphereVmProvider_GetVirtualMachineImage namespace name) w)
    = [Core (GetSession ""); Core RestLogin;
       Core (FindLibraryItems libraryID name); Core RestLogout].
Proof.
  intros Hses Hlib Hlogin Hfind.
  assert (Hrun :
    exec sys (VSphereVmProvider_GetVirtualMachineImage namespace name) w
    = {| ops := [Core (GetSession ""); Core RestLogin;
                 Core (FindLibraryItems libraryID name); Core RestLogout];
         after :=
           snd (sys (Core RestLogout)
                    (snd (sys (Core (FindLibraryItems libraryID name))
                              (snd (sys (Core RestLogin)
                                        (snd (sys (Core (GetSession "")) w)))))));
         returned :=
           Some (inr (Errorf "item: %v is not found in CL" [name])) |}).
  { unfold VSphereVmProvider_GetVirtualMachineImage, attempt, step.
    cbv zeta. cbn [andThen exec].
    destruct (sys (Core (GetSession "")) w) as [r w1]. cbn [fst snd] in *.
    subst r. rewrite Hlib.
    unfold GetVirtualMachineImageFromCL, contentlibID, WithRestClient, try,
      call.
    rewrite Hlib. cbn [bind defer core andThen exec].
    destruct (sys (Core RestLogin) w1) as [r w2]. cbn [fst snd] in *.
    subst r. cbn [bind defer core andThen exec].
    destruct (sys (Core (FindLibraryItems libraryID name)) w2) as [r w3].
    cbn [fst snd] in *. subst r. cbn [bind defer core andThen exec].
    destruct (sys (Core RestLogout) w3) as [r w4]. cbn [snd].
    reflexivity. }
  rewrite Hrun. split; reflexivity.
Qed.

(** An image that the inventory does not have. On a session without
    content library, when the lookup of the name ends in a not-found
    error, [GetVirtualMachineImage] returns the NotFound of the
    VirtualMachineImage kind under the namespace and the name asked for,
    joined by a slash, and has made no call but that lookup. *)
Theorem inventory_image_missing {W : Type} (sys : System W) (w : W)
    (namespace name : string) (ses : Session) (err : error) :
  fst (sys (Core (GetSession "")) w) = inl ses ->
  contentlib ses = None ->
  fst (sys (Core (FinderVirtualMachine name))
           (snd (sys (Core (GetSession "")) w))) = inr err ->
  isNotFound err = true ->
  returned (exec sys (VSphereVmProvider_GetVirtualMachineImage namespace name)
                 w)
    = Some (inr (StatusNotFound VirtualMachineImageKind
                                (namespace +:+ "/" +:+ name))) /\
  ops (exec sys (VSphereVmProvider_GetVirtualMachineImage namespace name) w)
    = [Core (GetSession ""); Core (FinderVirtualMachine name)].
Proof.
  intros Hses Hlib Hfind Hnf.
  assert (Hrun :
    exec sys (VSphereVmProvider_GetVirtualMachineImage namespace name) w
    = {| ops := [Core (GetSession ""); Core (FinderVirtualMachine name)];
         after := snd (sys (Core (FinderVirtualMachine name))
                           (snd (sys (Core (GetSession "")) w)));
         returned :=
           Some (inr (StatusNotFound VirtualMachineImageKind
                                     (namespace +:+ "/" +:+ name))) |}).
  { unfold VSphereVmProvider_GetVirtualMachineImage, attempt, step.
    cbv zeta. cbn [andThen exec].
    destruct (sys (Core (GetSession "")) w) as [r w1]. cbn [fst snd] in *.
    subst r. rewrite Hlib.
    unfold Session_GetVirtualMachine, lookupVm, try, call.
    cbn [bind core andThen exec].
    destruct (sys (Core (FinderVirtualMachine name)) w1) as [r w2].
    cbn [fst snd] in *. subst r. cbn [bind core andThen exec].
    unfold transformVmImageError.
    rewrite transformError_not_found by exact Hnf. reflexivity. }
  rewrite Hrun. split; reflexivity.
Qed.

(** *** Deleting through the session *)

(** The delete of the session. [Session.DeleteVirtualMachine] looks the
    virtual machine up by its name. An error of the lookup is returned as
    it is and nothing is deleted. On the handle the lookup gives, the
    delete is the one operation that follows; its error is returned
    wrapped with the name of the virtual machine, and without one the
    function returns nil. *)
Theorem session_delete_after_lookup {W : Type} (sys : System W) (w : W)
    (s : Session) (vm : VirtualMachine) :
  let found := run (backend sys) (lookupVm s (Name vm)) w in
  match result found with
  | Some (inl resVm) =>
      ops (exec sys (Session_DeleteVirtualMachine s vm) w)
        = map Core (trace found) ++ [VmDelete resVm] /\
      returned (exec sys (Session_DeleteVirtualMachine s vm) w)
        = Some match fst (sys (VmDelete resVm) (final found)) with
               | Some err =>
                   Some (Wrapf err "failed to delete VM %q" [Name vm])
               | None => None
               end
  | Some (inr err) =>
      ops (exec sys (Session_DeleteVirtualMachine s vm) w)
        = map Core (trace found) /\
      returned (exec sys (Session_DeleteVirtualMachine s vm) w)
        = Some (Some err) /\
      Forall (fun o => match o with VmDelete _ => False | _ => True end)
             (ops (exec sys (Session_DeleteVirtualMachine s vm) w))
  | None =>
      returned (exec sys (Session_DeleteVirtualMachine s vm) w) = None
  end.
Proof.
  cbv zeta. unfold Session_DeleteVirtualMachine.
  rewrite exec_andThen, exec_core. cbn [ops after returned].
  destruct (run (backend sys) (lookupVm s (Name vm)) w)
    as [tr w1 [[resVm | err] |]]; cbn [trace final result].
  - unfold step. cbn [andThen exec].
    destruct (sys (VmDelete resVm) w1) as [[err |] w2]; cbn; split;
      reflexivity.
  - cbn. rewrite app_nil_r. split; [reflexivity |]. split; [reflexivity |].
    induction tr; constructor; auto.
  - reflexivity.
Qed.

(** *** Building a session *)


Ltac by_step :=
  lazymatch goal with
  | |- avoids ?P (step ?o) => apply (avoids_step P o)
  end.

Lemma GetResourcePool_avoids (P : Op -> bool) (rp : string) :
  P (Core (FinderObjectReference "ResourcePool" rp)) = false ->
  P (FinderResourcePool rp) = false ->
  avoids P (GetResourcePool rp).
Proof.
  intros H1 H2. unfold GetResourcePool.
  apply avoids_andThen; [by_step; exact H1 |].
  intros [[o | k ref] | err]; cbn [assertKind];
    [constructor | destruct (String.eqb k "ResourcePool"); constructor |].
  by_step; exact H2.
Qed.

Lemma GetVMFolder_avoids (P : Op -> bool) (fold : string) :
  P (Core (FinderObjectReference "Folder" fold)) = false ->
  P (FinderFolder fold) = false ->
  avoids P (GetVMFolder fold).
Proof.
  intros H1 H2. unfold GetVMFolder.
  apply avoids_andThen; [by_step; exact H1 |].
  intros [[o | k ref] | err]; cbn [assertKind];
    [constructor | destruct (String.eqb k "Folder"); constructor |].
  by_step; exact H2.
Qed.

Ltac shun :=
  repeat first
    [ apply avoids_Done
    | apply avoids_Crash
    | by_step; reflexivity
    | apply GetResourcePool_avoids; reflexivity
    | apply GetVMFolder_avoids; reflexivity
    | apply avoids_attempt; [| intros ?]
    | apply avoids_andThen; [| intros ?]
    | apply avoids_deferred
    | match goal with
      | |- avoids _ (match ?x with _ => _ end) => destruct x
      end
    | progress cbv zeta ].

Lemma initSession_avoids (s : SessionInit)
    (config : VSphereVmProviderConfig) :
  avoids (fun o => isClientLogout o || isRestLogin o)%bool
         (initSession s config).
Proof. unfold initSession. shun. Qed.

Lemma ConfigureContent_avoids (s : SessionInit) (contentSource : string) :
  avoids isClientLogout (ConfigureContent s contentSource).
Proof. unfold ConfigureContent, WithRestClient'. shun. Qed.

Lemma initSession_builtFrom (c : string) (config : VSphereVmProviderConfig) :
  throughout (initSession (newSession c) config)
    (fun tr r =>
       forall s, r = Some (inl s) ->
       init_client s = c /\ init_contentlib s = None /\ builtFrom config s).
Proof.
  unfold initSession, builtFrom, GetResourcePool, GetVMFolder, assertKind,
    attempt, step.
  destruct (String.eqb_spec (ConfigResourcePool config) "") as [Hrp | Hrp];
    destruct (String.eqb_spec (ConfigFolder config) "") as [Hfo | Hfo];
    destruct (String.eqb_spec (ConfigDatastore config) "") as [Hds | Hds];
    destruct (String.eqb_spec (ConfigNetwork config) "") as [Hnw | Hnw];
    cbn [negb andThen throughout];
    repeat first
      [ intros ?
      | progress cbn [negb andThen throughout init_resourcepool
                      set_resourcepool set_datacenter set_folder
                      set_cluster set_datastore set_network
                      set_extraConfig set_creds newSession]
      | match goal with
        | |- throughout ?p _ =>
            match p with
            | context [match ?x with _ => _ end] => destruct x
            end
        end ];
    match goal with
    | Heq : Some _ = Some (inl _) |- _ =>
        first [discriminate Heq | injection Heq as <-]
    | Heq : None = Some _ |- _ => discriminate Heq
    end;
    cbn; repeat split; intros; congruence.
Qed.

Lemma ConfigureContent_throughout (s : SessionInit) (contentSource : string) :
  throughout (ConfigureContent s contentSource)
    (fun tr r =>
       forall s' (e : option error), r = Some (s', e) ->
       (exists lib, s' = set_contentlib s lib) /\
       (contentSource = "" -> s' = set_contentlib s None)).
Proof.
  assert (Hsame : s = set_contentlib s (init_contentlib s))
    by (destruct s; reflexivity).
  unfold ConfigureContent, WithRestClient', step.
  destruct (String.eqb_spec contentSource "") as [Hsrc | Hsrc].
  - cbn. intros s' e [= <- <-]. split; [eexists |]; reflexivity.
  - destruct (init_creds s) as [creds |]; [| intros s' e [=]].
    cbn [andThen deferred throughout].
    intros [err |].
    + cbn. intros s' e [= <- <-].
      split; [eexists; exact Hsame | contradiction].
    + cbn [andThen deferred throughout]. intros [lib [err |]].
      * cbn [fst snd andThen deferred throughout].
        intros [lib' [err' |]] _; cbn; intros s' e [= <- <-];
          (split; [eexists; reflexivity | contradiction]).
      * cbn [fst snd andThen deferred throughout].
        intros _. cbn. intros s' e [= <- <-].
        split; [eexists; reflexivity | contradiction].
Qed.

Lemma builtFrom_set_contentlib (config : VSphereVmProviderConfig)
    (s : SessionInit) (lib : option string) :
  builtFrom config s -> builtFrom config (set_contentlib s lib).
Proof. intros H. exact H. Qed.

Lemma configure_throughout (c : string) (config : VSphereVmProviderConfig) :
  throughout
    (andThen (initSession (newSession c) config)
       (fun r =>
          match r with
          | inr err => andThen (Logout (newSession c))
                         (fun _ => Done (inr err))
          | inl s =>
              andThen (ConfigureContent s (ConfigContentSource config))
                (fun r =>
                   match snd r with
                   | Some err => Done (inr err)
                   | None => Done (inl (fst r))
                   end)
          end))
    (fun tr r =>
       forall s, r = Some (inl s) ->
       init_client s = c /\ builtFrom config s /\
       (ConfigContentSource config = "" -> init_contentlib s = None)).
Proof.
  apply throughout_andThen.
  eapply throughout_mono; [| apply initSession_builtFrom].
  intros tr [[s | err] |] Hinit; [| intros r s [=] | intros s [=]].
  destruct (Hinit s eq_refl) as (Hc & Hlib & Hbuilt).
  apply throughout_andThen.
  eapply throughout_mono; [| apply ConfigureContent_throughout].
  intros tr' [[s' [err |]] |] Hcontent; cbn; intros s'' [=]. subst s''.
  destruct (Hcontent s' None eq_refl) as [[lib ->] Hempty].
  split; [exact Hc |]. split; [apply builtFrom_set_contentlib, Hbuilt |].
  intros Hsrc. rewrite (Hempty Hsrc). reflexivity.
Qed.

(** A session has the parts its configuration names. When
    [NewSessionAndConfigure] returns a session, the client of the
    session is the one that was made first, and the session has a
    datacenter and the credentials of the configuration. It has a
    resource pool, a folder, a datastore and a default network exactly
    when the configuration names one, and a cluster exactly when it names
    a resource pool. With an empty content source it has no content
    library. *)
Theorem session_built_from_configuration {W : Type} (sys : System W)
    (w : W) (config : VSphereVmProviderConfig) (s : SessionInit) :
  returned (exec sys (NewSessionAndConfigure config) w) = Some (inl s) ->
  fst (sys (NewClient config) w) = inl (init_client s) /\
  builtFrom config s /\
  (ConfigContentSource config = "" -> init_contentlib s = None).
Proof.
  unfold NewSessionAndConfigure, attempt, step. cbn [andThen exec].
  destruct (sys (NewClient config) w) as [[c | err] w1];
    cbn [fst returned]; [| intros [=]].
  intros Hr.
  destruct (throughout_exec _ _ (configure_throughout c config) sys w1 s Hr)
    as (Hc & Hbuilt & Hlib).
  rewrite Hc. auto.
Qed.

(** A session that cannot be initialised is logged out. When the client
    has been made and [initSession] ends in an error,
    [NewSessionAndConfigure] returns that error and the last operation
    of the run is the logout of the client it had made. *)
Theorem failed_init_logs_client_out {W : Type} (sys : System W) (w : W)
    (config : VSphereVmProviderConfig) (c : string) (err : error) :
  fst (sys (NewClient config) w) = inl c ->
  returned (exec sys (initSession (newSession c) config)
                 (snd (sys (NewClient config) w))) = Some (inr err) ->
  returned (exec sys (NewSessionAndConfigure config) w) = Some (inr err) /\
  ops (exec sys (NewSessionAndConfigure config) w)
    = NewClient config
        :: ops (exec sys (initSession (newSession c) config)
                     (snd (sys (NewClient config) w)))
        ++ [ClientLogout c].
Proof.
  intros Hc Hinit.
  unfold NewSessionAndConfigure, attempt, step. cbn [andThen exec].
  destruct (sys (NewClient config) w) as [r w1]. cbn [fst snd] in *. subst r.
  cbn [ops returned]. rewrite exec_andThen, Hinit. cbv zeta.
  unfold Logout, step. cbn [andThen exec newSession init_client].
  destruct (sys (ClientLogout c) _) as [u w2]. cbn. split; reflexivity.
Qed.

(** A session whose content library cannot be set up keeps its client.
    When the client has been made, [initSession] has returned the session
    and [ConfigureContent] ends in an error, [NewSessionAndConfigure]
    returns that error and no session, and no operation of the run logs
    the client out: the run is the making of the client followed by the
    operations of the two steps, and the logout that follows a failed
    [initSession] has no counterpart here. *)
Theorem failed_content_keeps_client {W : Type} (sys : System W) (w : W)
    (config : VSphereVmProviderConfig) (c : string) (s s' : SessionInit)
    (err : error) :
  fst (sys (NewClient config) w) = inl c ->
  returned (exec sys (initSession (newSession c) config)
                 (snd (sys (NewClient config) w))) = Some (inl s) ->
  returned (exec sys (ConfigureContent s (ConfigContentSource config))
                 (after (exec sys (initSession (newSession c) config)
                              (snd (sys (NewClient config) w)))))
    = Some (s', Some err) ->
  returned (exec sys (NewSessionAndConfigure config) w) = Some (inr err) /\
  ops (exec sys (NewSessionAndConfigure config) w)
    = NewClient config
        :: ops (exec sys (initSession (newSession c) config)
                     (snd (sys (NewClient config) w)))
        ++ ops (exec sys (ConfigureContent s (ConfigContentSource config))
                     (after (exec sys (initSession (newSession c) config)
                                  (snd (sys (NewClient config) w))))) /\
  Forall (fun o => isClientLogout o = false)
         (ops (exec sys (NewSessionAndConfigure config) w)).
Proof.
  intros Hc Hinit Hcontent.
  assert (Hrun :
    exec sys (NewSessionAndConfigure config) w
    = let e1 := exec sys (initSession (newSession c) config)
                     (snd (sys (NewClient config) w)) in
      let e2 := exec sys (ConfigureContent s (ConfigContentSource config))
                     (after e1) in
      {| ops := NewClient config :: ops e1 ++ ops e2;
         after := after e2;
         returned := Some (inr err) |}).
  { unfold NewSessionAndConfigure, attempt, step. cbn [andThen exec].
    destruct (sys (NewClient config) w) as [r w1]. cbn [fst snd] in *.
    subst r. cbv zeta. rewrite exec_andThen, Hinit. cbv zeta.
    rewrite exec_andThen, Hcontent. cbn. rewrite app_nil_r. reflexivity. }
  rewrite Hrun. cbv zeta. cbn [ops returned].
  split; [reflexivity |]. split; [reflexivity |].
  constructor; [reflexivity |]. apply Forall_app. split.
  - eapply Forall_impl;
      [apply avoids_exec, initSession_avoids |].
    cbn. intros o Ho. apply orb_false_elim in Ho. tauto.
  - apply avoids_exec, ConfigureContent_avoids.
Qed.

(** ** Deploying from the content library *)

(** A deployed virtual machine that cannot be wrapped. When the login
    and the deployment succeed and the reference of the deployment is a
    virtual machine, but [NewVMFromObject] returns an error for it,
    [deployOvf] drops that error: it returns no handle and no error,
    after the deployment has been made. *)
Theorem deploy_drops_wrapping_error {W : Type} (h : Backend W) (w : W)
    (s : Session) (itemID vmName profileID : string)
    (deployment : string * string) (o : ObjectVirtualMachine) (err : error) :
  let dSpec :=
    {| DeployName := vmName; AcceptAllEULA := true;
       StorageProfileID := profileID;
       DefaultDatastoreID :=
         if String.eqb profileID "" then datastore s else "";
       ResourcePoolID := resourcepool s; FolderID := folder s |} in
  let w1 := snd (h RestLogin w) in
  let w2 := snd (h (DeployLibraryItem itemID dSpec) w1) in
  let w3 := snd (h RestLogout w2) in
  let w4 := snd (h (FinderObjectReference (fst deployment) (snd deployment))
                   w3) in
  fst (h RestLogin w) = None ->
  fst (h (DeployLibraryItem itemID dSpec) w1) = inl deployment ->
  fst (h (FinderObjectReference (fst deployment) (snd deployment)) w3)
    = inl (IsVirtualMachine o) ->
  fst (h (NewVMFromObject o) w4) = inr err ->
  result (run h (deployOvf s itemID vmName profileID) w) = Some (inl None) /\
  trace (run h (deployOvf s itemID vmName profileID) w)
    = [RestLogin; DeployLibraryItem itemID dSpec; RestLogout;
       FinderObjectReference (fst deployment) (snd deployment);
       NewVMFromObject o].
Proof.
  intros dSpec w1 w2 w3 w4 Hlogin Hdeploy Href Hnew.
  subst w1 w2 w3 w4.
  assert (Hrun :
    run h (deployOvf s itemID vmName profileID) w
    = {| trace := [RestLogin; DeployLibraryItem itemID dSpec; RestLogout;
                   FinderObjectReference (fst deployment) (snd deployment);
                   NewVMFromObject o];
         final :=
           snd (h (NewVMFromObject o)
                  (snd (h (FinderObjectReference (fst deployment)
                                                 (snd deployment))
                          (snd (h RestLogout
                                  (snd (h (DeployLibraryItem itemID dSpec)
                                          (snd (h RestLogin w)))))))));
         result := Some (inl None) |}).
  { unfold deployOvf, WithRestClient, try, try_with, call. cbv zeta.
    fold dSpec. cbn [bind defer run].
    destruct (h RestLogin w) as [r w1]. cbn [fst snd] in *. subst r.
    cbn [bind defer run].
    destruct (h (DeployLibraryItem itemID dSpec) w1) as [r w2].
    cbn [fst snd] in *. subst r. cbn [bind defer run].
    destruct (h RestLogout w2) as [r w3]. cbn [fst snd] in *.
    cbn [bind defer run].
    destruct (h (FinderObjectReference (fst deployment) (snd deployment)) w3)
      as [r' w4].
    cbn [fst snd] in *. subst r'. cbn [bind run].
    destruct (h (NewVMFromObject o) w4) as [r' w5].
    cbn [fst snd] in *. subst r'. reflexivity. }
  rewrite Hrun. split; reflexivity.
Qed.




End Vsphere.

(** * The properties on concrete runs *)

(** C3, on further quantities, at the edges of a megabyte and at 2^53
    bytes. *)
Lemma memoryQuantityToMb_examples :
  memoryQuantityToMb {| Value := 0 |} = 0 /\
  memoryQuantityToMb {| Value := 1 |} = 1 /\
  memoryQuantityToMb {| Value := 1048576 |} = 1 /\
  memoryQuantityToMb {| Value := 1048577 |} = 2 /\
  memoryQuantityToMb {| Value := 9007199254740992 |} = 8589934592.
Proof. repeat split; vm_compute; reflexivity. Qed.

(** C1, as the specification states it, fails: the lookup of the virtual
    machine finds nothing and [DeleteVirtualMachine] returns an error, the
    NotFound status error, where the specification has it return none. *)
Lemma delete_of_gone_vm_returns_error :
  fst (gone (FinderVirtualMachine "web") tt) = inr (NotFoundError "vm" "web") /\
  result (run gone (VSphereVmProvider_DeleteVirtualMachine "VirtualMachine"
                      vm_bare) tt)
    = Some (Some (StatusNotFound "VirtualMachine" "tenant-a/web")) /\
  result (run gone (VSphereVmProvider_DeleteVirtualMachine "VirtualMachine"
                      vm_bare) tt)
    <> Some None.
Proof. repeat split; [vm_compute; discriminate]. Qed.

(** C1 on the sample backends: the virtual machine that is gone, and the
    name that two virtual machines answer to. *)
Lemma delete_lookup_error_is_returned_witness :
  trace (run gone (VSphereVmProvider_DeleteVirtualMachine "VirtualMachine"
                     vm_bare) tt)
    = [GetSession "tenant-a"; FinderVirtualMachine "web"] /\
  result (run gone (VSphereVmProvider_DeleteVirtualMachine "VirtualMachine"
                      vm_bare) tt)
    = Some (Some (StatusNotFound "VirtualMachine" "tenant-a/web")) /\
  result (run ambiguous (VSphereVmProvider_DeleteVirtualMachine
                           "VirtualMachine" vm_bare) tt)
    = Some (Some (MultipleFoundError "vm" "web")).
Proof.
  destruct (delete_lookup_error_is_returned "VirtualMachine" gone tt vm_bare
              sample_session (NotFoundError "vm" "web") eq_refl eq_refl)
    as (Htrace & Hgone & _).
  destruct (delete_lookup_error_is_returned "VirtualMachine" ambiguous tt
              vm_bare sample_session (MultipleFoundError "vm" "web")
              eq_refl eq_refl)
    as (_ & _ & Hmany).
  split; [exact Htrace |].
  split; [apply Hgone; reflexivity | apply Hmany; reflexivity].
Defined.

(** C2 on the sample backend: a create without an image and a create
    with one. *)
Lemma create_takes_exactly_one_path_witness :
  entered (trace (run (healthy sample_session)
                      (VSphereVmProvider_CreateVirtualMachine
                         "VirtualMachine" "nsx-t" "vmoperator.vmware.com"
                         "vmoperator.vmware.com/vmprovider" "poweredOn"
                         vm_bare sample_class ∅ "") tt))
    = [SessionCreateVirtualMachine] /\
  entered (trace (run (healthy sample_session)
                      (VSphereVmProvider_CreateVirtualMachine
                         "VirtualMachine" "nsx-t" "vmoperator.vmware.com"
                         "vmoperator.vmware.com/vmprovider" "poweredOn"
                         vm_image sample_class ∅ "") tt))
    = [SessionCloneVirtualMachine].
Proof.
  split.
  - apply (create_takes_exactly_one_path
             "VirtualMachine" "nsx-t" "vmoperator.vmware.com"
             "vmoperator.vmware.com/vmprovider" "poweredOn"
             (healthy sample_session) tt vm_bare sample_class ∅ ""
             sample_session eq_refl).
    reflexivity.
  - apply (create_takes_exactly_one_path
             "VirtualMachine" "nsx-t" "vmoperator.vmware.com"
             "vmoperator.vmware.com/vmprovider" "poweredOn"
             (healthy sample_session) tt vm_image sample_class ∅ ""
             sample_session eq_refl).
    simpl. discriminate.
Defined.


(** The scenario of the specification for C5: one interface, two network
    adapters on the remote virtual machine. *)
Lemma interfaces_replace_devices_witness :
  result (run (healthy sample_session)
              (deviceChangeSpecs "nsx-t" sample_session vm_one_nic
                                 (sample_handle "web")) tt)
    = Some (inl (sample_removes ++ [sample_vnic "net-a" (-100)])) /\
  countOperation VirtualDeviceConfigSpecOperationRemove
                 (sample_removes ++ [sample_vnic "net-a" (-100)]) = 2%nat /\
  countOperation VirtualDeviceConfigSpecOperationAdd
                 (sample_removes ++ [sample_vnic "net-a" (-100)]) = 1%nat /\
  countOperation VirtualDeviceConfigSpecOperationEdit
                 (sample_removes ++ [sample_vnic "net-a" (-100)]) = 0%nat.
Proof.
  assert (Hnics : NetworkInterfaces (Spec vm_one_nic) <> []).
  { simpl. discriminate. }
  destruct (interfaces_replace_devices "nsx-t" (healthy sample_session) tt
              sample_session vm_one_nic (sample_handle "web") sample_devices
              Hnics eq_refl) as [Hshape _].
  destruct (Hshape (sample_removes ++ [sample_vnic "net-a" (-100)]) eq_refl)
    as (adds & _ & _ & _ & Hremove & Hadd & Hedit).
  split; [reflexivity |].
  split; [exact Hremove |]. split; [exact Hadd | exact Hedit].
Defined.

(** C6 on the backend that turns reconfigurations down. *)
Lemma reconfigure_failure_short_circuits_witness :
  result (run reconfigure_fails
              (updateVm "poweredOn" vm_image sample_config (sample_handle "web")) tt)
    = Some (Some (Fault "InvalidDeviceSpec")) /\
  trace (run reconfigure_fails
             (updateVm "poweredOn" vm_image sample_config (sample_handle "web")) tt)
    = [VmReconfigure (sample_handle "web") sample_config].
Proof.
  destruct (reconfigure_failure_short_circuits "poweredOn" reconfigure_fails tt vm_image
              sample_config (sample_handle "web") (Fault "InvalidDeviceSpec")
              eq_refl) as (Hresult & Htrace & _).
  split; [exact Hresult | exact Htrace].
Defined.



(** C8 on the sample backend: the merge succeeds, the phase stays
    [Creating], the rest is what the backend reports. On the backend
    that refuses every call the merge fails and the virtual machine is
    returned as it was. *)
Lemma merge_keeps_phase_witness :
  result (run (healthy sample_session)
              (mergeVmStatus vm_image (sample_handle "web")) tt)
    = Some (setStatus vm_image (setPhase sample_observed "Creating"), None) /\
  exists observed,
    fst (healthy sample_session (VmGetStatus (sample_handle "web")) tt)
      = inl observed /\
    Phase (Status (setStatus vm_image (setPhase sample_observed "Creating")))
      = "Creating"%string /\
    StatusPowerState
      (Status (setStatus vm_image (setPhase sample_observed "Creating")))
      = StatusPowerState observed /\
    BiosUuid (Status (setStatus vm_image (setPhase sample_observed "Creating")))
      = BiosUuid observed /\
    InternalId
      (Status (setStatus vm_image (setPhase sample_observed "Creating")))
      = InternalId observed /\
    VmIp (Status (setStatus vm_image (setPhase sample_observed "Creating")))
      = VmIp observed /\
    result (run (stateless refuse)
                (mergeVmStatus vm_image (sample_handle "web")) tt)
      = Some (vm_image,
              Some (Wrapf unavailable "unable to get VirtualMachine status"
                          [])).
Proof.
  split; [reflexivity |].
  destruct (merge_keeps_phase (healthy sample_session) tt vm_image
              (sample_handle "web")) as (Hmerge & _ & _).
  destruct (Hmerge (setStatus vm_image (setPhase sample_observed "Creating"))
              eq_refl)
    as (observed & Hst & Hphase & Hpower & Huuid & Hid & Hip & _).
  destruct (merge_keeps_phase (stateless refuse) tt vm_image
              (sample_handle "web")) as (_ & _ & Hfail).
  exists observed. repeat (split; [assumption |]).
  exact (Hfail unavailable eq_refl).
Defined.

(** C9 on three interfaces: the keys -100, -101 and -102. *)
Lemma new_device_keys_unique_negative_witness :
  result (run (healthy sample_session)
              (deviceSpecsFromVM "nsx-t" sample_session vm_three_nics) tt)
    = Some (inl [sample_vnic "net-a" (-100); sample_vnic "net-b" (-101);
                 sample_vnic "net-c" (-102)]) /\
  deviceKeys [sample_vnic "net-a" (-100); sample_vnic "net-b" (-101);
              sample_vnic "net-c" (-102)] = [-100; -101; -102]%Z /\
  NoDup (deviceKeys [sample_vnic "net-a" (-100); sample_vnic "net-b" (-101);
                     sample_vnic "net-c" (-102)]).
Proof.
  assert (Hbound : (Z.of_nat (length (NetworkInterfaces (Spec vm_three_nics)))
                    <= 2 ^ 31 - 99)%Z).
  { vm_compute. discriminate. }
  destruct (new_device_keys_unique_negative "nsx-t" (healthy sample_session)
              tt sample_session vm_three_nics
              [sample_vnic "net-a" (-100); sample_vnic "net-b" (-101);
               sample_vnic "net-c" (-102)] Hbound eq_refl)
    as (_ & _ & Hkeys & Hnodup & _).
  split; [reflexivity |]. split; [exact Hkeys | exact Hnodup].
Defined.

(** C10 on a specification without power state. *)
Lemma unset_power_state_defaults_to_on_witness :
  trace (run (healthy sample_session)
             (updatePowerState "poweredOn" vm_bare (sample_handle "web")) tt)
    = [VmSetPowerState (sample_handle "web") "poweredOn"] /\
  trace (run (healthy sample_session)
             (updateVm "poweredOn" vm_bare sample_config (sample_handle "web")) tt)
    = [VmReconfigure (sample_handle "web") sample_config;
       VmSetPowerState (sample_handle "web") "poweredOn"].
Proof.
  destruct (unset_power_state_defaults_to_on "poweredOn"
              (healthy sample_session) tt
              vm_bare (sample_handle "web") eq_refl) as [Hstate Hupdate].
  split; [exact Hstate | apply Hupdate; reflexivity].
Defined.

(** The quantity of the specification lies within the precision of
    [float64]: there the conversion is the ceiling. *)
Lemma memoryQuantityToMb_exact_witness :
  memoryQuantityToMb {| Value := 1500000000 |}
    = mb_ceiling {| Value := 1500000000 |}.
Proof.
  apply (memoryQuantityToMb_exact {| Value := 1500000000 |}).
  simpl. split; discriminate.
Defined.

(** On the sample backend the update sets the power state, and it has
    reconfigured first. *)
Lemma power_state_only_after_reconfigure_witness :
  fst (healthy sample_session
         (VmReconfigure (sample_handle "web") sample_config) tt) = None /\
  exists state,
    trace (run (healthy sample_session)
               (updateVm "poweredOn" vm_image sample_config
                         (sample_handle "web")) tt)
      = [VmReconfigure (sample_handle "web") sample_config;
         VmSetPowerState (sample_handle "web") state].
Proof.
  apply (power_state_only_after_reconfigure "poweredOn"
           (healthy sample_session) tt vm_image sample_config
           (sample_handle "web")).
  apply Exists_cons_tl, Exists_cons_hd. reflexivity.
Defined.

(** On the backend that refuses every call the create ends with the
    error of the session manager. *)
Lemma create_without_session_witness :
  trace (run (stateless refuse)
             (VSphereVmProvider_CreateVirtualMachine
                "VirtualMachine" "nsx-t" "vmoperator.vmware.com"
                "vmoperator.vmware.com/vmprovider" "poweredOn"
                vm_bare sample_class ∅ "") tt)
    = [GetSession "tenant-a"] /\
  result (run (stateless refuse)
              (VSphereVmProvider_CreateVirtualMachine
                 "VirtualMachine" "nsx-t" "vmoperator.vmware.com"
                 "vmoperator.vmware.com/vmprovider" "poweredOn"
                 vm_bare sample_class ∅ "") tt)
    = Some (vm_bare, Some unavailable).
Proof.
  exact (create_without_session
           "VirtualMachine" "nsx-t" "vmoperator.vmware.com"
           "vmoperator.vmware.com/vmprovider" "poweredOn"
           (stateless refuse) tt vm_bare sample_class ∅ "" unavailable
           eq_refl).
Defined.

(** A specification that asks for a powered-off virtual machine has the
    power state set to just that. *)
Lemma set_power_state_is_applied_witness :
  trace (run (healthy sample_session)
             (updatePowerState "poweredOn"
                (sample_vm "" "poweredOff" [] None) (sample_handle "web")) tt)
    = [VmSetPowerState (sample_handle "web") "poweredOff"].
Proof.
  apply (set_power_state_is_applied "poweredOn" (healthy sample_session) tt
           (sample_vm "" "poweredOff" [] None) (sample_handle "web")).
  simpl. discriminate.
Defined.

(** The descriptor of a virtual machine with metadata of its own, on a
    session with a global extra configuration: the owner is the one the
    virtual machine names, the zone comes from the session. *)
Lemma descriptor_extra_config_witness :
  exists configSpec,
    configSpecFromClassSpec sample_session_extra "web" (Spec vm_extra_config)
                            sample_class sample_metadata []
      = inl configSpec /\
    ("guestinfo.owner"%string, "tenant-a"%string) ∈ ExtraConfig configSpec /\
    ("guestinfo.zone"%string, "eu-1"%string) ∈ ExtraConfig configSpec.
Proof.
  eexists. split; [reflexivity |].
  split;
    apply (descriptor_extra_config sample_session_extra "web"
             (Spec vm_extra_config) sample_class sample_metadata [] _ eq_refl).
  - split; [discriminate |]. left. reflexivity.
  - split; [discriminate |]. right. split; [reflexivity |].
    eexists. split; reflexivity.
Defined.

(** A virtual machine without image on the sample backend: made and
    powered on. *)
Lemma create_from_scratch_powers_on_witness :
  exists before configSpec,
    trace (run (healthy sample_session)
               (Session_CreateVirtualMachine "nsx-t" "poweredOn"
                  sample_session vm_bare sample_class ∅) tt)
      = before ++
        [VmCreate (NewVMForCreate "web") "group-v4" "resgroup-9" configSpec;
         VmSetPowerState (sample_handle "web") "poweredOn"] /\
    leavesBackendAlone before /\
    ConfigName configSpec = "web"%string /\
    Files configSpec = Some "[datastore-11]"%string.
Proof.
  exact (create_from_scratch_powers_on "nsx-t" "poweredOn"
           (healthy sample_session) tt sample_session vm_bare sample_class ∅
           (sample_handle "web") eq_refl).
Defined.

(** The profile gold on a source with one disk. *)
Lemma storage_profile_on_every_disk_witness :
  exists vdcs,
    result (run with_disk (processStorageClass (sample_handle "ubuntu-2210")
                                               "gold") tt)
      = Some (inl (vdcs, ["gold"%string])) /\
    length vdcs = 1%nat /\
    Forall (fun cs => Profile cs = ["gold"%string] /\
                      FileOperation cs = ""%string) vdcs.
Proof.
  eexists. split; [reflexivity |]. split; [reflexivity |].
  destruct (storage_profile_on_every_disk with_disk tt
              (sample_handle "ubuntu-2210") "gold" _ _ eq_refl)
    as [(Hempty & _) | (_ & _ & Hall & _)].
  - discriminate Hempty.
  - exact Hall.
Defined.

(** The clone of the sample image, with one disk, for a specification
    that asks for a powered-on virtual machine under the profile "gold":
    the two interfaces edited to the default network, then the disk under
    the profile, on the host and the datastore the placement chose. *)
Lemma clone_spec_shape_witness :
  exists cloneSpec,
    result (run placing
                (getCloneSpec "nsx-t" "poweredOn" sample_session "web"
                   (sample_handle "ubuntu-2210") vm_image sample_class ∅
                   "gold")
                tt)
      = Some (inl cloneSpec) /\
    PowerOn cloneSpec = true /\
    CloneMemory cloneSpec = Some false /\
    ConfigName (Config cloneSpec) = "web"%string /\
    DeviceChange (Config cloneSpec) = [] /\
    Pool (Location cloneSpec) = "resgroup-9"%string /\
    Folder (Location cloneSpec) = "group-v4"%string /\
    LocationProfile (Location cloneSpec) = ["gold"%string] /\
    LocationDeviceChange (Location cloneSpec)
      = sample_edits
        ++ [ {| Operation := VirtualDeviceConfigSpecOperationEdit;
                FileOperation := "";
                Device := sample_disk;
                Profile := ["gold"%string] |} ] /\
    Host (Location cloneSpec) = Some "host-21"%string /\
    Datastore (Location cloneSpec) = Some "datastore-12"%string.
Proof.
  eexists. split; [reflexivity |].
  destruct (clone_spec_shape "nsx-t" "poweredOn" placing tt
              sample_session "web" (sample_handle "ubuntu-2210") vm_image
              sample_class ∅ "gold" _ eq_refl)
    as (H1 & H2 & H3 & H4 & H5 & H6 & H7 & _ & Hparts).
  repeat (split; [assumption |]).
  destruct Hparts
    as (vdcs & vmProfile & deviceSpecs & o & asked & rSpec & Hstorage
        & Hdevices & _ & _ & Hplace & _ & Hchange & _ & Hhost & Hstore & _).
  cbv zeta in Hstorage, Hdevices, Hplace.
  injection Hstorage as <- <-. injection Hdevices as <-.
  injection Hplace as <-.
  split; [exact Hchange |]. split; [exact Hhost | exact Hstore].
Defined.

(** One NSX-T interface and one interface of the default network: one
    wait, and a customization with the name of the virtual machine. *)
Lemma customization_follows_nsxt_interfaces_witness :
  exists custom,
    result (run (healthy sample_session)
                (getCustomizationSpecs "nsx-t" sample_session "tenant-a" "web"
                                       (Spec vm_nsxt)) tt)
      = Some (inl (Some custom)) /\
    trace (run (healthy sample_session)
               (getCustomizationSpecs "nsx-t" sample_session "tenant-a" "web"
                                      (Spec vm_nsxt)) tt)
      = [WaitForVnetIFStatus "tenant-a" "net-a" "web"] /\
    HostName custom = "web"%string.
Proof.
  eexists. split; [reflexivity |].
  destruct (customization_follows_nsxt_interfaces "nsx-t"
              (healthy sample_session) tt sample_session "tenant-a" "web"
              (Spec vm_nsxt) _ eq_refl)
    as (Htrace & _ & Hhost & _).
  split; [exact Htrace | exact Hhost].
Defined.

(** The virtual machine is gone: the check says so without an error. *)
Lemma existence_check_reads_lookup_witness :
  result (run gone (DoesVirtualMachineExist "tenant-a" "web") tt)
    = Some (inl false) /\
  trace (run gone (DoesVirtualMachineExist "tenant-a" "web") tt)
    = [GetSession "tenant-a"; FinderVirtualMachine "web"].
Proof.
  destruct (existence_check_reads_lookup gone tt "tenant-a" "web"
              sample_session eq_refl) as (Hresult & Htrace & _).
  split; [exact Hresult | exact Htrace].
Defined.

(** The image of the specification is not in the inventory: the error
    names the virtual machine. *)
Lemma create_from_missing_image_witness :
  result (run gone
              (VSphereVmProvider_CreateVirtualMachine
                 "VirtualMachine" "nsx-t" "vmoperator.vmware.com"
                 "vmoperator.vmware.com/vmprovider" "poweredOn"
                 vm_image sample_class ∅ "") tt)
    = Some (vm_image, Some (StatusNotFound "VirtualMachine" "tenant-a/web"))
  /\
  trace (run gone
             (VSphereVmProvider_CreateVirtualMachine
                "VirtualMachine" "nsx-t" "vmoperator.vmware.com"
                "vmoperator.vmware.com/vmprovider" "poweredOn"
                vm_image sample_class ∅ "") tt)
    = [GetSession "tenant-a"; Enter SessionCloneVirtualMachine;
       FinderVirtualMachine "ubuntu-2210"].
Proof.
  apply (create_from_missing_image
           "VirtualMachine" "nsx-t" "vmoperator.vmware.com"
           "vmoperator.vmware.com/vmprovider" "poweredOn"
           gone tt vm_image sample_class ∅ "" sample_session
           (NotFoundError "vm" "ubuntu-2210")).
  - discriminate.
  - reflexivity.
  - reflexivity.
  - reflexivity.
  - reflexivity.
Defined.



(** The sample library has two OVF items and an ISO image: two images
    are listed. *)
Lemma library_listing_keeps_ovf_items_witness :
  returned (exec (working sample_session_library)
                 (Session_ListVirtualMachineImagesFromCL
                    sample_session_library "tenant-a") tt)
    = Some (inl [plainImage "tenant-a"
                   {| ItemID := "item-1"; ItemName := "ubuntu-2210";
                      ItemType := "ovf" |};
                 plainImage "tenant-a"
                   {| ItemID := "item-3"; ItemName := "photon-4";
                      ItemType := "ovf" |}]) /\
  ops (exec (working sample_session_library)
            (Session_ListVirtualMachineImagesFromCL
               sample_session_library "tenant-a") tt)
    = [Core RestLogin; GetLibraryItems "library-1"; Core RestLogout].
Proof.
  exact (library_listing_keeps_ovf_items (working sample_session_library) tt
           sample_session_library "tenant-a" "library-1" sample_items
           eq_refl eq_refl eq_refl).
Defined.

(** An inventory without virtual machines: no image and no error. *)
Lemma inventory_images_witness :
  returned (exec empty_inventory
                 (VSphereVmProvider_ListVirtualMachineImages
                    "VirtualMachineImage" "tenant-a") tt)
    = Some (inl []) /\
  ops (exec empty_inventory
            (VSphereVmProvider_ListVirtualMachineImages
               "VirtualMachineImage" "tenant-a") tt)
    = [Core (GetSession ""); FinderVirtualMachineList "*"].
Proof.
  exact (inventory_images "VirtualMachineImage" empty_inventory tt "tenant-a"
           sample_session eq_refl eq_refl).
Defined.

(** The library has no item of the name. *)
Lemma library_image_missing_witness :
  returned (exec library_without_item
                 (VSphereVmProvider_GetVirtualMachineImage
                    "VirtualMachineImage" "tenant-a" "ubuntu-2210") tt)
    = Some (inr (Errorf "item: %v is not found in CL" ["ubuntu-2210"%string]))
  /\
  ops (exec library_without_item
            (VSphereVmProvider_GetVirtualMachineImage
               "VirtualMachineImage" "tenant-a" "ubuntu-2210") tt)
    = [Core (GetSession ""); Core RestLogin;
       Core (FindLibraryItems "library-1" "ubuntu-2210"); Core RestLogout].
Proof.
  exact (library_image_missing "VirtualMachineImage" library_without_item tt
           "tenant-a" "ubuntu-2210" "library-1" sample_session_library
           eq_refl eq_refl eq_refl eq_refl).
Defined.

(** The inventory has no virtual machine of the name. *)
Lemma inventory_image_missing_witness :
  returned (exec (over gone)
                 (VSphereVmProvider_GetVirtualMachineImage
                    "VirtualMachineImage" "tenant-a" "ubuntu-2210") tt)
    = Some (inr (StatusNotFound "VirtualMachineImage"
                                "tenant-a/ubuntu-2210")) /\
  ops (exec (over gone)
            (VSphereVmProvider_GetVirtualMachineImage
               "VirtualMachineImage" "tenant-a" "ubuntu-2210") tt)
    = [Core (GetSession ""); Core (FinderVirtualMachine "ubuntu-2210")].
Proof.
  exact (inventory_image_missing "VirtualMachineImage" (over gone) tt
           "tenant-a" "ubuntu-2210" sample_session
           (NotFoundError "vm" "ubuntu-2210")
           eq_refl eq_refl eq_refl eq_refl).
Defined.


(** The sample configuration names every part: the session has them
    all. *)
Lemma session_built_from_configuration_witness :
  exists s,
    returned (exec (working sample_session)
                   (NewSessionAndConfigure sample_provider_config) tt)
      = Some (inl s) /\
    builtFrom sample_provider_config s /\
    init_cluster s = Some "domain-c8"%string /\
    init_contentlib s = Some "library-1"%string.
Proof.
  eexists. split; [reflexivity |].
  destruct (session_built_from_configuration (working sample_session) tt
              sample_provider_config _ eq_refl) as (_ & Hbuilt & _).
  split; [exact Hbuilt |]. split; reflexivity.
Defined.

(** The resource pool of the configuration does not exist: the client
    is logged out. *)
Lemma failed_init_logs_client_out_witness :
  returned (exec pool_missing (NewSessionAndConfigure sample_provider_config)
                 tt)
    = Some (inr (Wrapf (NotFoundError "pool" "resgroup-9")
                       "failed to init Resource Pool %q"
                       ["resgroup-9"%string])) /\
  ops (exec pool_missing (NewSessionAndConfigure sample_provider_config) tt)
    = [NewClient sample_provider_config; FinderDatacenter "datacenter-2";
       Core (FinderObjectReference "ResourcePool" "resgroup-9");
       FinderResourcePool "resgroup-9"; ClientLogout "client-1"].
Proof.
  exact (failed_init_logs_client_out pool_missing tt sample_provider_config
           "client-1" _ eq_refl eq_refl).
Defined.

(** The REST endpoint refuses the login: the session is given up and its
    client stays logged in. *)
Lemma failed_content_keeps_client_witness :
  returned (exec login_refused (NewSessionAndConfigure sample_provider_config)
                 tt)
    = Some (inr (Wrapf unavailable "failed to init Content Library %q"
                       ["library-1"%string])) /\
  Forall (fun o => isClientLogout o = false)
         (ops (exec login_refused
                    (NewSessionAndConfigure sample_provider_config) tt)).
Proof.
  destruct (failed_content_keeps_client login_refused tt
              sample_provider_config "client-1" _ _ _
              eq_refl eq_refl eq_refl) as (Hreturned & _ & Hops).
  split; [exact Hreturned | exact Hops].
Defined.

(** A delete on the sample backend: the sequence runs and its answer is
    the answer of the delete. *)
Lemma delete_runs_sequence_witness :
  result (run (healthy sample_session)
              (VSphereVmProvider_DeleteVirtualMachine "VirtualMachine"
                                                      vm_image) tt)
    = Some None.
Proof.
  exact (delete_runs_sequence "VirtualMachine" (healthy sample_session) tt
           vm_image sample_session (sample_object "web") (sample_handle "web")
           eq_refl eq_refl eq_refl).
Defined.

(** The deployment is made, the handle is not: the deploy returns
    nothing at all. *)
Lemma deploy_drops_wrapping_error_witness :
  result (run wrapping_fails
              (deployOvf sample_session_library "item-1" "web" "") tt)
    = Some (inl None) /\
  length (trace (run wrapping_fails
                     (deployOvf sample_session_library "item-1" "web" "") tt))
    = 5%nat.
Proof.
  destruct (deploy_drops_wrapping_error wrapping_fails tt
              sample_session_library "item-1" "web" ""
              ("VirtualMachine"%string, "vm-42"%string)
              {| ObjectName := "web"; ObjectRef := "vm-42" |}
              (Fault "no such object") eq_refl eq_refl eq_refl eq_refl)
    as [Hresult Htrace].
  split; [exact Hresult | rewrite Htrace; reflexivity].
Defined.


(** An inventory of two virtual machines of which the second cannot be
    wrapped: the listing returns the first and no error. *)
Lemma list_passes_over_failures_witness :
  ops (exec one_unwrappable
            (Session_ListVirtualMachines sample_session "*") tt)
    = [FinderVirtualMachineList "*";
       Core (NewVMFromObject (sample_object "ubuntu-2210"));
       Core (NewVMFromObject (sample_object "photon-4"))] /\
  returned (exec one_unwrappable
                 (Session_ListVirtualMachines sample_session "*") tt)
    = Some (inl [sample_handle "ubuntu-2210"]).
Proof.
  destruct (list_passes_over_failures one_unwrappable tt sample_session "*")
    as (Hops & _ & Hret & _).
  split; [exact Hops | exact Hret].
Defined.
